(** * F1 prediction engine: a shallow embedding of [prediction_service.py]

    The development follows [src/api/app/services/prediction_service.py]
    function by function.  Python objects become records, dictionaries
    become finite maps (or association lists where iteration order
    matters), the mutable service object, the model file and numpy's global
    random generator become one explicit state threaded through a small
    state-and-exception monad, and the scikit-learn / numpy / provider
    calls the service makes are the fields of interfaces the embedding is
    parameterised over. *)

From Stdlib Require Import QArith Qminmax Lqa Lia.
From stdpp Require Import base option list sorting gmap strings.

Set Default Proof Using "Type".

(** ** Numbers

    A Python [float] is modelled as an exact rational or [NaN], the marker
    pandas uses for a missing value.  Rounding and infinities are not
    modelled; arithmetic on [NaN] yields [NaN], comparisons with [NaN] are
    false. *)

Inductive float : Type :=
| Num (q : Q)
| NaN.

Definition lift2 (f : Q → Q → Q) (a b : float) : float :=
  match a, b with
  | Num x, Num y => Num (f x y)
  | _, _ => NaN
  end.

Definition fadd : float → float → float := lift2 Qplus.
Definition fsub : float → float → float := lift2 Qminus.
Definition fmul : float → float → float := lift2 Qmult.

(** Division; a zero divisor gives [NaN] (the only division of the program,
    in [_calculate_z_score], is guarded by [std == 0]). *)
Definition fdiv (a b : float) : float :=
  match a, b with
  | Num x, Num y => if Qeq_bool y 0 then NaN else Num (x / y)
  | _, _ => NaN
  end.

(** Python's [a < b] and [a == b] on floats. *)
Definition fltb (a b : float) : bool :=
  match a, b with
  | Num x, Num y => negb (Qle_bool y x)
  | _, _ => false
  end.

Definition feqb (a b : float) : bool :=
  match a, b with
  | Num x, Num y => Qeq_bool x y
  | _, _ => false
  end.

(** Being the same float: equal rationals, or both [NaN]. *)
Definition feq (a b : float) : Prop :=
  match a, b with
  | Num x, Num y => (x == y)%Q
  | NaN, NaN => True
  | _, _ => False
  end.

Definition is_nan (a : float) : bool :=
  match a with NaN => true | Num _ => false end.

(** [int] to [float]. *)
Definition of_nat (n : nat) : Q := inject_Z (Z.of_nat n).

(** ** Dynamically typed values

    The values a JSON request body can put under a key of the weights
    mapping. *)

Inductive pyval : Type :=
| PyNone
| PyBool (b : bool)
| PyNum (x : float)
| PyStr (s : string).

(** Truth value of an object in an [if]. *)
Definition truthy (v : pyval) : bool :=
  match v with
  | PyNone => false
  | PyBool b => b
  | PyNum (Num q) => negb (Qeq_bool q 0)
  | PyNum NaN => true
  | PyStr s => negb (String.eqb s EmptyString)
  end.

(** ** Exceptions *)

Inductive exn : Type :=
| NotFittedError
| TypeError
| KeyError (key : string)
| IndexError
| OSError
| ValueError (msg : string).

Definition exn_str (e : exn) : string :=
  match e with
  | NotFittedError => "This estimator instance is not fitted yet."
  | TypeError => "unsupported operand type(s)"
  | KeyError k => k
  | IndexError => "index out of bounds"
  | OSError => "cannot write the model file"
  | ValueError msg => msg
  end.

Inductive result (A : Type) : Type :=
| Ok (a : A)
| Raise (e : exn).
Arguments Ok {A} a.
Arguments Raise {A} e.

(** The number a weight stands for when it is multiplied with a numpy
    float: [bool] is a number, [None] and strings are a [TypeError]. *)
Definition to_number (v : pyval) : result float :=
  match v with
  | PyNum x => Ok x
  | PyBool b => Ok (Num (if b then 1 else 0))
  | PyNone | PyStr _ => Raise TypeError
  end.

(** ** [PredictionWeights] *)

Record PredictionWeights : Type := {
  track_suitability : pyval;
  clean_air_pace : pyval;
  qualifying_importance : pyval;
  team_form : pyval;
  weather_impact : pyval;
  chaos_mode : pyval
}.

(** [kwargs.get(key, default)] *)
Definition kwargs_get (kwargs : gmap string pyval) (key : string) (dflt : pyval) : pyval :=
  default dflt (kwargs !! key).

(** The body of [PredictionWeights.__init__], on the dictionary Python binds
    to its keyword arguments.  That dictionary never holds the key ["self"]:
    a call with this keyword raises before the body runs, see
    [PredictionWeights_call]. *)
Definition PredictionWeights_init (kwargs : gmap string pyval) : PredictionWeights :=
  {| track_suitability := kwargs_get kwargs "track_suitability" (PyNum (Num 0.85));
     clean_air_pace := kwargs_get kwargs "clean_air_pace" (PyNum (Num 0.90));
     qualifying_importance := kwargs_get kwargs "qualifying_importance" (PyNum (Num 0.85));
     team_form := kwargs_get kwargs "team_form" (PyNum (Num 0.68));
     weather_impact := kwargs_get kwargs "weather_impact" (PyNum (Num 0.45));
     chaos_mode := kwargs_get kwargs "chaos_mode" (PyBool false) |}.

Definition weight_keys : list string :=
  ["track_suitability"; "clean_air_pace"; "qualifying_importance";
   "team_form"; "weather_impact"; "chaos_mode"].

(** The call of [PredictionWeights] on a mapping unpacked into keyword
    arguments.  The first parameter of [__init__] is named [self], so the
    key ["self"] cannot be bound to the keyword dictionary: Python raises
    [TypeError] (multiple values for the argument).  Every other key
    reaches the body. *)
Definition PredictionWeights_call (mapping : gmap string pyval) : result PredictionWeights :=
  match mapping !! "self" with
  | Some _ => Raise TypeError
  | None => Ok (PredictionWeights_init mapping)
  end.

(** ** scikit-learn objects

    A fitted [GradientBoostingRegressor] is known by what the service asks
    of it: its [predict] and its [feature_importances_].  A [SimpleImputer]
    is known by the [statistics_] learnt at fit time. *)

Record fitted_gbr : Type := {
  predict_fn : list (list float) → result (list float);
  importances : list float
}.

Inductive regressor : Type :=
| Unfitted
| Fitted (m : fitted_gbr).

Inductive simple_imputer : Type :=
| ImputerUnfitted
| ImputerFitted (statistics : list float).

(** [model.predict(X)] and [model.feature_importances_]: both start with
    [check_is_fitted]. *)
Definition predict (m : regressor) (X : list (list float)) : result (list float) :=
  match m with
  | Unfitted => Raise NotFittedError
  | Fitted f => predict_fn f X
  end.

Definition feature_importances_ (m : regressor) : result (list float) :=
  match m with
  | Unfitted => Raise NotFittedError
  | Fitted f => Ok (importances f)
  end.

(** What the service takes from scikit-learn without looking inside. *)
Class Sklearn : Type := {
  (** [SimpleImputer(strategy="median").fit(X).statistics_] *)
  imputer_fit : list (list float) → result (list float);
  (** [transform] of an imputer fitted with the given statistics *)
  imputer_transform : list float → list (list float) → result (list (list float));
  (** [train_test_split(X, y, test_size=0.3, random_state=37)] *)
  train_test_split :
    list (list float) → list float →
    result (list (list float) * list (list float) * list float * list float);
  (** [GradientBoostingRegressor(...).fit(X, y)] *)
  gbr_fit : list (list float) → list float → result fitted_gbr;
  mean_absolute_error : list float → list float → result float
}.

(** What the service takes from numpy: the draws of the global random
    generator, in the order they are made, and [np.argsort]. *)
Class Numpy : Type := {
  standard_normal : nat → Q;
  argsort : list float → list nat
}.

(** ** Weather and provider data *)

Definition datetime : Type := Z.

Record WeatherData : Type := {
  timestamp : datetime;
  temperature_c : float;
  wind_kph : float;
  precipitation_prob : float;
  precipitation_mm : float;
  cloud_percentage : Z;
  humidity_percentage : Z;
  pressure_hpa : float;
  weather_condition : string;
  is_wet : bool
}.

(** A row of the qualifying [DataFrame]: a cell is a float (possibly NaN)
    or [None]. *)
Record quali_row : Type := {
  Driver : string;
  Q1 : option float;
  Q2 : option float;
  Q3 : option float
}.

(** The collaborators of the service: the clock, the weather service and
    the FastF1 service. *)
Class Providers : Type := {
  datetime_now : datetime;
  isoformat : datetime → string;
  get_weather_forecast : string → datetime → option WeatherData;
  get_clean_air_race_pace : Z → string → result (gmap string float);
  get_qualifying_results : Z → string → result (option (list quali_row))
}.

(** ** The model file *)

(** The pickled dictionary; a key is absent ([None]) or holds an object of
    the type [_save_model] writes under it. *)
Record bundle : Type := {
  b_model : option (option regressor);
  b_imputer : option (option simple_imputer);
  b_feature_names : option (list string);
  b_trained_at : option string
}.

(** [models/race_prediction_model.pkl] *)
Inductive file_state : Type :=
| NoFile
| Corrupt
| Pickled (b : bundle).

(** ** State

    The mutable attributes of the service ([self.model], [self.imputer]),
    the model file, and the number of draws made from numpy's generator. *)

Record state : Type := {
  model : option regressor;
  imputer : option simple_imputer;
  disk : file_state;
  writable : bool;
  draws : nat
}.

Definition set_model (m : option regressor) (s : state) : state :=
  {| model := m; imputer := imputer s; disk := disk s;
     writable := writable s; draws := draws s |}.

Definition set_imputer (i : option simple_imputer) (s : state) : state :=
  {| model := model s; imputer := i; disk := disk s;
     writable := writable s; draws := draws s |}.

Definition set_disk (d : file_state) (s : state) : state :=
  {| model := model s; imputer := imputer s; disk := d;
     writable := writable s; draws := draws s |}.

Definition set_draws (n : nat) (s : state) : state :=
  {| model := model s; imputer := imputer s; disk := disk s;
     writable := writable s; draws := n |}.

(** ** The monad of service methods *)

Definition M (A : Type) : Type := state → result A * state.

Definition ret {A} (a : A) : M A := λ s, (Ok a, s).

Definition bind {A B} (m : M A) (k : A → M B) : M B :=
  λ s, match m s with
       | (Ok a, s') => k a s'
       | (Raise e, s') => (Raise e, s')
       end.

Definition raise {A} (e : exn) : M A := λ s, (Raise e, s).

(** A pure computation that may raise. *)
Definition lift {A} (r : result A) : M A := λ s, (r, s).

Definition get : M state := λ s, (Ok s, s).
Definition modify (f : state → state) : M unit := λ s, (Ok tt, f s).

(** [try: body except Exception as e: handler(e)]; what [body] did to the
    state before raising stays done. *)
Definition try_except {A} (body : M A) (handler : exn → M A) : M A :=
  λ s, match body s with
       | (Ok a, s') => (Ok a, s')
       | (Raise e, s') => handler e s'
       end.

#[export] Instance M_ret : MRet M := @ret.
#[export] Instance M_bind : MBind M := λ A B k m, bind m k.

(** [for x in l: ...] with an accumulator. *)
Fixpoint for_each {A B} (l : list A) (acc : B) (body : B → A → M B) : M B :=
  match l with
  | [] => ret acc
  | x :: l' => acc' ← body acc x; for_each l' acc' body
  end.

(** [np.random.normal(loc, scale)] *)
Definition normal `{Numpy} (loc scale : Q) : M float :=
  λ s, (Ok (Num (loc + scale * standard_normal (draws s))), set_draws (S (draws s)) s).

#[export] Instance result_ret : MRet result := @Ok.
#[export] Instance result_bind : MBind result :=
  λ A B k r, match r with Ok a => k a | Raise e => Raise e end.

(** [l[i]] *)
Definition index {A} (l : list A) (i : nat) : result A :=
  match l !! i with
  | Some x => Ok x
  | None => Raise IndexError
  end.

(** [d[key]] on an entry of a dictionary that may be absent *)
Definition dict_index {A} (entry : option A) (key : string) : result A :=
  match entry with
  | Some x => Ok x
  | None => Raise (KeyError key)
  end.

Fixpoint mapM {A B} (f : A → result B) (l : list A) : result (list B) :=
  match l with
  | [] => Ok []
  | x :: l' => y ← f x; ys ← mapM f l'; Ok (y :: ys)
  end.

(** [enumerate(l)] *)
Definition enumerate {A} (l : list A) : list (nat * A) :=
  zip (seq 0 (length l)) l.

(** [sorted(l, key=key)]: a stable sort that compares keys with [<] only.
    [insert_by] puts [x], which stood before the elements of [l], in front
    of the first element that is not smaller than it. *)
Fixpoint insert_by {A} (key : A → float) (x : A) (l : list A) : list A :=
  match l with
  | [] => [x]
  | y :: l' => if fltb (key y) (key x) then y :: insert_by key x l' else x :: y :: l'
  end.

Fixpoint sorted {A} (key : A → float) (l : list A) : list A :=
  match l with
  | [] => []
  | x :: l' => insert_by key x (sorted key l')
  end.

(** ** [DriverPrediction]

    The two probabilities are floats that are never [NaN]. *)

Record DriverPrediction : Type := {
  driver : string;
  team : string;
  predicted_time : float;
  win_probability : Q;
  top3_probability : Q
}.

(** ** Training data and the answer of [train_model] *)

(** What a training dictionary holds under ["features"]: a list of numbers,
    or a value that has no length (a null, a number, a boolean), on which
    [len] raises.  Strings, objects and lists of other things are not
    covered. *)
Inductive features_value : Type :=
| FeatureList (l : list float)
| Unsized.

(** One dictionary of the training list: [None] is an absent key (or, for
    [actual_time], a null). *)
Record race_data : Type := {
  features : option features_value;
  actual_time : option float
}.

(** The dictionary [train_model] returns. *)
Inductive train_response : Type :=
| TrainError (error : string)
| TrainSuccess (mae : float) (feature_importance : list (string * float))
    (training_samples test_samples : nat).

(** ** Constant tables of [PredictionService.__init__] *)

Definition feature_names : list string :=
  ["qualifying_time"; "rain_probability"; "temperature";
   "team_performance_score"; "clean_air_pace"; "average_position_change"].

(** [self.driver_to_team.items()], in insertion order *)
Definition driver_to_team_items : list (string * string) :=
  [("VER", "Red Bull"); ("NOR", "McLaren"); ("PIA", "McLaren"); ("LEC", "Ferrari");
   ("RUS", "Mercedes"); ("HAM", "Mercedes"); ("GAS", "Alpine"); ("ALO", "Aston Martin");
   ("TSU", "Racing Bulls"); ("SAI", "Ferrari"); ("HUL", "Kick Sauber"); ("OCO", "Alpine");
   ("STR", "Aston Martin"); ("ALB", "Williams"); ("COL", "Williams"); ("MAG", "Haas");
   ("BOT", "Kick Sauber"); ("ZHO", "Kick Sauber"); ("RIC", "Racing Bulls")].

Definition driver_to_team : gmap string string := list_to_map driver_to_team_items.

Definition team_performance_scores : gmap string Q :=
  list_to_map
    [("McLaren", 279 # 279); ("Mercedes", 147 # 279); ("Red Bull", 131 # 279);
     ("Williams", 51 # 279); ("Ferrari", 114 # 279); ("Haas", 20 # 279);
     ("Aston Martin", 14 # 279); ("Kick Sauber", 6 # 279);
     ("Racing Bulls", 10 # 279); ("Alpine", 7 # 279)].

Definition average_position_change : gmap string (gmap string Q) :=
  {[ "Monaco" :=
       list_to_map
         [("VER", -1.0); ("NOR", 1.0); ("PIA", 0.2); ("RUS", 0.5); ("SAI", -0.3);
          ("ALB", 0.8); ("LEC", -1.5); ("OCO", -0.2); ("HAM", 0.3); ("STR", 1.1);
          ("GAS", -0.4); ("ALO", -0.6); ("HUL", 0.0)]%Q ]}.

(** The tables local to [_estimate_qualifying_time],
    [_estimate_clean_air_pace] and [_get_clean_air_pace_data]. *)
Definition base_times : gmap string Q :=
  list_to_map
    [("Red Bull", 70.5); ("McLaren", 70.8); ("Ferrari", 71.0); ("Mercedes", 71.2);
     ("Aston Martin", 71.5); ("Alpine", 71.8); ("Williams", 72.0);
     ("Racing Bulls", 72.2); ("Haas", 72.4); ("Kick Sauber", 72.6)]%Q.

Definition driver_adjustments : gmap string Q :=
  list_to_map
    [("VER", -0.3); ("NOR", -0.1); ("LEC", -0.2); ("HAM", -0.1); ("RUS", 0.0);
     ("PIA", 0.1); ("ALO", -0.1); ("SAI", 0.0); ("STR", 0.2); ("GAS", 0.1)]%Q.

Definition base_pace : gmap string Q :=
  list_to_map
    [("Red Bull", 93.5); ("McLaren", 93.7); ("Ferrari", 94.0); ("Mercedes", 94.2);
     ("Aston Martin", 95.0); ("Alpine", 95.5); ("Williams", 95.8);
     ("Racing Bulls", 96.0); ("Haas", 96.2); ("Kick Sauber", 96.5)]%Q.

Definition mock_clean_air_pace : gmap string float :=
  list_to_map
    [("VER", Num 93.191); ("HAM", Num 94.021); ("LEC", Num 93.419); ("NOR", Num 93.429);
     ("ALO", Num 94.784); ("PIA", Num 93.232); ("RUS", Num 93.833); ("SAI", Num 94.497);
     ("STR", Num 95.318); ("HUL", Num 95.345); ("OCO", Num 95.682); ("GAS", Num 95.9);
     ("TSU", Num 96.1); ("ALB", Num 95.8); ("MAG", Num 96.2); ("BOT", Num 96.5);
     ("ZHO", Num 96.8); ("RIC", Num 95.7); ("COL", Num 96.0)].

(** ** Data frames

    [pd.DataFrame(rows, columns=feature_names)]: the rows, each as long as
    the column list.  A column is found by the position of its name. *)

Definition DataFrame (rows : list (list float)) (columns : list string)
  : result (list (list float)) :=
  if forallb (λ row, length row =? length columns)%nat rows
  then Ok rows
  else Raise (ValueError "columns passed do not match the data").

Fixpoint column_position (name : string) (columns : list string) : option nat :=
  match columns with
  | [] => None
  | c :: cs => if String.eqb c name then Some 0%nat
               else S <$> column_position name cs
  end.

(** [row[name]] *)
Definition row_get (name : string) (row : list float) : result float :=
  match column_position name feature_names with
  | Some i => match row !! i with
              | Some v => Ok v
              | None => Raise (KeyError name)
              end
  | None => Raise (KeyError name)
  end.

(** [features_df[name].iloc[i]] *)
Definition iloc (name : string) (i : nat) (features_df : list (list float)) : result float :=
  row ← index features_df i; row_get name row.

(** ** [PredictionService] *)

Section PredictionService.
Context `{Sklearn} `{Numpy} `{Providers}.

(** [_create_default_model] *)
Definition _create_default_model : M unit :=
  modify (set_model (Some Unfitted));;
  modify (set_imputer (Some ImputerUnfitted)).

(** [load_model] *)
Definition load_model : M unit :=
  s ← get;
  loaded ← match disk s with
           | NoFile => ret false
           | Corrupt => ret false
           | Pickled model_data =>
               try_except
                 (m ← lift (dict_index (b_model model_data) "model");
                  modify (set_model m);;
                  i ← lift (dict_index (b_imputer model_data) "imputer");
                  modify (set_imputer i);;
                  ret true)
                 (λ _, ret false)
           end;
  if loaded : bool then ret tt else _create_default_model.

(** [__init__]: the two attributes start as [None], then [load_model]. *)
Definition PredictionService_init : M unit :=
  modify (set_model None);;
  modify (set_imputer None);;
  load_model.

(** [_estimate_qualifying_time] *)
Definition _estimate_qualifying_time (driver team : string) : M float :=
  let base_time := default 72.5%Q (base_times !! team) in
  let adjustment := default 0.0%Q (driver_adjustments !! driver) in
  noise ← normal 0 0.1;
  ret (fadd (Num (base_time + adjustment)) noise).

(** [_estimate_clean_air_pace] *)
Definition _estimate_clean_air_pace (driver team : string) : M float :=
  noise ← normal 0 0.2;
  ret (fadd (Num (default 96.0%Q (base_pace !! team))) noise).

(** [_get_clean_air_pace_data]: the provider's dictionary when it is not
    empty, the mock table when it is empty or the call raised. *)
Definition _get_clean_air_pace_data (year : Z) (event : string) : M (gmap string float) :=
  match get_clean_air_race_pace year event with
  | Ok pace_data => if bool_decide (size pace_data = 0%nat)
                    then ret mock_clean_air_pace
                    else ret pace_data
  | Raise _ => ret mock_clean_air_pace
  end.

(** Truth value of a cell, and [a or b]. *)
Definition cell_truthy (c : option float) : bool :=
  match c with
  | None => false
  | Some x => truthy (PyNum x)
  end.

Definition py_or (a b : option float) : option float :=
  if cell_truthy a then a else b.

(** The loop over [quali_results.iterrows()]. *)
Fixpoint quali_dict_of (rows : list quali_row) (quali_dict : gmap string float)
  : gmap string float :=
  match rows with
  | [] => quali_dict
  | row :: rows' =>
      let time := py_or (py_or (Q3 row) (Q2 row)) (Q1 row) in
      quali_dict_of rows'
        (match time with
         | Some t => if cell_truthy time then <[Driver row := t]> quali_dict else quali_dict
         | None => quali_dict
         end)
  end.

(** [_get_qualifying_predictions] *)
Definition _get_qualifying_predictions (year : Z) (event : string) : M (gmap string float) :=
  let estimates :=
    for_each driver_to_team_items (∅ : gmap string float)
      (λ d '(driver, team),
         t ← _estimate_qualifying_time driver team; ret (<[driver := t]> d)) in
  match get_qualifying_results year event with
  | Ok (Some quali_results) =>
      if bool_decide (quali_results = []) then estimates
      else ret (quali_dict_of quali_results ∅)
  | Ok None => estimates
  | Raise _ => estimates
  end.

(** [_build_driver_features].  The default argument of each [.get] is an
    estimate that is computed (and draws from the random generator) whether
    or not the key is present. *)
Definition _build_driver_features (driver team event : string)
    (weather_data : WeatherData) (clean_air_pace qualifying_data : gmap string float)
    (weights : PredictionWeights) : M (option (list float)) :=
  try_except
    (estimate ← _estimate_qualifying_time driver team;
     let quali_time := default estimate (qualifying_data !! driver) in
     let team_score := default 0.5%Q (team_performance_scores !! team) in
     estimate ← _estimate_clean_air_pace driver team;
     let pace := default estimate (clean_air_pace !! driver) in
     let position_change :=
       default 0.0%Q (default ∅ (average_position_change !! event) !! driver) in
     ret (Some [quali_time;
                precipitation_prob weather_data;
                temperature_c weather_data;
                Num team_score;
                pace;
                Num position_change]))
    (λ _, ret None).

(** [_create_mock_predictions] *)
Definition _create_mock_predictions (features_df : list (list float))
    (drivers : list string) : result (list float) :=
  mapM (λ row,
          qualifying_time ← row_get "qualifying_time" row;
          let base_time := fadd qualifying_time (Num 20) in
          team_factor ← row_get "team_performance_score" row;
          rain_probability ← row_get "rain_probability" row;
          let weather_factor := fadd (Num 1) (fmul rain_probability (Num 0.1)) in
          Ok (fmul (fmul base_time (fsub (Num 2) team_factor)) weather_factor))
       features_df.

(** [_calculate_z_score] *)
Definition _calculate_z_score (value mean std : float) : float :=
  if feqb std (Num 0) then Num 0.0
  else fdiv (fsub value mean) std.

(** One term [weight * z * 0.1] of the adjustment. *)
Definition weighted (weight : pyval) (z : float) : result float :=
  w ← to_number weight; Ok (fmul (fmul w z) (Num 0.1)).

(** The body of the loop of [_apply_weight_adjustments], for the entry
    [(i, (time, driver))] of [enumerate(zip(predicted_times, drivers))]. *)
Definition adjust_entry (features_df : list (list float)) (weights : PredictionWeights)
    (adjusted_times : list float) (entry : nat * (float * string)) : M (list float) :=
  let '(i, (time, driver)) := entry in
  z_track ← lift (iloc "average_position_change" i features_df);
  z_pace ← lift (iloc "clean_air_pace" i features_df);
  z_quali ← lift (iloc "qualifying_time" i features_df);
  z_team ← lift (iloc "team_performance_score" i features_df);
  z_weather ← lift (iloc "rain_probability" i features_df);
  let z_track := _calculate_z_score z_track (Num 0.0) (Num 1.0) in
  let z_pace := _calculate_z_score z_pace (Num 0.0) (Num 1.0) in
  let z_quali := _calculate_z_score z_quali (Num 0.0) (Num 1.0) in
  let z_team := _calculate_z_score z_team (Num 0.0) (Num 1.0) in
  let z_weather := _calculate_z_score z_weather (Num 0.0) (Num 1.0) in
  a1 ← lift (weighted (track_suitability weights) z_track);
  a2 ← lift (weighted (clean_air_pace weights) z_pace);
  a3 ← lift (weighted (qualifying_importance weights) z_quali);
  a4 ← lift (weighted (team_form weights) z_team);
  a5 ← lift (weighted (weather_impact weights) z_weather);
  let adjustment := fadd (fadd (fadd (fadd a1 a2) a3) a4) a5 in
  let adjusted_times := <[i := fadd time adjustment]> adjusted_times in
  if truthy (chaos_mode weights)
  then chaos_noise ← normal 0 2.0;
       ret (alter (λ t, fadd t chaos_noise) i adjusted_times)
  else ret adjusted_times.

(** [_apply_weight_adjustments]: the loop starts from a copy of the
    predicted times. *)
Definition _apply_weight_adjustments (predicted_times : list float)
    (features_df : list (list float)) (drivers : list string)
    (weights : PredictionWeights) : M (list float) :=
  for_each (enumerate (zip predicted_times drivers)) predicted_times
    (adjust_entry features_df weights).

(** The two rank formulas of [_times_to_predictions]. *)
Definition win_prob (i : nat) : Q :=
  Qmax 0.01 (0.95 - of_nat i * 0.05).

Definition top3_prob (i : nat) : Q :=
  if (i <? 3)%nat then 0.8 - of_nat i * 0.1
  else Qmax 0.05 (0.5 - (of_nat i - 3) * 0.05).

(** [_times_to_predictions] *)
Definition _times_to_predictions (drivers : list string) (predicted_times : list float)
  : result (list DriverPrediction) :=
  let sorted_indices := argsort predicted_times in
  mapM (λ '(i, idx),
          driver ← index drivers idx;
          let team := default "Unknown" (driver_to_team !! driver) in
          time ← index predicted_times idx;
          Ok {| driver := driver; team := team; predicted_time := time;
                win_probability := win_prob i; top3_probability := top3_prob i |})
       (enumerate sorted_indices).

(** [imputer.transform(X)] and [imputer.fit_transform(X)] on the imputer
    held in [self.imputer]; fitting changes that object. *)
Definition transform (imp : simple_imputer) (X : list (list float))
  : result (list (list float)) :=
  match imp with
  | ImputerUnfitted => Raise NotFittedError
  | ImputerFitted statistics => imputer_transform statistics X
  end.

Definition fit_transform (X : list (list float)) : M (list (list float)) :=
  statistics ← lift (imputer_fit X);
  modify (set_imputer (Some (ImputerFitted statistics)));;
  lift (imputer_transform statistics X).

(** The weather of [predict_race]: the forecast when a race time is given
    and the weather service answers, the default snapshot otherwise. *)
Definition default_weather : WeatherData :=
  {| timestamp := datetime_now;
     temperature_c := Num 20.0;
     wind_kph := Num 10.0;
     precipitation_prob := Num 0.1;
     precipitation_mm := Num 0.0;
     cloud_percentage := 30;
     humidity_percentage := 60;
     pressure_hpa := Num 1013.25;
     weather_condition := "clear";
     is_wet := false |}.

Definition weather_for (event : string) (race_datetime : option datetime) : WeatherData :=
  let weather_data :=
    match race_datetime with
    | Some t => get_weather_forecast event t
    | None => None
    end in
  match weather_data with
  | Some w => w
  | None => default_weather
  end.

(** The loop of [predict_race] over [self.driver_to_team.items()]. *)
Definition build_all_features (event : string) (weather_data : WeatherData)
    (clean_air_pace qualifying_data : gmap string float) (weights : PredictionWeights)
  : M (list (list float) * list string) :=
  for_each driver_to_team_items ([], [])
    (λ '(driver_features, drivers) '(driver, team),
       features ← _build_driver_features driver team event weather_data
                    clean_air_pace qualifying_data weights;
       match features with
       | Some f => ret (driver_features ++ [f], drivers ++ [driver])
       | None => ret (driver_features, drivers)
       end).

(** [predict_race] *)
Definition predict_race (year : Z) (event : string) (round_num : Z)
    (weights : PredictionWeights) (race_datetime : option datetime)
  : M (list DriverPrediction) :=
  try_except
    (let weather_data := weather_for event race_datetime in
     clean_air_pace ← _get_clean_air_pace_data year event;
     qualifying_data ← _get_qualifying_predictions year event;
     '(driver_features, drivers) ←
       build_all_features event weather_data clean_air_pace qualifying_data weights;
     if bool_decide (driver_features = []) then ret []
     else
       features_df ← lift (DataFrame driver_features feature_names);
       s ← get;
       features_imputed ←
         match imputer s with
         | None =>
             modify (set_imputer (Some ImputerUnfitted));;
             fit_transform features_df
         | Some imp => lift (transform imp features_df)
         end;
       s ← get;
       predicted_times ←
         match model s with
         | None => lift (_create_mock_predictions features_df drivers)
         | Some m => lift (predict m features_imputed)
         end;
       adjusted_times ←
         _apply_weight_adjustments predicted_times features_df drivers weights;
       predictions ← lift (_times_to_predictions drivers adjusted_times);
       ret (sorted predicted_time predictions))
    (λ _, ret []).

(** [_save_model]: a failed write is logged and otherwise ignored. *)
Definition _save_model : M unit :=
  try_except
    (s ← get;
     let model_data :=
       {| b_model := Some (model s);
          b_imputer := Some (imputer s);
          b_feature_names := Some feature_names;
          b_trained_at := Some (isoformat datetime_now) |} in
     if writable s then modify (set_disk (Pickled model_data))
     else raise OSError)
    (λ _, ret tt).

(** The first loop of [train_model].  [race_data.get("features", [])] is
    the empty list for an absent key; [len(features)] raises [TypeError] on
    a value without length, before [actual_time] is looked at, and ends the
    loop.  An example is kept when its feature list has the right length
    and it has an actual time. *)
Fixpoint collect_examples (training_data : list race_data)
  : result (list (list float) * list float) :=
  match training_data with
  | [] => Ok ([], [])
  | race :: rest =>
      match default (FeatureList []) (features race) with
      | Unsized => Raise TypeError
      | FeatureList l =>
          '(X, y) ← collect_examples rest;
          Ok match actual_time race with
             | Some t => if (length l =? length feature_names)%nat
                         then (l :: X, t :: y) else (X, y)
             | None => (X, y)
             end
      end
  end.

(** The [X] and [y] the loop hands to the rest of [train_model]: what it
    has kept when it ends, and nothing when it raises. *)
Definition valid_examples (training_data : list race_data)
  : list (list float) * list float :=
  match collect_examples training_data with
  | Ok examples => examples
  | Raise _ => ([], [])
  end.

(** [train_model] *)
Definition train_model (training_data : list race_data) : M train_response :=
  try_except
    (if bool_decide (training_data = []) then ret (TrainError "No training data")
     else
       '(X, y) ← lift (collect_examples training_data);
       if (length X <? 10)%nat then ret (TrainError "Insufficient training data")
       else
         modify (set_imputer (Some ImputerUnfitted));;
         X_imputed ← fit_transform X;
         '(X_train, X_test, y_train, y_test) ← lift (train_test_split X_imputed y);
         modify (set_model (Some Unfitted));;
         m ← lift (gbr_fit X_train y_train);
         modify (set_model (Some (Fitted m)));;
         y_pred ← lift (predict (Fitted m) X_test);
         mae ← lift (mean_absolute_error y_test y_pred);
         _save_model;;
         imps ← lift (feature_importances_ (Fitted m));
         let feature_importance := zip feature_names imps in
         ret (TrainSuccess mae feature_importance (length X) (length X_test)))
    (λ e, ret (TrainError (exn_str e))).

(** [get_feature_importance] *)
Definition get_feature_importance : M (list (string * float)) :=
  s ← get;
  match model s with
  | None => ret []
  | Some m => imps ← lift (feature_importances_ m); ret (zip feature_names imps)
  end.

End PredictionService.

(** ** The ranking step

    The last two statements of [predict_race]: [_times_to_predictions]
    followed by [sorted(predictions, key=lambda x: x.predicted_time)]. *)

Definition rank_predictions `{Numpy} (drivers : list string) (adjusted_times : list float)
  : result (list DriverPrediction) :=
  predictions ← _times_to_predictions drivers adjusted_times;
  Ok (sorted predicted_time predictions).

(** ** What numpy documents of [argsort]

    numpy orders floats with [NaN] last. *)

Definition np_ltb (a b : float) : bool :=
  match a, b with
  | Num x, Num y => negb (Qle_bool y x)
  | Num _, NaN => true
  | NaN, _ => false
  end.

Definition np_leb (a b : float) : bool := negb (np_ltb b a).

Definition np_le (a b : float) : Prop := np_leb a b = true.

#[export] Instance np_le_dec : RelDecision np_le.
Proof. intros a b. unfold np_le. apply _. Defined.

(** [v[i]], with [NaN] standing in for an index out of range. *)
Definition at_index (v : list float) (i : nat) : float := default NaN (v !! i).

(** [idxs] is an answer [np.argsort(v)] may give: a permutation of the
    indices of [v] that puts the values in order.  The default sort kind is
    not stable, so nothing is said on the order of equal values. *)
Definition argsort_spec (v : list float) (idxs : list nat) : Prop :=
  idxs ≡ₚ seq 0 (length v) ∧ Sorted np_le (at_index v <$> idxs).

(** ** Concrete collaborators

    Simple instances of the three interfaces, to run the service on
    concrete inputs. *)

(** An insertion argsort; [before x y] decides whether an index holding [x]
    stays in front of a smaller index holding [y].  With [np_ltb] equal
    values keep their input order. *)
Fixpoint argsort_insert (before : float → float → bool) (v : list float)
    (i : nat) (idxs : list nat) : list nat :=
  match idxs with
  | [] => [i]
  | j :: idxs' =>
      if before (at_index v j) (at_index v i)
      then j :: argsort_insert before v i idxs'
      else i :: j :: idxs'
  end.

Definition argsort_by (before : float → float → bool) (v : list float) : list nat :=
  foldr (argsort_insert before v) [] (seq 0 (length v)).

Definition numpy_by (before : float → float → bool) : Numpy :=
  {| standard_normal := λ _, 0%Q; argsort := argsort_by before |}.

Definition stable_numpy : Numpy := numpy_by np_ltb.

(** [np.argsort] with its default kind on the times 1, 2, 0, 0, as numpy's
    vectorised sort on x86-64 answers: the indices 3, 2, 0, 1, the two equal
    times in reverse.  On every other input this instance answers with the
    insertion argsort, as numpy does on the two equal times 80, 80. *)
Definition is_1_2_0_0 (v : list float) : bool :=
  match v with
  | [Num a; Num b; Num c; Num d] =>
      Qeq_bool a 1 && Qeq_bool b 2 && Qeq_bool c 0 && Qeq_bool d 0
  | _ => false
  end.

Definition observed_numpy : Numpy :=
  {| standard_normal := λ _, 0%Q;
     argsort := λ v, if is_1_2_0_0 v then [3; 2; 0; 1]%nat else argsort_by np_ltb v |}.

(** A regressor that predicts the same time for every row. *)
Definition constant_model (t : Q) : fitted_gbr :=
  {| predict_fn := λ X, Ok ((λ _, Num t) <$> X);
     importances := [Num 0.5; Num 0.5; Num 0; Num 0; Num 0; Num 0] |}.

Definition simple_sklearn : Sklearn :=
  {| imputer_fit := λ X, Ok (replicate (length feature_names) (Num 0));
     imputer_transform := λ statistics X,
       Ok ((λ row : list float, (λ x, if is_nan x then Num 0 else x) <$> row) <$> X);
     train_test_split := λ X y, Ok (drop 3 X, take 3 X, drop 3 y, take 3 y);
     gbr_fit := λ X y, Ok (constant_model 90);
     mean_absolute_error := λ y_true y_pred, Ok (Num 0) |}.

(** Providers that have nothing to offer. *)
Definition offline_providers : Providers :=
  {| datetime_now := 0%Z;
     isoformat := λ _, "1970-01-01T00:00:00";
     get_weather_forecast := λ _ _, None;
     get_clean_air_race_pace := λ _ _, Ok ∅;
     get_qualifying_results := λ _ _, Ok None |}.

(** A process that has not constructed the service yet, with no model file. *)
Definition blank_state : state :=
  {| model := None; imputer := None; disk := NoFile; writable := true; draws := 0 |}.

(** Ten well-formed training examples, and the first nine of them. *)
Definition example_row (t : Q) : race_data :=
  {| features := Some (FeatureList [Num 71; Num 0.1; Num 20; Num 0.5; Num 94; Num 0]);
     actual_time := Some (Num t) |}.

Definition ten_examples : list race_data :=
  example_row <$> [91; 92; 93; 94; 95; 96; 97; 98; 99; 100]%Q.

Definition nine_examples : list race_data := take 9 ten_examples.

(** ** Auxiliary notions for the properties below *)

(** A computation that touches nothing but the random generator. *)
Definition only_draws {A} (m : M A) : Prop :=
  ∀ s, ∃ n, snd (m s) = set_draws n s.


(** A model file written for another feature layout. *)
Definition foreign_bundle : bundle :=
  {| b_model := Some (Some (Fitted (constant_model 90)));
     b_imputer := Some (Some (ImputerFitted [Num 0; Num 0]));
     b_feature_names := Some ["lap_count"; "tyre_age"];
     b_trained_at := Some "2020-01-01T00:00:00" |}.

(** ** Zero weights *)

(** A weight that counts as the number zero. *)
Definition zero_weight (v : pyval) : Prop :=
  ∃ q, to_number v = Ok (Num q) ∧ (q == 0)%Q.

(** All five coefficients are zero and chaos mode is off. *)
Definition all_zero (weights : PredictionWeights) : Prop :=
  zero_weight (track_suitability weights)
  ∧ zero_weight (clean_air_pace weights)
  ∧ zero_weight (qualifying_importance weights)
  ∧ zero_weight (team_form weights)
  ∧ zero_weight (weather_impact weights)
  ∧ truthy (chaos_mode weights) = false.

Definition zero_weights : PredictionWeights :=
  {| track_suitability := PyNum (Num 0);
     clean_air_pace := PyNum (Num 0);
     qualifying_importance := PyNum (Num 0);
     team_form := PyNum (Num 0);
     weather_impact := PyNum (Num 0);
     chaos_mode := PyBool false |}.

(** A feature row with a value in every column. *)
Definition complete_row (row : list float) : Prop :=
  length row = length feature_names ∧ Forall (λ x, is_nan x = false) row.

(** ** Order of ties *)

(** [a] stands before [b] in [l]. *)
Definition precedes {A} (l : list A) (a b : A) : Prop :=
  ∃ i j, i < j ∧ l !! i = Some a ∧ l !! j = Some b.

(** Ranked competitors with equal times stand in the order of the input. *)
Definition ties_in_input_order (drivers : list string) (out : list DriverPrediction)
  : Prop :=
  ∀ p q a b,
    p < q → out !! p = Some a → out !! q = Some b →
    feqb (predicted_time a) (predicted_time b) = true →
    precedes drivers (driver a) (driver b).

(** What [_times_to_predictions] makes of the entry [(i, idx)]. *)
Definition ranked_as (drivers : list string) (times : list float)
    (entry : nat * nat) (a : DriverPrediction) : Prop :=
  drivers !! entry.2 = Some (driver a)
  ∧ times !! entry.2 = Some (predicted_time a)
  ∧ team a = default "Unknown" (driver_to_team !! driver a)
  ∧ win_probability a = win_prob entry.1
  ∧ top3_probability a = top3_prob entry.1.


(** ** Notions for the properties of the whole service *)

(** The drivers of [self.driver_to_team], in iteration order. *)
Definition roster : list string := driver_to_team_items.*1.

(** What a computation started in [s] leaves alone: the model, the model
    file, and the imputer if there was one. *)
Definition keeps_at {A} (m : M A) (s : state) : Prop :=
  model (m s).2 = model s
  ∧ disk (m s).2 = disk s
  ∧ writable (m s).2 = writable s
  ∧ (is_Some (imputer s) → imputer (m s).2 = imputer s).

(** A weight that can be multiplied with a float. *)
Definition numeric (v : pyval) : Prop := ∃ x, to_number v = Ok x.

Definition numeric_weights (weights : PredictionWeights) : Prop :=
  numeric (track_suitability weights)
  ∧ numeric (clean_air_pace weights)
  ∧ numeric (qualifying_importance weights)
  ∧ numeric (team_form weights)
  ∧ numeric (weather_impact weights).

(** The number a weight stands for ([NaN] where it stands for none). *)
Definition weight_value (v : pyval) : float :=
  match to_number v with
  | Ok x => x
  | Raise _ => NaN
  end.

(** The adjustment the overlay adds for a feature row:
    [0.1 * (w_track * position_change + w_pace * pace + w_quali * quali
            + w_team * team_score + w_weather * rain)]. *)
Definition overlay_of (weights : PredictionWeights) (row : list float) : float :=
  let col i := default NaN (row !! i) in
  fadd (fadd (fadd (fadd
    (fmul (fmul (weight_value (track_suitability weights)) (col 5%nat)) (Num 0.1))
    (fmul (fmul (weight_value (clean_air_pace weights)) (col 4%nat)) (Num 0.1)))
    (fmul (fmul (weight_value (qualifying_importance weights)) (col 0%nat)) (Num 0.1)))
    (fmul (fmul (weight_value (team_form weights)) (col 3%nat)) (Num 0.1)))
    (fmul (fmul (weight_value (weather_impact weights)) (col 1%nat)) (Num 0.1)).

(** The same adjustment as the loop computes it, through the z-scores
    against mean 0 and deviation 1. *)
Definition overlay_raw (weights : PredictionWeights) (row : list float) : float :=
  let z i := _calculate_z_score (default NaN (row !! i)) (Num 0.0) (Num 1.0) in
  fadd (fadd (fadd (fadd
    (fmul (fmul (weight_value (track_suitability weights)) (z 5%nat)) (Num 0.1))
    (fmul (fmul (weight_value (clean_air_pace weights)) (z 4%nat)) (Num 0.1)))
    (fmul (fmul (weight_value (qualifying_importance weights)) (z 0%nat)) (Num 0.1)))
    (fmul (fmul (weight_value (team_form weights)) (z 3%nat)) (Num 0.1)))
    (fmul (fmul (weight_value (weather_impact weights)) (z 1%nat)) (Num 0.1)).

(** A qualifying frame and providers that return it. *)
Definition sample_quali_rows : list quali_row :=
  [ {| Driver := "VER"; Q1 := Some (Num 71.5); Q2 := Some (Num 71.0);
       Q3 := Some (Num 70.3) |};
    {| Driver := "ALB"; Q1 := Some (Num 72.4); Q2 := None; Q3 := Some NaN |} ].

Definition qualifying_providers : Providers :=
  {| datetime_now := 0%Z;
     isoformat := λ _, "1970-01-01T00:00:00";
     get_weather_forecast := λ _ _, None;
     get_clean_air_race_pace := λ _ _, Ok ∅;
     get_qualifying_results := λ _ _, Ok (Some sample_quali_rows) |}.

(** A service holding a trained model and a fitted imputer. *)
Definition trained_state : state :=
  {| model := Some (Fitted (constant_model 90));
     imputer := Some (ImputerFitted (replicate 6 (Num 0)));
     disk := NoFile; writable := true; draws := 0 |}.

(** A scikit-learn whose [fit] of the regressor fails, as it does on
    targets it cannot use. *)
Definition failing_sklearn : Sklearn :=
  {| imputer_fit := λ X, Ok (replicate (length feature_names) (Num 0));
     imputer_transform := λ statistics X, Ok X;
     train_test_split := λ X y, Ok (drop 3 X, take 3 X, drop 3 y, take 3 y);
     gbr_fit := λ X y, Raise (ValueError "Input y contains NaN.");
     mean_absolute_error := λ y_true y_pred, Ok (Num 0) |}.


(** scikit-learn on training examples that are all the same.  The medians
    are the values of the one row, nothing is missing, every split has the
    same seven and three examples, no tree of the regressor finds a split
    on equal targets, so the regressor predicts the target it has seen,
    the error is zero and the importances are all zero. *)
Definition sklearn_on_equal_examples : Sklearn :=
  {| imputer_fit := λ X, Ok (default [] (head X));
     imputer_transform := λ statistics X, Ok X;
     train_test_split := λ X y, Ok (drop 3 X, take 3 X, drop 3 y, take 3 y);
     gbr_fit := λ X y,
       Ok {| predict_fn := λ X', Ok ((λ _, default NaN (head y)) <$> X');
             importances := replicate (length feature_names) (Num 0) |};
     mean_absolute_error := λ y_true y_pred, Ok (Num 0) |}.

(** Ten copies of one training example. *)
Definition equal_examples : list race_data := replicate 10 (example_row 5400).

(** Ten well-formed examples and one whose features are a null. *)
Definition examples_with_null : list race_data :=
  ten_examples ++ [ {| features := Some Unsized; actual_time := Some (Num 101) |} ].

(** * The prediction router: [routers/predict.py] *)

(** ** Strings *)

Definition is_upper (c : Ascii.ascii) : bool :=
  (65 <=? Ascii.nat_of_ascii c)%nat && (Ascii.nat_of_ascii c <=? 90)%nat.

Definition is_lower (c : Ascii.ascii) : bool :=
  (97 <=? Ascii.nat_of_ascii c)%nat && (Ascii.nat_of_ascii c <=? 122)%nat.

Definition to_upper (c : Ascii.ascii) : Ascii.ascii :=
  if is_lower c then Ascii.ascii_of_nat (Ascii.nat_of_ascii c - 32) else c.

Definition to_lower (c : Ascii.ascii) : Ascii.ascii :=
  if is_upper c then Ascii.ascii_of_nat (Ascii.nat_of_ascii c + 32) else c.

(** [s.title()] on an ASCII string: a letter is upper-cased after a
    character that is not a letter and lower-cased after a letter. *)
Fixpoint title_from (previous_is_cased : bool) (s : string) : string :=
  match s with
  | EmptyString => EmptyString
  | String c s' =>
      let cased := is_upper c || is_lower c in
      String (if previous_is_cased then to_lower c else to_upper c)
        (title_from cased s')
  end.

Definition title (s : string) : string := title_from false s.

(** The characters ["_"] and [" "]. *)
Definition underscore : Ascii.ascii := Ascii.ascii_of_nat 95.
Definition space : Ascii.ascii := Ascii.ascii_of_nat 32.

(** [s.replace(a, b)] for single characters. *)
Fixpoint replace_char (a b : Ascii.ascii) (s : string) : string :=
  match s with
  | EmptyString => EmptyString
  | String c s' => String (if Ascii.eqb c a then b else c) (replace_char a b s')
  end.

(** [sep.join(l)] *)
Fixpoint join (sep : string) (l : list string) : string :=
  match l with
  | [] => EmptyString
  | [x] => x
  | x :: l' => x +:+ sep +:+ join sep l'
  end.

(** The clock-and-calendar operations the router uses. *)
Definition date : Type := Z.

Class Calendar : Type := {
  (** [d.hour] *)
  hour : datetime → Z;
  (** [datetime.combine(day, datetime.min.time().replace(hour=14))] *)
  combine_at_14 : date → datetime
}.

(** ** Database rows and queries *)

(** The columns of a race and of a circuit the router reads.  All but the
    primary key are nullable: [None] is a NULL. *)
Record Race : Type := {
  id : Z;
  circuit_key : option string;
  grand_prix : option string;
  race_date : option date;
  session_start : option datetime
}.

Record Circuit : Type := {
  name : option string
}.

(** The two queries of the router: the first race of a year and round, the
    first circuit whose key is the key of the race. *)
Record database : Type := {
  query_race : Z → Z → option Race;
  query_circuit : option string → option Circuit
}.

(** What an endpoint does: it replies, raises an [HTTPException], or lets
    another exception escape (the framework then answers 500). *)
Inductive http_result (A : Type) : Type :=
| Reply (a : A)
| HTTPException (status_code : Z) (detail : string)
| Unhandled (e : exn).
Arguments Reply {A} a.
Arguments HTTPException {A} status_code detail.
Arguments Unhandled {A} e.

(** pydantic's [ValidationError], a [ValueError]; its text is shortened. *)
Definition validation_error : exn :=
  ValueError "validation error for PredictionResponse".

Module PredictRouter.

(** [weight > bound] on a value of the weights mapping *)
Definition greater (weight : pyval) (bound : Q) : result bool :=
  x ← to_number weight; Ok (fltb (Num bound) x).

(** [max(feature_importance.items(), key=lambda x: x[1])]: the first item
    no later item is greater than. *)
Definition max_item (items : list (string * float)) : option (string * float) :=
  match items with
  | [] => None
  | first :: rest =>
      Some (foldl (λ best item, if fltb best.2 item.2 then item else best) first rest)
  end.

Section Router.
Context `{Sklearn} `{Numpy} `{Providers} `{Calendar}.

(** [_generate_prediction_explanation] *)
Definition _generate_prediction_explanation (weights : PredictionWeights)
    (race_datetime : option datetime) (feature_importance : list (string * float))
  : result string :=
  track ← greater (track_suitability weights) 0.8;
  pace ← greater (clean_air_pace weights) 0.8;
  quali ← greater (qualifying_importance weights) 0.8;
  weather ← greater (weather_impact weights) 0.6;
  let explanations :=
    (if track : bool
     then ["High track suitability weighting favors drivers with strong historical performance at this circuit"]
     else [])
    ++ (if pace : bool
        then ["Clean air pace is heavily weighted, benefiting drivers with strong one-lap pace"]
        else [])
    ++ (if quali : bool
        then ["Qualifying position is crucial - grid position heavily influences race outcome"]
        else [])
    ++ (if weather : bool
        then ["Weather conditions significantly impact the predictions"]
        else [])
    ++ (if truthy (chaos_mode weights)
        then ["Chaos mode enabled - increased unpredictability and variance in outcomes"]
        else [])
    ++ match max_item feature_importance with
       | Some top_feature =>
           ["Most important prediction factor: "
            +:+ title (replace_char underscore space top_feature.1)]
       | None => []
       end
    ++ match race_datetime with
       | Some t =>
           if (hour t <? 10)%Z
           then ["Early race start may affect driver performance and strategy"]
           else if (18 <? hour t)%Z
           then ["Late race start increases likelihood of changing track conditions"]
           else []
       | None => []
       end in
  let explanations :=
    if bool_decide (explanations = [])
    then ["Predictions based on historical performance, qualifying pace, and team form"]
    else explanations in
  Ok (join ". " explanations +:+ ".").

(** The fields of a prediction of the service. *)
Definition prediction_fields (pred : DriverPrediction)
  : string * string * float * Q * Q :=
  (driver pred, team pred, predicted_time pred,
   win_probability pred, top3_probability pred).

Record DriverPredictionResponse : Type := {
  driver : string;
  team : string;
  predicted_time : float;
  win_probability : Q;
  top3_probability : Q
}.

Definition response_of (pred : DriverPrediction) : DriverPredictionResponse :=
  let '(driver, team, time, win, top3) := prediction_fields pred in
  {| driver := driver; team := team; predicted_time := time;
     win_probability := win; top3_probability := top3 |}.

Record PredictionResponse : Type := {
  race_id : Z;
  year : Z;
  round : Z;
  response_grand_prix : string;
  circuit_name : string;
  race_datetime : option string;
  weights : gmap string pyval;
  predictions : list DriverPredictionResponse;
  feature_importance : list (string * float);
  model_confidence : Q;
  explanation : string
}.

(** [_create_fallback_predictions] *)
Definition _create_fallback_predictions : list DriverPredictionResponse :=
  [ {| driver := "VER"; team := "Red Bull"; predicted_time := Num 5400.0;
       win_probability := 0.35; top3_probability := 0.75 |};
    {| driver := "NOR"; team := "McLaren"; predicted_time := Num 5405.0;
       win_probability := 0.25; top3_probability := 0.65 |};
    {| driver := "LEC"; team := "Ferrari"; predicted_time := Num 5410.0;
       win_probability := 0.15; top3_probability := 0.55 |};
    {| driver := "PIA"; team := "McLaren"; predicted_time := Num 5412.0;
       win_probability := 0.12; top3_probability := 0.50 |};
    {| driver := "RUS"; team := "Mercedes"; predicted_time := Num 5415.0;
       win_probability := 0.08; top3_probability := 0.45 |};
    {| driver := "HAM"; team := "Mercedes"; predicted_time := Num 5418.0;
       win_probability := 0.05; top3_probability := 0.40 |} ].

(** Truth value of [prediction_service.model]: an ensemble is as true as
    it has estimators, and an unfitted one has no [estimators_] to count
    (the attribute error is rendered by its message). *)
Definition model_truth (m : option regressor) : result bool :=
  match m with
  | None => Ok false
  | Some (Fitted _) => Ok true
  | Some Unfitted =>
      Raise (ValueError "'GradientBoostingRegressor' object has no attribute 'estimators_'")
  end.

(** The race time of the request: the session start, else two o'clock on
    the race day, else none. *)
Definition race_datetime_of (race : Race) : option datetime :=
  match session_start race with
  | Some t => Some t
  | None => match race_date race with
            | Some day => Some (combine_at_14 day)
            | None => None
            end
  end.

(** [circuit.name if circuit else "Unknown Circuit"] for the circuit of a
    race; [None] for a circuit row without name. *)
Definition circuit_name_of (db : database) (race : Race) : option string :=
  match query_circuit db (circuit_key race) with
  | Some circuit => name circuit
  | None => Some "Unknown Circuit"
  end.

(** The call of [PredictionResponse]: [grand_prix] and [circuit_name] are
    [str] fields, and validation fails on [None].  The other arguments
    have the types of their fields wherever the endpoint builds a
    response. *)
Definition PredictionResponse_call (race_id year round : Z)
    (grand_prix circuit_name race_datetime : option string)
    (weights : gmap string pyval) (predictions : list DriverPredictionResponse)
    (feature_importance : list (string * float)) (model_confidence : Q)
    (explanation : string) : result PredictionResponse :=
  match grand_prix, circuit_name with
  | Some grand_prix, Some circuit_name =>
      Ok {| race_id := race_id; year := year; round := round;
            response_grand_prix := grand_prix;
            circuit_name := circuit_name;
            race_datetime := race_datetime;
            weights := weights;
            predictions := predictions;
            feature_importance := feature_importance;
            model_confidence := model_confidence;
            explanation := explanation |}
  | _, _ => Raise validation_error
  end.

(** The response of the [except] branch of [predict_race]. *)
Definition fallback_response (race_id year round : Z)
    (grand_prix circuit_name : option string)
    (request_weights : gmap string pyval) (e : exn) : result PredictionResponse :=
  PredictionResponse_call race_id year round grand_prix circuit_name None
    request_weights _create_fallback_predictions [] 0.3
    ("Using fallback predictions due to ML service error: " +:+ exn_str e).

(** What the weather service and the FastF1 service answer when they are
    asked with [None] for the event, as they are for a circuit row without
    name. *)
Variable forecast_without_event : datetime → option WeatherData.
Variable pace_without_event : Z → result (gmap string float).
Variable qualifying_without_event : Z → result (option (list quali_row)).

Definition asked_without_event : Providers :=
  {| datetime_now := datetime_now;
     isoformat := isoformat;
     get_weather_forecast := λ _, forecast_without_event;
     get_clean_air_race_pace := λ year _, pace_without_event year;
     get_qualifying_results := λ year _, qualifying_without_event year |}.

(** [prediction_service.predict_race(year=year, event=circuit_name, ...)].
    With [None] for the event the service asks its providers with [None]
    and finds no position changes for the event, as it finds none under
    the empty name. *)
Definition service_predict_race (year : Z) (event : option string) (round_num : Z)
    (weights : PredictionWeights) (race_datetime : option datetime)
  : M (list DriverPrediction) :=
  match event with
  | Some event => predict_race year event round_num weights race_datetime
  | None =>
      @predict_race _ _ asked_without_event year EmptyString round_num weights
        race_datetime
  end.

(** [predict_race], the endpoint [POST /{year}/{round}] *)
Definition predict_race (year round : Z) (request_weights : gmap string pyval)
    (db : database) : state → http_result PredictionResponse * state :=
  λ s,
    match query_race db year round with
    | None => (HTTPException 404 "Race not found", s)
    | Some race =>
        let circuit_name := circuit_name_of db race in
        let body : M PredictionResponse :=
          weights ← lift (PredictionWeights_call request_weights);
          let race_datetime := race_datetime_of race in
          predictions ← service_predict_race year circuit_name round weights
                          race_datetime;
          feature_importance ← get_feature_importance;
          service ← get;
          model_is_true ← lift (model_truth (model service));
          let model_confidence := if model_is_true : bool then 0.85%Q else 0.45%Q in
          let prediction_responses := response_of <$> predictions in
          explanation ← lift (_generate_prediction_explanation weights race_datetime
                                feature_importance);
          lift (PredictionResponse_call (id race) year round (grand_prix race)
                  circuit_name (isoformat <$> race_datetime) request_weights
                  prediction_responses feature_importance model_confidence
                  explanation) in
        match body s with
        | (Ok response, s') => (Reply response, s')
        | (Raise e, s') =>
            match fallback_response (id race) year round (grand_prix race)
                    circuit_name request_weights e with
            | Ok response => (Reply response, s')
            | Raise e' => (Unhandled e', s')
            end
        end
    end.

(** The answer of [GET /feature-importance] ([last_updated] left out). *)
Record importance_reply : Type := {
  reply_feature_importance : list (string * float);
  model_available : bool
}.

(** [get_feature_importance], the endpoint *)
Definition get_feature_importance : state → http_result importance_reply * state :=
  λ s,
    match get_feature_importance s with
    | (Ok importance, s') =>
        (Reply {| reply_feature_importance := importance;
                  model_available := bool_decide (model s' ≠ None) |}, s')
    | (Raise e, s') =>
        (HTTPException 500 ("Error getting feature importance: " +:+ exn_str e), s')
    end.

(** [train_model], the endpoint [POST /train-model] *)
Definition train_model (training_data : list race_data)
  : state → http_result train_response * state :=
  λ s,
    match train_model training_data s with
    | (Ok result, s') => (Reply result, s')
    | (Raise e, s') =>
        (HTTPException 500 ("Error training model: " +:+ exn_str e), s')
    end.

(** The answer of [GET /model-status] ([last_checked] left out). *)
Record status_reply : Type := {
  model_loaded : bool;
  feature_count : nat;
  status_feature_names : list string;
  driver_count : nat;
  team_count : nat
}.

(** [get_model_status] *)
Definition get_model_status (s : state) : http_result status_reply :=
  Reply {| model_loaded := bool_decide (model s ≠ None);
           feature_count := length feature_names;
           status_feature_names := feature_names;
           driver_count := size driver_to_team;
           team_count := size team_performance_scores |}.

End Router.
End PredictRouter.

(** A calendar and a database with one race, to run the router. *)
Definition simple_calendar : Calendar :=
  {| hour := λ t, ((t / 3600) mod 24)%Z; combine_at_14 := λ day, (day * 86400 + 50400)%Z |}.

Definition monaco_db : database :=
  {| query_race := λ year round,
       if bool_decide (year = 2024%Z ∧ round = 8%Z)
       then Some {| id := 1208; circuit_key := Some "monaco";
                    grand_prix := Some "Monaco Grand Prix";
                    race_date := Some 19869%Z; session_start := None |}
       else None;
     query_circuit := λ key,
       if bool_decide (key = Some "monaco") then Some {| name := Some "Monaco" |}
       else None |}.

(** ** The service over its lifetime *)

(** A model file that does not hold [None] under ["model"]. *)
Definition sound_file (d : file_state) : Prop :=
  match d with
  | Pickled b => b_model b ≠ Some None
  | NoFile | Corrupt => True
  end.

(** The service holds a model object, and so does its model file. *)
Definition has_model (s : state) : Prop :=
  model s ≠ None ∧ sound_file (disk s).

Definition maintains {A} (P : state → Prop) (m : M A) : Prop :=
  ∀ s, P s → P (m s).2.

Section Lifetime.
Context `{Sklearn} `{Numpy} `{Providers}.

(** The states of [prediction_service]: the module constructs it once, on
    a model file that holds a model if it exists, and the routers call
    [predict_race], [train_model] and [get_feature_importance] on it, one
    call after the other. *)
Inductive reachable : state → Prop :=
| reachable_init (s0 : state) :
    sound_file (disk s0) → reachable (PredictionService_init s0).2
| reachable_predict_race year event round_num weights race_datetime (s : state) :
    reachable s →
    reachable (predict_race year event round_num weights race_datetime s).2
| reachable_train_model training_data (s : state) :
    reachable s → reachable (train_model training_data s).2
| reachable_get_feature_importance (s : state) :
    reachable s → reachable (get_feature_importance s).2.

End Lifetime.

(** Weights that sit on the bounds of the explanation. *)
Definition threshold_weights : PredictionWeights :=
  {| track_suitability := PyNum (Num 0.8);
     clean_air_pace := PyNum (Num 0.8);
     qualifying_importance := PyNum (Num 0.8);
     team_form := PyNum (Num 0.68);
     weather_impact := PyNum (Num 0.6);
     chaos_mode := PyBool false |}.

(** The service as the module constructs it without a model file. *)
Definition fresh_state : state :=
  (PredictionService_init blank_state).2.

(** The response of the [except] branch of the prediction endpoint for a
    race and a circuit whose names are set. *)
Definition fallback_of (race_id year round : Z) (grand_prix circuit_name : string)
    (request_weights : gmap string pyval) (e : exn) : PredictRouter.PredictionResponse :=
  {| PredictRouter.race_id := race_id;
     PredictRouter.year := year;
     PredictRouter.round := round;
     PredictRouter.response_grand_prix := grand_prix;
     PredictRouter.circuit_name := circuit_name;
     PredictRouter.race_datetime := None;
     PredictRouter.weights := request_weights;
     PredictRouter.predictions := PredictRouter._create_fallback_predictions;
     PredictRouter.feature_importance := [];
     PredictRouter.model_confidence := 0.3;
     PredictRouter.explanation :=
       "Using fallback predictions due to ML service error: " +:+ exn_str e |}.


(** * The weather service: [services/weather_service.py] *)

(** A string of ASCII characters, on which [title] is [str.title]. *)
Fixpoint is_ascii (s : string) : bool :=
  match s with
  | EmptyString => true
  | String c s' => (Ascii.nat_of_ascii c <? 128)%nat && is_ascii s'
  end.

Module WeatherService.

Record CircuitLocation : Type := {
  name : string;
  latitude : Q;
  longitude : Q
}.

(** [self.circuit_locations] *)
Definition circuit_locations : gmap string CircuitLocation :=
  list_to_map
    [ ("Monaco", {| name := "Monaco"; latitude := 43.7384; longitude := 7.4246 |});
      ("Silverstone",
       {| name := "Silverstone"; latitude := 52.0786; longitude := - 1.01694 |});
      ("Monza", {| name := "Monza"; latitude := 45.6156; longitude := 9.28111 |});
      ("Spa", {| name := "Spa"; latitude := 50.4372; longitude := 5.97139 |});
      ("Suzuka", {| name := "Suzuka"; latitude := 34.8431; longitude := 136.5407 |});
      ("Austin", {| name := "Austin"; latitude := 30.1328; longitude := - 97.6411 |});
      ("Interlagos",
       {| name := "Interlagos"; latitude := - 23.7036; longitude := - 46.6997 |}) ].

(** The [mapping] of [_get_circuit_location] *)
Definition mapping : gmap string string :=
  list_to_map
    [ ("albert_park", "Albert Park");
      ("red_bull_ring", "Red Bull Ring");
      ("yas_marina", "Abu Dhabi");
      ("cota", "Austin") ].

(** [_get_circuit_location] *)
Definition _get_circuit_location (circuit_key : string) : option CircuitLocation :=
  let circuit_name := title (replace_char underscore space circuit_key) in
  match circuit_locations !! circuit_name with
  | Some location => Some location
  | None =>
      match mapping !! circuit_key with
      | Some mapped_name =>
          match circuit_locations !! mapped_name with
          | Some location => Some location
          | None => None
          end
      | None => None
      end
  end.

(** [_get_weather_condition] *)
Definition _get_weather_condition (precipitation_mm : float) (cloud_cover : Z) : string :=
  if fltb (Num 5.0) precipitation_mm then "heavy rain"
  else if fltb (Num 1.0) precipitation_mm then "light rain"
  else if fltb (Num 0.1) precipitation_mm then "drizzle"
  else if (80 <? cloud_cover)%Z then "overcast"
  else if (50 <? cloud_cover)%Z then "partly cloudy"
  else "clear".

(** [precip_mm > 0.1], the [is_wet] of every weather point the service
    builds. *)
Definition wet (precip_mm : float) : bool := fltb (Num 0.1) precip_mm.

(** The dictionary [calculate_weather_impact] returns, by key. *)
Record impact : Type := {
  temperature_effect : Q;
  rain_effect : Q;
  wind_effect : Q;
  track_wet : bool;
  chaos_multiplier : Q
}.

(** [calculate_weather_impact] *)
Definition calculate_weather_impact (weather_data : WeatherData) (circuit_key : string)
  : impact :=
  let temperature_effect :=
    if fltb (Num 30) (temperature_c weather_data) then 0.95%Q
    else if fltb (temperature_c weather_data) (Num 15) then 0.98%Q
    else 1.0%Q in
  let '(rain_effect, chaos_multiplier) :=
    if fltb (Num 5.0) (precipitation_mm weather_data) then (0.85%Q, 2.0%Q)
    else if fltb (Num 1.0) (precipitation_mm weather_data) then (0.92%Q, 1.3%Q)
    else if fltb (Num 0.1) (precipitation_mm weather_data) then (0.97%Q, 1.1%Q)
    else (1.0%Q, 1.0%Q) in
  let wind_effect :=
    if fltb (Num 25) (wind_kph weather_data) then 0.98%Q else 1.0%Q in
  {| temperature_effect := temperature_effect;
     rain_effect := rain_effect;
     wind_effect := wind_effect;
     track_wet := is_wet weather_data;
     chaos_multiplier := chaos_multiplier |}.

End WeatherService.

(** A wet afternoon. *)
Definition rainy_weather : WeatherData :=
  {| timestamp := 0%Z; temperature_c := Num 12.0; wind_kph := Num 30.0;
     precipitation_prob := Num 0.9; precipitation_mm := Num 6.5;
     cloud_percentage := 95; humidity_percentage := 90; pressure_hpa := Num 1003.0;
     weather_condition := "heavy rain"; is_wet := true |}.

Definition dry_weather : WeatherData :=
  {| timestamp := 0%Z; temperature_c := Num 22.0; wind_kph := Num 8.0;
     precipitation_prob := Num 0.0; precipitation_mm := Num 0.0;
     cloud_percentage := 10; humidity_percentage := 40; pressure_hpa := Num 1018.0;
     weather_condition := "clear"; is_wet := false |}.
(** * Properties *)

(** ** The monad *)

Lemma bind_unfold {A B} (m : M A) (k : A → M B) s :
  (m ≫= k) s = match m s with
               | (Ok a, s') => k a s'
               | (Raise e, s') => (Raise e, s')
               end.
Proof. reflexivity. Qed.

Lemma bind_Ok_inv {A B} (m : M A) (k : A → M B) s b s' :
  (m ≫= k) s = (Ok b, s') → ∃ a s1, m s = (Ok a, s1) ∧ k a s1 = (Ok b, s').
Proof.
  rewrite bind_unfold. destruct (m s) as [[a|e] s1]; [eauto | discriminate].
Qed.

Lemma set_draws_twice n n' s : set_draws n (set_draws n' s) = set_draws n s.
Proof. reflexivity. Qed.

Lemma only_draws_ret {A} (a : A) : only_draws (mret a).
Proof. intros s. exists (draws s). by destruct s. Qed.

Lemma only_draws_lift {A} (r : result A) : only_draws (lift r).
Proof. intros s. exists (draws s). by destruct s. Qed.

Lemma only_draws_normal `{Numpy} loc scale : only_draws (normal loc scale).
Proof. intros s. by exists (S (draws s)). Qed.

Lemma only_draws_bind {A B} (m : M A) (k : A → M B) :
  only_draws m → (∀ a, only_draws (k a)) → only_draws (m ≫= k).
Proof.
  intros Hm Hk s. rewrite bind_unfold.
  destruct (Hm s) as [n Hn]. destruct (m s) as [[a|e] s1]; simpl in Hn; subst s1.
  - destruct (Hk a (set_draws n s)) as [n' Hn']. exists n'.
    by rewrite Hn', set_draws_twice.
  - by exists n.
Qed.

Lemma only_draws_try {A} (body : M A) (handler : exn → M A) :
  only_draws body → (∀ e, only_draws (handler e)) → only_draws (try_except body handler).
Proof.
  intros Hb Hh s. unfold try_except.
  destruct (Hb s) as [n Hn]. destruct (body s) as [[a|e] s1]; simpl in Hn; subst s1.
  - by exists n.
  - destruct (Hh e (set_draws n s)) as [n' Hn']. exists n'.
    by rewrite Hn', set_draws_twice.
Qed.

Lemma only_draws_for_each {A B} (l : list A) (acc : B) (body : B → A → M B) :
  (∀ b a, only_draws (body b a)) → only_draws (for_each l acc body).
Proof.
  intros Hbody. revert acc. induction l as [|x l IH]; intros acc; simpl.
  - apply only_draws_ret.
  - apply only_draws_bind; auto.
Qed.

Create HintDb draws.
#[export] Hint Resolve only_draws_ret only_draws_lift only_draws_normal
  only_draws_bind only_draws_try only_draws_for_each : draws.

(** ** [PredictionWeights] *)

Lemma kwargs_get_insert_ne (kwargs : gmap string pyval) k key v dflt :
  k ≠ key → kwargs_get (<[k := v]> kwargs) key dflt = kwargs_get kwargs key dflt.
Proof. intros Hne. unfold kwargs_get. by rewrite lookup_insert_ne. Qed.

Lemma kwargs_get_insert (kwargs : gmap string pyval) key v dflt :
  kwargs_get (<[key := v]> kwargs) key dflt = v.
Proof. unfold kwargs_get. by rewrite lookup_insert_eq. Qed.

(** C10 (as the code has it).  The call of [PredictionWeights] on a keyword
    mapping raises [TypeError] when the mapping has the key ["self"], the
    name of the first parameter of [__init__].  On every other mapping it
    returns an object and ignores every key that is not one of the six
    attribute names; an attribute takes the value found under its name
    exactly as it is, whatever it is (no range check), and a fixed default
    when the name is missing: 0.85, 0.90, 0.85, 0.68, 0.45 for the five
    coefficients, all different from zero, and [False] for [chaos_mode]. *)
Theorem PredictionWeights_call_lenient
    (kwargs : gmap string pyval) (k : string) (v x : pyval) :
  kwargs !! "self" = None →
  k ∉ weight_keys →
  k ≠ "self" →
  PredictionWeights_call (<[k := v]> kwargs) = PredictionWeights_call kwargs
  ∧ PredictionWeights_call kwargs =
      Ok {| track_suitability := default (PyNum (Num 0.85)) (kwargs !! "track_suitability");
            clean_air_pace := default (PyNum (Num 0.90)) (kwargs !! "clean_air_pace");
            qualifying_importance :=
              default (PyNum (Num 0.85)) (kwargs !! "qualifying_importance");
            team_form := default (PyNum (Num 0.68)) (kwargs !! "team_form");
            weather_impact := default (PyNum (Num 0.45)) (kwargs !! "weather_impact");
            chaos_mode := default (PyBool false) (kwargs !! "chaos_mode") |}
  ∧ (∃ w, PredictionWeights_call (<["track_suitability" := x]> kwargs) = Ok w
          ∧ track_suitability w = x)
  ∧ (∃ w, PredictionWeights_call (<["clean_air_pace" := x]> kwargs) = Ok w
          ∧ clean_air_pace w = x)
  ∧ (∃ w, PredictionWeights_call (<["qualifying_importance" := x]> kwargs) = Ok w
          ∧ qualifying_importance w = x)
  ∧ (∃ w, PredictionWeights_call (<["team_form" := x]> kwargs) = Ok w ∧ team_form w = x)
  ∧ (∃ w, PredictionWeights_call (<["weather_impact" := x]> kwargs) = Ok w
          ∧ weather_impact w = x)
  ∧ (∃ w, PredictionWeights_call (<["chaos_mode" := x]> kwargs) = Ok w ∧ chaos_mode w = x)
  ∧ (∃ d, PredictionWeights_call ∅ = Ok d
          ∧ Forall (λ w, ∃ q, w = PyNum (Num q) ∧ ¬ (q == 0)%Q)
              [track_suitability d; clean_air_pace d; qualifying_importance d;
               team_form d; weather_impact d])
  ∧ (∀ mapping : gmap string pyval,
       is_Some (mapping !! "self") → PredictionWeights_call mapping = Raise TypeError).
Proof.
  intros Hself Hk Hks. unfold weight_keys in Hk.
  repeat (apply not_elem_of_cons in Hk as [? Hk]).
  assert (∀ key y, key ≠ "self" →
            PredictionWeights_call (<[key := y]> kwargs)
            = Ok (PredictionWeights_init (<[key := y]> kwargs))) as Hcall.
  { intros key y Hne. unfold PredictionWeights_call.
    by rewrite lookup_insert_ne, Hself. }
  split.
  { rewrite Hcall by done. unfold PredictionWeights_call. rewrite Hself. f_equal.
    unfold PredictionWeights_init. by rewrite !kwargs_get_insert_ne. }
  split.
  { unfold PredictionWeights_call. by rewrite Hself. }
  do 6 (split;
        [eexists; split; [by apply Hcall|];
         unfold PredictionWeights_init; simpl; by rewrite kwargs_get_insert|]).
  split.
  { eexists. split; [reflexivity|].
    repeat constructor; eexists; (split; [reflexivity | by intros ?]). }
  intros mapping [y Hy]. unfold PredictionWeights_call. by rewrite Hy.
Qed.

(** C10, as stated, fails: the key ["self"] is not one of the six names and
    is not ignored; the call raises. *)
Lemma PredictionWeights_call_self_key :
  ("self" ∉ weight_keys)
  ∧ PredictionWeights_call {["self" := PyNum (Num 1)]} = Raise TypeError
  ∧ PredictionWeights_call (<["self" := PyNum (Num 1)]> {["team_form" := PyNum (Num 7)]})
    ≠ PredictionWeights_call {["team_form" := PyNum (Num 7)]}.
Proof.
  split; [refine (bool_decide_unpack _ _); vm_compute; exact I|].
  split; [reflexivity|].
  vm_compute. discriminate.
Qed.

Lemma PredictionWeights_call_lenient_witness :
  ("verbose" ∉ weight_keys)
  ∧ PredictionWeights_call (<["verbose" := PyStr "yes"]> {["team_form" := PyNum (Num 7)]})
    = PredictionWeights_call {["team_form" := PyNum (Num 7)]}
  ∧ ∃ w, PredictionWeights_call {["team_form" := PyNum (Num 7)]} = Ok w
         ∧ team_form w = PyNum (Num 7).
Proof.
  assert (Hk : "verbose" ∉ weight_keys).
  { refine (bool_decide_unpack _ _). vm_compute. exact I. }
  split; [exact Hk|].
  assert (Hself : ({["team_form" := PyNum (Num 7)]} : gmap string pyval) !! "self" = None)
    by (vm_compute; reflexivity).
  split.
  - apply (PredictionWeights_call_lenient {["team_form" := PyNum (Num 7)]}
             "verbose" (PyStr "yes") PyNone Hself Hk).
    discriminate.
  - eexists. split; reflexivity.
Defined.

(** ** The first loop of [train_model] *)

Lemma collect_examples_raises (training_data : list race_data) (e : exn) :
  collect_examples training_data = Raise e → e = TypeError.
Proof.
  induction training_data as [|race rest IH]; simpl; [done|].
  destruct (default (FeatureList []) (features race)) as [l|]; [|by intros [= <-]].
  destruct (collect_examples rest) as [[X y]|e']; simpl; [done|].
  intros [= <-]. by apply IH.
Qed.

Lemma collect_examples_cases (training_data : list race_data) :
  collect_examples training_data = Ok (valid_examples training_data)
  ∨ (collect_examples training_data = Raise TypeError
     ∧ valid_examples training_data = ([], [])).
Proof.
  unfold valid_examples.
  destruct (collect_examples training_data) as [p|e] eqn:E; [by left|].
  right. by rewrite (collect_examples_raises _ _ E).
Qed.

Lemma collect_examples_enough (training_data : list race_data) :
  0 < length (valid_examples training_data).1 →
  collect_examples training_data = Ok (valid_examples training_data).
Proof.
  intros Hlen. destruct (collect_examples_cases training_data) as [H|[_ H]]; [done|].
  rewrite H in Hlen. simpl in Hlen. lia.
Qed.

Lemma collect_examples_unsized (training_data : list race_data) :
  collect_examples training_data = Raise TypeError
  ↔ ∃ race, race ∈ training_data ∧ features race = Some Unsized.
Proof.
  induction training_data as [|race rest IH]; simpl.
  - split; [done|]. intros (r & Hr & _). by apply elem_of_nil in Hr.
  - destruct (features race) as [[l|]|] eqn:Hf; simpl.
    + destruct (collect_examples rest) as [[X y]|e] eqn:E; simpl.
      * split; [done|]. intros (r & Hr & Hu).
        apply elem_of_cons in Hr as [-> | Hr]; [congruence|].
        assert (Ok (X, y) = Raise TypeError) as Habs; [|done].
        apply IH. eauto.
      * rewrite (collect_examples_raises _ _ E) in *.
        split; [|done]. intros _.
        destruct (proj1 IH eq_refl) as (r & Hr & Hu). exists r. split; [by right|done].
    + split; [|done]. intros _. exists race. split; [by left|done].
    + destruct (collect_examples rest) as [[X y]|e] eqn:E; simpl.
      * split; [done|]. intros (r & Hr & Hu).
        apply elem_of_cons in Hr as [-> | Hr]; [congruence|].
        assert (Ok (X, y) = Raise TypeError) as Habs; [|done].
        apply IH. eauto.
      * rewrite (collect_examples_raises _ _ E) in *.
        split; [|done]. intros _.
        destruct (proj1 IH eq_refl) as (r & Hr & Hu). exists r. split; [by right|done].
Qed.

Lemma collect_examples_sized (training_data : list race_data) :
  Forall (λ race, features race ≠ Some Unsized) training_data →
  collect_examples training_data = Ok (valid_examples training_data).
Proof.
  intros Hall. destruct (collect_examples_cases training_data) as [H|[H _]]; [done|].
  apply collect_examples_unsized in H as (race & Hr & Hu).
  rewrite Forall_forall in Hall. by destruct (Hall race Hr).
Qed.

(** ** What the service methods leave alone *)

Section ServiceFacts.
Context `{Sklearn} `{Numpy} `{Providers}.

Lemma only_draws_estimate_qualifying driver team :
  only_draws (_estimate_qualifying_time driver team).
Proof. unfold _estimate_qualifying_time. auto with draws. Qed.

Lemma only_draws_estimate_pace driver team :
  only_draws (_estimate_clean_air_pace driver team).
Proof. unfold _estimate_clean_air_pace. auto with draws. Qed.

Lemma only_draws_pace_data year event :
  only_draws (_get_clean_air_pace_data year event).
Proof.
  unfold _get_clean_air_pace_data.
  destruct (get_clean_air_race_pace year event); [case_bool_decide|]; auto with draws.
Qed.

Lemma only_draws_qualifying_predictions year event :
  only_draws (_get_qualifying_predictions year event).
Proof.
  unfold _get_qualifying_predictions.
  assert (only_draws
    (for_each driver_to_team_items (∅ : gmap string float)
       (λ d '(driver, team),
          t ← _estimate_qualifying_time driver team; ret (<[driver := t]> d)))) as Hest.
  { apply only_draws_for_each. intros d [driver team].
    apply only_draws_bind; [apply only_draws_estimate_qualifying | auto with draws]. }
  destruct (get_qualifying_results year event) as [[rows|]|]; [case_bool_decide|..];
    auto with draws.
Qed.

Lemma only_draws_build_driver_features driver team event w pace quali weights :
  only_draws (_build_driver_features driver team event w pace quali weights).
Proof.
  unfold _build_driver_features.
  apply only_draws_try; [|auto with draws].
  apply only_draws_bind; [apply only_draws_estimate_qualifying|]. intros q.
  apply only_draws_bind; [apply only_draws_estimate_pace|]. auto with draws.
Qed.

Lemma only_draws_build_all_features event w pace quali weights :
  only_draws (build_all_features event w pace quali weights).
Proof.
  unfold build_all_features. apply only_draws_for_each.
  intros [dfs ds] [driver team].
  apply only_draws_bind; [apply only_draws_build_driver_features|].
  intros [f|]; auto with draws.
Qed.

(** With an imputer that was never fitted, [predict_race] gets as far as
    [self.imputer.transform], which raises, and the handler answers with
    the empty list. *)
Lemma predict_race_unfitted_imputer year event round_num weights race_datetime s :
  imputer s = Some ImputerUnfitted →
  fst (predict_race year event round_num weights race_datetime s) = Ok [].
Proof.
  intros Himp. unfold predict_race, try_except.
  match goal with
  | |- context [match ?body s with _ => _ end] =>
      destruct (body s) as [[out|e] s'] eqn:E
  end; [|reflexivity].
  simpl.
  apply bind_Ok_inv in E as (pace & s1 & E1 & E).
  apply bind_Ok_inv in E as (quali & s2 & E2 & E).
  apply bind_Ok_inv in E as ([dfs ds] & s3 & E3 & E).
  destruct (only_draws_pace_data year event s) as [n1 D1].
  rewrite E1 in D1; simpl in D1; subst s1.
  destruct (only_draws_qualifying_predictions year event (set_draws n1 s)) as [n2 D2].
  rewrite E2 in D2; simpl in D2; subst s2.
  destruct (only_draws_build_all_features event (weather_for event race_datetime)
              pace quali weights (set_draws n2 (set_draws n1 s))) as [n3 D3].
  rewrite E3 in D3; simpl in D3; subst s3.
  case_bool_decide; [by inversion E|].
  apply bind_Ok_inv in E as (df & s4 & E4 & E).
  apply bind_Ok_inv in E as (s5 & s6 & E5 & E).
  unfold lift in E4. inversion E5; subst s5 s6. inversion E4; subst s4.
  simpl in E. rewrite Himp in E.
  apply bind_Ok_inv in E as (imputed & s7 & E7 & E).
  discriminate E7.
Qed.

(** The heuristic itself is the documented formula: for a row with
    qualifying time [q], rain probability [r] and team score [t] the mock
    prediction is [(q + 20) * (2 - t) * (1 + r * 0.1)]. *)
Lemma create_mock_predictions_formula (q r temp t pace change : Q) drivers :
  _create_mock_predictions
    [[Num q; Num r; Num temp; Num t; Num pace; Num change]] drivers
  = Ok [Num ((q + 20) * (2 - t) * (1 + r * 0.1))].
Proof. reflexivity. Qed.

(** C1.  A service constructed when there is no readable model file holds
    the default, never fitted model and imputer; every call of
    [predict_race] on it returns the empty list, so no competitor gets a
    prediction and the heuristic of [_create_mock_predictions] is never
    computed.  (The documented behaviour would need [self.model] to be
    [None], which [_create_default_model] rules out.) *)
Theorem predict_race_without_trained_model
    year event round_num weights race_datetime s :
  fst (predict_race year event round_num weights race_datetime
         (snd (PredictionService_init (set_disk NoFile s)))) = Ok []
  ∧ fst (predict_race year event round_num weights race_datetime
           (snd (PredictionService_init (set_disk Corrupt s)))) = Ok []
  ∧ model (snd (PredictionService_init (set_disk NoFile s))) = Some Unfitted.
Proof.
  split; [|split]; [apply predict_race_unfitted_imputer..|]; reflexivity.
Qed.

(** C8.  On a service constructed when there is no readable model file,
    so that no model was ever trained, [get_feature_importance] raises
    [NotFittedError]: the model it holds is the unfitted default, not
    [None], and the guard that would return the empty map does not apply. *)
Theorem get_feature_importance_without_trained_model s :
  fst (get_feature_importance (snd (PredictionService_init (set_disk NoFile s))))
    = Raise NotFittedError
  ∧ fst (get_feature_importance (snd (PredictionService_init (set_disk Corrupt s))))
    = Raise NotFittedError.
Proof. split; reflexivity. Qed.

(** The guard itself: without any model object the map is empty. *)
Lemma get_feature_importance_no_model s :
  model s = None → get_feature_importance s = (Ok [], s).
Proof.
  intros Hm. unfold get_feature_importance. rewrite bind_unfold. simpl.
  by rewrite Hm.
Qed.

(** C9.  Feature construction substitutes defaults and never fails: with
    no race time, or no answer of the weather service, the weather is the
    default snapshot (20 degrees, wind 10, rain probability 0.1, "clear");
    the feature vector always comes back, its rain probability and
    temperature copied from the weather, with team score 0.5 for a team
    missing from the strength table and position change 0.0 for a driver
    missing from the venue's table (or a venue without table). *)
Theorem missing_inputs_get_defaults
    (driver team event : string) (race_datetime : option datetime) (w : WeatherData)
    (pace quali : gmap string float) (weights : PredictionWeights) (s : state) :
  ((∀ t, race_datetime = Some t → get_weather_forecast event t = None) →
   weather_for event race_datetime = default_weather)
  ∧ temperature_c default_weather = Num 20.0
  ∧ wind_kph default_weather = Num 10.0
  ∧ precipitation_prob default_weather = Num 0.1
  ∧ weather_condition default_weather = "clear"
  ∧ ∃ quali_time team_score pace_value position_change,
      fst (_build_driver_features driver team event w pace quali weights s)
        = Ok (Some [quali_time; precipitation_prob w; temperature_c w;
                    Num team_score; pace_value; Num position_change])
      ∧ (team_performance_scores !! team = None → team_score = 0.5%Q)
      ∧ (default ∅ (average_position_change !! event) !! driver = None →
         position_change = 0.0%Q).
Proof.
  split.
  { intros Hw. unfold weather_for. destruct race_datetime as [t|]; [|done].
    by rewrite (Hw t eq_refl). }
  repeat (split; [reflexivity|]).
  eexists _, _, _, _. split; [reflexivity|].
  split; intros ->; reflexivity.
Qed.

(** C6.  With fewer than ten valid examples [train_model] returns with the
    state exactly as it found it: same model, same imputer, same model
    file. *)
Theorem train_model_insufficient_keeps_state (training_data : list race_data) s :
  length (valid_examples training_data).1 < 10 →
  snd (train_model training_data s) = s.
Proof.
  intros Hlen. unfold train_model, try_except.
  case_bool_decide; [reflexivity|].
  rewrite bind_unfold.
  destruct (collect_examples_cases training_data) as [-> | [-> _]]; [|reflexivity].
  cbn [lift]. destruct (valid_examples training_data) as [X y]; simpl in Hlen.
  apply Nat.ltb_lt in Hlen. rewrite Hlen. reflexivity.
Qed.

End ServiceFacts.

Lemma train_model_insufficient_keeps_state_witness :
  length (valid_examples nine_examples).1 < 10
  ∧ snd (@train_model simple_sklearn offline_providers nine_examples
           (set_model (Some (Fitted (constant_model 90))) blank_state))
    = set_model (Some (Fitted (constant_model 90))) blank_state.
Proof.
  assert (Hlen : length (valid_examples nine_examples).1 < 10) by (vm_compute; lia).
  split; [exact Hlen|].
  exact (@train_model_insufficient_keeps_state simple_sklearn offline_providers
           nine_examples _ Hlen).
Defined.

(** ** Training *)

Section Training.
Context `{Sklearn} `{Providers}.

Lemma valid_examples_nil_of_nil : valid_examples [] = ([], []).
Proof. reflexivity. Qed.

Lemma save_model_returns s : ∃ s', _save_model s = (Ok tt, s').
Proof.
  unfold _save_model, try_except. rewrite bind_unfold. simpl.
  destruct (writable s); simpl; eauto.
Qed.

(** C2 (as the code has it).  [train_model] never raises.  For an empty list
    it returns the mapping with the single key ["error"] and the text "No
    training data"; when some example holds a value without length under
    ["features"] it returns the error mapping with the text of the
    [TypeError] of [len]; otherwise, with fewer than ten valid examples, it
    returns the error mapping with the text "Insufficient training data".
    In these three cases it changes nothing.  With ten or more valid
    examples, and the scikit-learn calls succeeding, it returns the success
    mapping whose feature-importance map pairs the feature names, in order,
    with the importances the fitted model reports: six entries, hence not
    empty, when the model reports one importance per feature. *)
Theorem train_model_threshold (training_data : list race_data) (s : state) :
  (∃ r s', train_model training_data s = (Ok r, s'))
  ∧ (training_data = [] →
     train_model training_data s = (Ok (TrainError "No training data"), s))
  ∧ (training_data ≠ [] →
     (∃ race, race ∈ training_data ∧ features race = Some Unsized) →
     train_model training_data s = (Ok (TrainError (exn_str TypeError)), s))
  ∧ (training_data ≠ [] →
     Forall (λ race, features race ≠ Some Unsized) training_data →
     length (valid_examples training_data).1 < 10 →
     train_model training_data s = (Ok (TrainError "Insufficient training data"), s))
  ∧ (10 ≤ length (valid_examples training_data).1 →
     ∀ statistics X_imputed X_train X_test y_train y_test m y_pred mae,
       imputer_fit (valid_examples training_data).1 = Ok statistics →
       imputer_transform statistics (valid_examples training_data).1 = Ok X_imputed →
       train_test_split X_imputed (valid_examples training_data).2
         = Ok (X_train, X_test, y_train, y_test) →
       gbr_fit X_train y_train = Ok m →
       predict_fn m X_test = Ok y_pred →
       mean_absolute_error y_test y_pred = Ok mae →
       fst (train_model training_data s)
         = Ok (TrainSuccess mae (zip feature_names (importances m))
                 (length (valid_examples training_data).1) (length X_test))
       ∧ (length (importances m) = length feature_names →
          (zip feature_names (importances m)).*1 = feature_names
          ∧ (zip feature_names (importances m)).*2 = importances m
          ∧ zip feature_names (importances m) ≠ [])).
Proof.
  split; [|split; [|split; [|split]]].
  - unfold train_model, try_except.
    match goal with
    | |- context [match ?body s with _ => _ end] => destruct (body s) as [[r|e] s']
    end; unfold ret; eauto.
  - intros ->. reflexivity.
  - intros Hne Hbad. apply collect_examples_unsized in Hbad.
    unfold train_model, try_except. rewrite bool_decide_eq_false_2 by done.
    rewrite bind_unfold, Hbad. reflexivity.
  - intros Hne Hsized Hlen. unfold train_model, try_except.
    rewrite bool_decide_eq_false_2 by done.
    rewrite bind_unfold, (collect_examples_sized _ Hsized). cbn [lift].
    destruct (valid_examples training_data) as [X y]; simpl in Hlen.
    apply Nat.ltb_lt in Hlen. by rewrite Hlen.
  - intros Hlen statistics X_imputed X_train X_test y_train y_test m y_pred mae
      Hfit Htr Hsplit Hgbr Hpred Hmae.
    split.
    + unfold train_model, try_except.
      case_bool_decide as Hnil.
      { subst training_data. simpl in Hlen. lia. }
      rewrite bind_unfold, collect_examples_enough by lia. cbn [lift].
      destruct (valid_examples training_data) as [X y]; simpl in *.
      apply Nat.ltb_ge in Hlen. rewrite Hlen.
      unfold fit_transform.
      repeat (rewrite bind_unfold; cbn [lift modify];
              rewrite ?Hfit, ?Htr, ?Hsplit, ?Hgbr, ?Hmae; cbn [predict feature_importances_];
              rewrite ?Hpred).
      match goal with
      | |- context [_save_model ?s0] => destruct (save_model_returns s0) as [s1 ->]
      end.
      reflexivity.
    + intros Himp.
      rewrite fst_zip, snd_zip by lia.
      split; [done|]. split; [done|].
      destruct (importances m); [discriminate|]. discriminate.
Qed.

(** C7 (as the code has it).  [_save_model] writes one bundle holding the
    model, the imputer, the feature names and the time of training;
    [load_model] installs the model and the imputer of any bundle that has
    both keys, whatever feature names and time the bundle carries, so a
    service constructed after a save holds what was saved. *)
Theorem artifact_bundle_and_unchecked_load
    (s : state) (m : option regressor) (i : option simple_imputer)
    (names : option (list string)) (trained_at : option string) :
  writable s = true →
  disk (snd (_save_model s))
    = Pickled {| b_model := Some (model s);
                 b_imputer := Some (imputer s);
                 b_feature_names := Some feature_names;
                 b_trained_at := Some (isoformat datetime_now) |}
  ∧ (let b := {| b_model := Some m; b_imputer := Some i;
                 b_feature_names := names; b_trained_at := trained_at |} in
     let s' := snd (load_model (set_disk (Pickled b) s)) in
     model s' = m ∧ imputer s' = i)
  ∧ (let s' := snd (PredictionService_init (snd (_save_model s))) in
     model s' = model s ∧ imputer s' = imputer s).
Proof.
  intros Hw. unfold _save_model, try_except. rewrite bind_unfold. simpl.
  rewrite Hw. simpl. repeat split; reflexivity.
Qed.

End Training.

(** C2, as stated, fails three times.  Nine valid examples produce an
    ordinary return value, the error mapping, and no exception.  Ten
    copies of one example train a model whose trees have no split: the
    training succeeds with an importance map that is all zero, so its sum
    is not positive.  And ten valid examples do not make a training
    succeed when another example holds a null under ["features"]. *)
Lemma train_model_claim_fails :
  (length (valid_examples nine_examples).1 = 9
   ∧ @train_model simple_sklearn offline_providers nine_examples blank_state
     = (Ok (TrainError "Insufficient training data"), blank_state)
   ∧ ¬ ∃ e s', @train_model simple_sklearn offline_providers nine_examples blank_state
               = (Raise e, s'))
  ∧ (fst (@train_model sklearn_on_equal_examples offline_providers equal_examples
            blank_state)
     = Ok (TrainSuccess (Num 0)
             (zip feature_names [Num 0; Num 0; Num 0; Num 0; Num 0; Num 0]) 10 3)
     ∧ foldr fadd (Num 0) [Num 0; Num 0; Num 0; Num 0; Num 0; Num 0] = Num 0
     ∧ fltb (Num 0) (Num 0) = false)
  ∧ (10 ≤ length (valid_examples (take 10 examples_with_null)).1
     ∧ @train_model simple_sklearn offline_providers examples_with_null blank_state
       = (Ok (TrainError (exn_str TypeError)), blank_state)).
Proof.
  split; [|split].
  - split; [reflexivity|]. split; [reflexivity|].
    intros (e & s' & Hr). discriminate Hr.
  - split; [reflexivity|]. split; reflexivity.
  - split; [vm_compute; lia | reflexivity].
Qed.

Lemma train_model_threshold_witness :
  10 ≤ length (valid_examples ten_examples).1
  ∧ fst (@train_model simple_sklearn offline_providers ten_examples blank_state)
    = Ok (TrainSuccess (Num 0)
            (zip feature_names [Num 0.5; Num 0.5; Num 0; Num 0; Num 0; Num 0]) 10 3).
Proof.
  assert (Hlen : 10 ≤ length (valid_examples ten_examples).1) by (vm_compute; lia).
  split; [exact Hlen|].
  exact (proj1 (proj2 (proj2 (proj2 (proj2
                  (@train_model_threshold simple_sklearn offline_providers
                     ten_examples blank_state)))) Hlen
                  _ _ _ _ _ _ _ _ _ eq_refl eq_refl eq_refl eq_refl eq_refl eq_refl)).
Defined.

(** C7, as stated, fails: a bundle written for two other features is
    installed like any other. *)
Lemma load_model_installs_foreign_layout :
  b_feature_names foreign_bundle ≠ Some feature_names
  ∧ model (snd (PredictionService_init (set_disk (Pickled foreign_bundle) blank_state)))
    = Some (Fitted (constant_model 90))
  ∧ imputer (snd (PredictionService_init (set_disk (Pickled foreign_bundle) blank_state)))
    = Some (ImputerFitted [Num 0; Num 0]).
Proof. split; [discriminate|]. split; reflexivity. Qed.

Lemma artifact_bundle_and_unchecked_load_witness :
  writable blank_state = true
  ∧ disk (snd (@_save_model offline_providers
                 (set_model (Some (Fitted (constant_model 90))) blank_state)))
    = Pickled {| b_model := Some (Some (Fitted (constant_model 90)));
                 b_imputer := Some None;
                 b_feature_names := Some feature_names;
                 b_trained_at := Some "1970-01-01T00:00:00" |}.
Proof.
  split; [reflexivity|].
  exact (proj1 (@artifact_bundle_and_unchecked_load offline_providers
                  (set_model (Some (Fitted (constant_model 90))) blank_state)
                  None None None None eq_refl)).
Defined.

(** ** The weight overlay *)

Section Overlay.
Context `{Numpy}.

Lemma feq_refl a : feq a a.
Proof. destruct a; simpl; [reflexivity | exact I]. Qed.

Lemma feq_trans a b c : feq a b → feq b c → feq a c.
Proof.
  destruct a, b, c; simpl; try tauto. intros -> ->. reflexivity.
Qed.

Lemma fadd_zero (t : float) (q : Q) : (q == 0)%Q → feq (fadd t (Num q)) t.
Proof. intros Hq. destruct t as [x|]; simpl; [rewrite Hq; ring | exact I]. Qed.

(** The z-score against mean 0 and deviation 1 of a number is a number. *)
Lemma z_score_Num (x : Q) :
  ∃ z, _calculate_z_score (Num x) (Num 0.0) (Num 1.0) = Num z.
Proof. eexists. reflexivity. Qed.

Lemma weighted_zero (w : pyval) (z : Q) :
  zero_weight w → ∃ q, weighted w (Num z) = Ok (Num q) ∧ (q == 0)%Q.
Proof.
  intros (q & Hw & Hq). unfold weighted. rewrite Hw. simpl.
  eexists. split; [reflexivity|]. rewrite Hq. ring.
Qed.

(** What [features_df[name].iloc[i]] finds in a complete row. *)
Lemma iloc_complete (features_df : list (list float)) (i : nat) (row : list float)
    (name : string) :
  features_df !! i = Some row → complete_row row → name ∈ feature_names →
  ∃ x, iloc name i features_df = Ok (Num x).
Proof.
  intros Hrow [Hlen Hnan] Hname. unfold iloc, index. rewrite Hrow. simpl.
  destruct row as [|a [|b [|c [|d [|e [|f [|]]]]]]]; try discriminate Hlen.
  unfold feature_names in Hname.
  repeat (apply elem_of_cons in Hname as [->|Hname]);
    [..|by apply elem_of_nil in Hname];
    unfold row_get; simpl;
    repeat match goal with
           | Hn : Forall _ (_ :: _) |- _ => apply Forall_cons in Hn as [? Hn]
           end;
    match goal with
    | |- ∃ x, Ok ?v = Ok (Num x) => destruct v; [eauto | discriminate]
    end.
Qed.

Ltac solve_name := refine (bool_decide_unpack _ _); exact I.

(** One pass of the loop body with zero weights: the entry is rewritten
    with the same time, nothing is drawn. *)
Lemma adjust_step_zero (weights : PredictionWeights) (features_df : list (list float))
    (l : list (nat * (float * string))) (predicted_times acc : list float) (s : state) :
  all_zero weights →
  Forall complete_row features_df →
  Forall (λ '(i, (time, _)), predicted_times !! i = Some time
                             ∧ (i < length features_df)%nat) l →
  Forall2 feq acc predicted_times →
  ∃ adjusted,
    for_each l acc (adjust_entry features_df weights) s
    = (Ok adjusted, s)
    ∧ Forall2 feq adjusted predicted_times.
Proof.
  intros (W1 & W2 & W3 & W4 & W5 & Hchaos) Hdf.
  revert acc. induction l as [|[i [time driver]] l IH]; intros acc Hl Hacc.
  { exists acc. split; [reflexivity | exact Hacc]. }
  apply Forall_cons in Hl as [[Htime Hi] Hl].
  destruct (lookup_lt_is_Some_2 features_df i Hi) as [row Hrow].
  assert (Hc : complete_row row).
  { eapply Forall_lookup_1; eauto. }
  assert (Hin : ∀ name, name ∈ feature_names → ∃ x, iloc name i features_df = Ok (Num x)).
  { intros name Hname. eapply iloc_complete; eauto. }
  destruct (Hin "average_position_change") as [x1 E1]; [solve_name|].
  destruct (Hin "clean_air_pace") as [x2 E2]; [solve_name|].
  destruct (Hin "qualifying_time") as [x3 E3]; [solve_name|].
  destruct (Hin "team_performance_score") as [x4 E4]; [solve_name|].
  destruct (Hin "rain_probability") as [x5 E5]; [solve_name|].
  destruct (z_score_Num x1) as [z1 Z1]. destruct (z_score_Num x2) as [z2 Z2].
  destruct (z_score_Num x3) as [z3 Z3]. destruct (z_score_Num x4) as [z4 Z4].
  destruct (z_score_Num x5) as [z5 Z5].
  destruct (weighted_zero _ z1 W1) as (q1 & A1 & Q1).
  destruct (weighted_zero _ z2 W2) as (q2 & A2 & Q2).
  destruct (weighted_zero _ z3 W3) as (q3 & A3 & Q3).
  destruct (weighted_zero _ z4 W4) as (q4 & A4 & Q4).
  destruct (weighted_zero _ z5 W5) as (q5 & A5 & Q5).
  cbn [for_each]. rewrite bind_unfold. unfold adjust_entry at 1.
  repeat (rewrite bind_unfold; cbn [lift];
          rewrite ?E1, ?E2, ?E3, ?E4, ?E5, ?Z1, ?Z2, ?Z3, ?Z4, ?Z5,
            ?A1, ?A2, ?A3, ?A4, ?A5).
  rewrite Hchaos. cbn [ret].
  apply IH; [exact Hl|].
  cbn [fadd lift2].
  assert (Hadj : (q1 + q2 + q3 + q4 + q5 == 0)%Q).
  { rewrite Q1, Q2, Q3, Q4, Q5. ring. }
  apply Forall2_lookup. intros j.
  pose proof (proj1 (Forall2_lookup feq acc predicted_times) Hacc j) as Hj.
  destruct (decide (i = j)) as [<-|Hne].
  - destruct (acc !! i) as [a|] eqn:Ha.
    + rewrite list_lookup_insert_eq by (by eapply lookup_lt_Some).
      rewrite Htime. constructor. by apply (fadd_zero time).
    + rewrite list_insert_ge by (by apply lookup_ge_None).
      by rewrite Ha.
  - by rewrite list_lookup_insert_ne.
Qed.

Lemma enumerate_lookup {A} (l : list A) (p i : nat) (x : A) :
  enumerate l !! p = Some (i, x) ↔ i = p ∧ l !! p = Some x.
Proof.
  unfold enumerate. rewrite lookup_zip_with_Some. split.
  - intros (i' & x' & [= <- <-] & Hseq & Hx).
    apply lookup_seq in Hseq as [-> _]. done.
  - intros [-> Hx]. exists p, x. split; [done|]. split; [|done].
    apply lookup_seq. split; [done|]. by eapply lookup_lt_Some.
Qed.

(** C4 (as the code has it).  With the five coefficients zero and chaos
    mode off, on a feature matrix without missing values that has a row
    for every predicted time, the overlay returns, draws nothing, and
    every adjusted time is the raw time. *)
Theorem zero_weights_identity
    (predicted_times : list float) (features_df : list (list float))
    (drivers : list string) (weights : PredictionWeights) (s : state) :
  all_zero weights →
  Forall complete_row features_df →
  length predicted_times ≤ length features_df →
  ∃ adjusted_times,
    _apply_weight_adjustments predicted_times features_df drivers weights s
      = (Ok adjusted_times, s)
    ∧ Forall2 feq adjusted_times predicted_times.
Proof.
  intros Hw Hdf Hlen. unfold _apply_weight_adjustments.
  apply adjust_step_zero; [done | done | | apply Forall2_same_length_lookup_2; [done|]].
  - apply Forall_lookup. intros p [i [time driver]] Hp.
    apply enumerate_lookup in Hp as [-> Hp].
    apply lookup_zip_with_Some in Hp as (t & d & [= <- <-] & Ht & Hd).
    split; [done|]. apply lookup_lt_Some in Ht. lia.
  - intros j a b Ha Hb. rewrite Ha in Hb. injection Hb as <-. apply feq_refl.
Qed.

End Overlay.

(** C4, as stated, fails: a driver whose qualifying time is missing gets
    [NaN] as adjusted time, whatever the raw time. *)
Lemma zero_weights_missing_feature :
  all_zero zero_weights
  ∧ fst (@_apply_weight_adjustments stable_numpy [Num 100]
           [[NaN; Num 0.1; Num 20; Num 0.5; Num 94; Num 0]] ["VER"]
           zero_weights blank_state)
    = Ok [NaN]
  ∧ ¬ Forall2 feq [NaN] [Num 100].
Proof.
  split.
  { repeat split; try (exists 0%Q; split; reflexivity). }
  split; [reflexivity|].
  intros Hf. apply Forall2_cons in Hf as [Hf _]. exact Hf.
Qed.

Lemma zero_weights_identity_witness :
  all_zero zero_weights
  ∧ Forall complete_row [[Num 71; Num 0.1; Num 20; Num 0.5; Num 94; Num 0]]
  ∧ length [Num 100] ≤ length [[Num 71; Num 0.1; Num 20; Num 0.5; Num 94; Num 0]]
  ∧ ∃ adjusted_times,
      @_apply_weight_adjustments stable_numpy [Num 100]
        [[Num 71; Num 0.1; Num 20; Num 0.5; Num 94; Num 0]] ["VER"]
        zero_weights blank_state
      = (Ok adjusted_times, blank_state)
      ∧ Forall2 feq adjusted_times [Num 100].
Proof.
  assert (Hw : all_zero zero_weights).
  { repeat split; try (exists 0%Q; split; reflexivity). }
  assert (Hdf : Forall complete_row [[Num 71; Num 0.1; Num 20; Num 0.5; Num 94; Num 0]]).
  { repeat constructor. }
  assert (Hlen : length [Num 100]
                 ≤ length [[Num 71; Num 0.1; Num 20; Num 0.5; Num 94; Num 0]]).
  { simpl. lia. }
  split; [exact Hw|]. split; [exact Hdf|]. split; [exact Hlen|].
  exact (@zero_weights_identity stable_numpy _ _ ["VER"] _ blank_state Hw Hdf Hlen).
Defined.

(** ** Ranking *)

Lemma np_le_spec a b :
  np_le a b ↔ match a, b with
              | Num x, Num y => (x <= y)%Q
              | _, NaN => True
              | NaN, Num _ => False
              end.
Proof.
  unfold np_le, np_leb. destruct a as [x|], b as [y|]; simpl; try done.
  rewrite negb_involutive. apply Qle_bool_iff.
Qed.

#[export] Instance np_le_trans : Transitive np_le.
Proof.
  intros a b c. rewrite !np_le_spec.
  destruct a, b, c; try done. apply Qle_trans.
Qed.

Lemma np_le_not_lt a b : np_le a b → fltb b a = false.
Proof.
  unfold np_le, np_leb. destruct a as [x|], b as [y|]; simpl; try done.
  by rewrite negb_involutive; intros ->.
Qed.

Lemma mapM_Ok {A B} (f : A → result B) (l : list A) :
  (∀ x, x ∈ l → ∃ y, f x = Ok y) → ∃ ys, mapM f l = Ok ys.
Proof.
  induction l as [|x l IH]; intros Hf; simpl; [eauto|].
  destruct (Hf x) as [y ->]; [by left|].
  destruct IH as [ys ->]; [|simpl; eauto].
  intros x' Hx'. apply Hf. by right.
Qed.

Lemma mapM_Forall2 {A B} (f : A → result B) (l : list A) (ys : list B) :
  mapM f l = Ok ys → Forall2 (λ x y, f x = Ok y) l ys.
Proof.
  revert ys. induction l as [|x l IH]; intros ys; simpl.
  - intros [= <-]. constructor.
  - destruct (f x) as [y|] eqn:Hx; [|discriminate]. simpl.
    destruct (mapM f l) as [ys'|]; [|discriminate]. simpl.
    intros [= <-]. constructor; auto.
Qed.

Lemma insert_by_HdRel {A} (key : A → float) (x : A) (l : list A) :
  HdRel (λ a b, fltb (key b) (key a) = false) x l → insert_by key x l = x :: l.
Proof. destruct 1 as [|y l Hy]; simpl; [done|]. by rewrite Hy. Qed.

(** [sorted] leaves alone a list in which no element is smaller than the
    one before it. *)
Lemma sorted_already {A} (key : A → float) (l : list A) :
  Sorted (λ a b, fltb (key b) (key a) = false) l → sorted key l = l.
Proof.
  induction 1 as [|x l Hl IH Hhd]; simpl; [done|].
  rewrite IH. by apply insert_by_HdRel.
Qed.

Lemma Sorted_fmap_inv {A B} (f : A → B) (R : relation B) (R' : relation A)
    (l : list A) :
  (∀ x y, R (f x) (f y) → R' x y) → Sorted R (f <$> l) → Sorted R' l.
Proof.
  intros HR. induction l as [|x l IH]; simpl; [constructor|].
  intros Hs. apply Sorted_inv in Hs as [Hs Hhd].
  constructor; [auto|]. destruct l; simpl in *; constructor.
  apply HdRel_inv in Hhd. auto.
Qed.

Lemma StronglySorted_lookup {A} (R : relation A) (l : list A) p q a b :
  StronglySorted R l → p < q → l !! p = Some a → l !! q = Some b → R a b.
Proof.
  intros Hs. revert p q. induction Hs as [|x l Hs IH Hx]; intros p q Hpq Hp Hq.
  { by rewrite lookup_nil in Hp. }
  destruct q as [|q]; [lia|]. simpl in Hq.
  destruct p as [|p]; simpl in Hp.
  - injection Hp as ->. eapply Forall_lookup_1; eauto.
  - eapply (IH p q); eauto. lia.
Qed.

Section Ranking.
Context `{Numpy}.

(* The team table stays folded while the loop is unfolded. *)
Local Opaque driver_to_team.

Lemma times_to_predictions_Forall2 drivers times preds :
  _times_to_predictions drivers times = Ok preds →
  Forall2 (ranked_as drivers times) (enumerate (argsort times)) preds.
Proof.
  intros Hm. apply mapM_Forall2 in Hm.
  eapply Forall2_impl; [exact Hm|].
  intros [i idx] a. unfold index. simpl.
  destruct (drivers !! idx) as [d|] eqn:Hd; [|discriminate]. simpl.
  destruct (times !! idx) as [t|] eqn:Ht; [|discriminate]. simpl.
  intros [= <-]. by repeat split.
Qed.

Lemma times_to_predictions_returns drivers times :
  argsort times ≡ₚ seq 0 (length times) →
  length times ≤ length drivers →
  ∃ preds, _times_to_predictions drivers times = Ok preds.
Proof.
  intros Hperm Hlen. apply mapM_Ok. intros [i idx] Hin.
  apply list_elem_of_lookup in Hin as [p Hp].
  apply enumerate_lookup in Hp as [-> Hp].
  assert (idx < length times) as Hidx.
  { apply list_elem_of_lookup_2 in Hp. rewrite Hperm in Hp.
    apply elem_of_seq in Hp. lia. }
  destruct (lookup_lt_is_Some_2 times idx Hidx) as [t Ht].
  destruct (lookup_lt_is_Some_2 drivers idx) as [d Hd]; [lia|].
  unfold index. rewrite Hd. simpl. rewrite Ht. simpl. eauto.
Qed.

(** The times of the predictions are the times at the indices of
    [argsort], in that order. *)
Lemma ranked_times drivers times preds :
  Forall2 (ranked_as drivers times) (enumerate (argsort times)) preds →
  predicted_time <$> preds = at_index times <$> argsort times.
Proof.
  intros Hf. apply list_eq. intros p. rewrite !list_lookup_fmap.
  destruct (preds !! p) as [a|] eqn:Ha; simpl.
  - destruct (Forall2_lookup_r _ _ _ _ _ Hf Ha) as ([i idx] & Hp & Hr).
    apply enumerate_lookup in Hp as [-> Hp]. rewrite Hp. simpl.
    destruct Hr as (_ & Ht & _). simpl in Ht. unfold at_index. by rewrite Ht.
  - destruct (argsort times !! p) as [idx|] eqn:Hp; [|done].
    assert (enumerate (argsort times) !! p = Some (p, idx)) as Hp'.
    { by apply enumerate_lookup. }
    destruct (Forall2_lookup_l _ _ _ _ _ Hf Hp') as (a & Ha' & _). congruence.
Qed.

(** The ranking step, when [argsort] has done what numpy documents: the
    final [sorted] finds nothing to move, so the answer is the list of
    [_times_to_predictions], one prediction per index of [argsort]. *)
Lemma rank_predictions_spec drivers times out :
  argsort_spec times (argsort times) →
  rank_predictions drivers times = Ok out →
  Forall2 (ranked_as drivers times) (enumerate (argsort times)) out
  ∧ StronglySorted np_le (predicted_time <$> out).
Proof.
  intros [Hperm Hsorted]. unfold rank_predictions.
  destruct (_times_to_predictions drivers times) as [preds|] eqn:Hpreds;
    [|discriminate].
  simpl. intros [= <-].
  apply times_to_predictions_Forall2 in Hpreds.
  pose proof (ranked_times _ _ _ Hpreds) as Htimes.
  rewrite <- Htimes in Hsorted.
  rewrite sorted_already; [split; [done|]|].
  - by apply Sorted_StronglySorted; [apply _|].
  - eapply Sorted_fmap_inv; [|exact Hsorted]. intros a b. apply np_le_not_lt.
Qed.

Lemma rank_predictions_returns drivers times :
  argsort_spec times (argsort times) →
  length times ≤ length drivers →
  ∃ out, rank_predictions drivers times = Ok out ∧ length out = length times.
Proof.
  intros Hspec Hlen. pose proof Hspec as [Hperm _].
  destruct (times_to_predictions_returns drivers times Hperm Hlen) as [preds Hpreds].
  assert (∃ out, rank_predictions drivers times = Ok out) as [out Hout].
  { unfold rank_predictions. rewrite Hpreds. simpl. eauto. }
  exists out. split; [done|].
  destruct (rank_predictions_spec _ _ _ Hspec Hout) as [Hf _].
  apply Forall2_length in Hf. rewrite <- Hf. unfold enumerate.
  rewrite length_zip_with, length_seq, Hperm, length_seq. lia.
Qed.

Lemma ranked_lookup drivers times out p a :
  Forall2 (ranked_as drivers times) (enumerate (argsort times)) out →
  out !! p = Some a →
  ∃ idx, argsort times !! p = Some idx ∧ ranked_as drivers times (p, idx) a.
Proof.
  intros Hf Ha.
  destruct (Forall2_lookup_r _ _ _ _ _ Hf Ha) as ([i idx] & Hp & Hr).
  apply enumerate_lookup in Hp as [-> Hp]. eauto.
Qed.

(** C3 (as the code has it).  When [np.argsort] answers as documented and
    there is a driver for every time, the ranking returns one prediction
    per time, in ascending order of adjusted time (numbers first, [NaN]
    last), and the prediction at each position is that of the index
    [argsort] put there: competitors with equal times stand in the order
    [argsort] gave them. *)
Theorem ranking_sorted_in_argsort_order (drivers : list string) (times : list float) :
  argsort_spec times (argsort times) →
  length times ≤ length drivers →
  ∃ out,
    rank_predictions drivers times = Ok out
    ∧ length out = length times
    ∧ (∀ p q a b, p < q → out !! p = Some a → out !! q = Some b →
                  np_le (predicted_time a) (predicted_time b))
    ∧ (∀ p a, out !! p = Some a →
              ∃ idx, argsort times !! p = Some idx
                     ∧ drivers !! idx = Some (driver a)
                     ∧ times !! idx = Some (predicted_time a)).
Proof.
  intros Hspec Hlen.
  destruct (rank_predictions_returns drivers times Hspec Hlen) as (out & Hout & Hn).
  destruct (rank_predictions_spec _ _ _ Hspec Hout) as [Hf Hs].
  exists out. split; [done|]. split; [done|]. split.
  - intros p q a b Hpq Ha Hb.
    eapply (StronglySorted_lookup np_le _ p q); [exact Hs|done|..];
      rewrite list_lookup_fmap; [by rewrite Ha | by rewrite Hb].
  - intros p a Ha. destruct (ranked_lookup _ _ _ _ _ Hf Ha) as (idx & Hidx & Hr).
    exists idx. destruct Hr as (Hd & Ht & _). done.
Qed.

Local Transparent driver_to_team.

End Ranking.

(** ** The rank formulas *)

Lemma of_nat_le (i j : nat) : i ≤ j → (of_nat i <= of_nat j)%Q.
Proof. intros Hij. unfold of_nat. rewrite <- Zle_Qle. lia. Qed.

Lemma of_nat_lt_3 (i : nat) : i < 3 → (of_nat i <= 2)%Q.
Proof. intros Hi. change 2%Q with (of_nat 2). apply of_nat_le. lia. Qed.

Lemma of_nat_ge_3 (i : nat) : 3 ≤ i → (3 <= of_nat i)%Q.
Proof. intros Hi. change 3%Q with (of_nat 3). by apply of_nat_le. Qed.

Lemma win_prob_floor (i : nat) : (0.01 <= win_prob i)%Q.
Proof. apply Q.le_max_l. Qed.

Lemma win_prob_antitone (i j : nat) : i ≤ j → (win_prob j <= win_prob i)%Q.
Proof.
  intros Hij. apply of_nat_le in Hij. unfold win_prob.
  apply Q.max_le_compat_l. lra.
Qed.

Lemma top3_prob_floor (i : nat) : (0.05 <= top3_prob i)%Q.
Proof.
  unfold top3_prob. destruct (Nat.ltb_spec i 3) as [Hi|Hi].
  - apply of_nat_lt_3 in Hi. lra.
  - apply Q.le_max_l.
Qed.

Lemma top3_prob_antitone (i j : nat) : i ≤ j → (top3_prob j <= top3_prob i)%Q.
Proof.
  intros Hij. pose proof (of_nat_le _ _ Hij) as Hq. unfold top3_prob.
  destruct (Nat.ltb_spec i 3) as [Hi|Hi], (Nat.ltb_spec j 3) as [Hj|Hj]; try lia.
  - lra.
  - apply of_nat_lt_3 in Hi. apply of_nat_ge_3 in Hj.
    apply Q.max_lub; lra.
  - apply Q.max_le_compat_l. lra.
Qed.

Section RankProbabilities.
Context `{Numpy}.

(** C5.  When [np.argsort] answers as documented and there is a driver
    for every time, the prediction at rank index [i] of the ranking has
    win probability [max(0.01, 0.95 - i * 0.05)] and podium probability
    [0.8 - i * 0.1] below rank 3, [max(0.05, 0.5 - (i - 3) * 0.05)] from
    rank 3 on; the win probability is at least 0.01, the podium
    probability at least 0.05, and neither increases with the rank (over
    all ranks, hence within [0,3) and within [3,...)). *)
Theorem rank_probabilities (drivers : list string) (times : list float) :
  argsort_spec times (argsort times) →
  length times ≤ length drivers →
  ∃ out,
    rank_predictions drivers times = Ok out
    ∧ length out = length times
    ∧ ∀ i a, out !! i = Some a →
        win_probability a = Qmax 0.01 (0.95 - of_nat i * 0.05)
        ∧ top3_probability a
          = (if (i <? 3)%nat then 0.8 - of_nat i * 0.1
             else Qmax 0.05 (0.5 - (of_nat i - 3) * 0.05))%Q
        ∧ (0.01 <= win_probability a)%Q
        ∧ (0.05 <= top3_probability a)%Q
        ∧ ∀ j b, i ≤ j → out !! j = Some b →
            (win_probability b <= win_probability a)%Q
            ∧ (top3_probability b <= top3_probability a)%Q.
Proof.
  intros Hspec Hlen.
  destruct (rank_predictions_returns drivers times Hspec Hlen) as (out & Hout & Hn).
  destruct (rank_predictions_spec _ _ _ Hspec Hout) as [Hf _].
  exists out. split; [done|]. split; [done|].
  intros i a Ha.
  destruct (ranked_lookup _ _ _ _ _ Hf Ha) as (idx & _ & _ & _ & _ & Hwin & Htop).
  simpl in Hwin, Htop. rewrite Hwin, Htop.
  split; [reflexivity|]. split; [reflexivity|].
  split; [apply win_prob_floor|]. split; [apply top3_prob_floor|].
  intros j b Hij Hb.
  destruct (ranked_lookup _ _ _ _ _ Hf Hb) as (idx' & _ & _ & _ & _ & Hwin' & Htop').
  simpl in Hwin', Htop'. rewrite Hwin', Htop'.
  split; [by apply win_prob_antitone | by apply top3_prob_antitone].
Qed.

(** What [predict_race] returns is the empty list or a ranking. *)
Lemma predict_race_ranks `{Sklearn} `{Providers}
    year event round_num weights race_datetime s out :
  fst (predict_race year event round_num weights race_datetime s) = Ok out →
  out = [] ∨ ∃ drivers adjusted_times, rank_predictions drivers adjusted_times = Ok out.
Proof.
  unfold predict_race, try_except.
  match goal with
  | |- context [match ?body s with _ => _ end] =>
      destruct (body s) as [[out'|e] s'] eqn:E
  end; simpl; [|intros [= <-]; by left].
  intros [= ->].
  apply bind_Ok_inv in E as (pace & s1 & _ & E).
  apply bind_Ok_inv in E as (quali & s2 & _ & E).
  apply bind_Ok_inv in E as ([dfs ds] & s3 & _ & E).
  case_bool_decide; [left; by inversion E|].
  apply bind_Ok_inv in E as (df & s4 & _ & E).
  apply bind_Ok_inv in E as (s5 & s6 & _ & E).
  apply bind_Ok_inv in E as (imputed & s7 & _ & E).
  apply bind_Ok_inv in E as (s8 & s9 & _ & E).
  apply bind_Ok_inv in E as (predicted & s10 & _ & E).
  apply bind_Ok_inv in E as (adjusted & s11 & _ & E).
  apply bind_Ok_inv in E as (preds & s12 & Ep & E).
  right. exists ds, adjusted. unfold rank_predictions.
  unfold lift in Ep. injection Ep as Ep _. rewrite Ep. simpl.
  by inversion E.
Qed.

End RankProbabilities.

(** ** The concrete argsorts meet the contract *)

Lemma argsort_insert_perm before v i idxs :
  argsort_insert before v i idxs ≡ₚ i :: idxs.
Proof.
  induction idxs as [|j idxs IH]; simpl; [done|].
  destruct (before _ _); [|done]. rewrite IH. apply Permutation_swap.
Qed.

Lemma argsort_insert_sorted before v i idxs :
  (∀ x y, before x y = true → np_le x y) →
  (∀ x y, before x y = false → np_le y x) →
  Sorted (λ j k, np_le (at_index v j) (at_index v k)) idxs →
  Sorted (λ j k, np_le (at_index v j) (at_index v k)) (argsort_insert before v i idxs).
Proof.
  intros Ht Hf. induction 1 as [|j idxs Hs IH Hhd]; simpl.
  { repeat constructor. }
  destruct (before (at_index v j) (at_index v i)) eqn:Hb.
  - constructor; [exact IH|].
    destruct Hhd as [|k idxs Hk]; simpl.
    + constructor. by apply Ht.
    + destruct (before (at_index v k) (at_index v i)); constructor;
        [done | by apply Ht].
  - constructor; [by constructor|]. constructor. by apply Hf.
Qed.

Lemma argsort_by_spec before v :
  (∀ x y, before x y = true → np_le x y) →
  (∀ x y, before x y = false → np_le y x) →
  argsort_spec v (argsort_by before v).
Proof.
  intros Ht Hf. unfold argsort_spec, argsort_by.
  generalize (seq 0 (length v)) as l. intros l. split.
  - induction l as [|i l IH]; simpl; [done|].
    by rewrite argsort_insert_perm, IH.
  - apply (Sorted_fmap _ (λ j k, np_le (at_index v j) (at_index v k))); [done|].
    induction l as [|i l IH]; simpl; [constructor|].
    by apply argsort_insert_sorted.
Qed.

Lemma np_ltb_le x y : np_ltb x y = true → np_le x y.
Proof.
  rewrite np_le_spec. destruct x as [x|], y as [y|]; simpl; try done.
  rewrite negb_true_iff. intros Hb.
  destruct (Qlt_le_dec y x) as [Hlt|Hle]; [|by apply Qlt_le_weak, Qnot_le_lt;
    intros Hc; apply Qle_bool_iff in Hc; congruence].
  apply Qlt_le_weak in Hlt. apply Qle_bool_iff in Hlt. congruence.
Qed.

Lemma stable_numpy_spec v : argsort_spec v (@argsort stable_numpy v).
Proof.
  apply argsort_by_spec; [apply np_ltb_le|].
  intros x y Hb. unfold np_le, np_leb. by rewrite Hb.
Qed.

Lemma is_1_2_0_0_spec (v : list float) :
  is_1_2_0_0 v = true →
  ∃ a b c d, v = [Num a; Num b; Num c; Num d]
             ∧ (a == 1)%Q ∧ (b == 2)%Q ∧ (c == 0)%Q ∧ (d == 0)%Q.
Proof.
  destruct v as [|[a|] [|[b|] [|[c|] [|[d|] [|? ?]]]]]; simpl; try done.
  rewrite !andb_true_iff, !Qeq_bool_iff. intros [[[? ?] ?] ?].
  by exists a, b, c, d.
Qed.

Lemma observed_numpy_spec v : argsort_spec v (@argsort observed_numpy v).
Proof.
  simpl. destruct (is_1_2_0_0 v) eqn:Hv; [|apply stable_numpy_spec].
  apply is_1_2_0_0_spec in Hv as (a & b & c & d & -> & Ha & Hb & Hc & Hd).
  split.
  - refine (bool_decide_unpack _ _). vm_compute. exact I.
  - simpl. unfold at_index. simpl.
    repeat constructor; apply np_le_spec; lra.
Qed.

(** C3, as stated, fails: on the times 1, 2, 0, 0 [np.argsort] returns the
    two equal times in reverse, and the ranking puts PIA in front of LEC
    although LEC stands before PIA in the input. *)
Lemma ranking_ties_reversed :
  (∀ v, argsort_spec v (@argsort observed_numpy v))
  ∧ @argsort observed_numpy [Num 1; Num 2; Num 0; Num 0] = [3; 2; 0; 1]
  ∧ @rank_predictions observed_numpy ["VER"; "NOR"; "LEC"; "PIA"]
      [Num 1; Num 2; Num 0; Num 0]
    = Ok [ {| driver := "PIA"; team := "McLaren"; predicted_time := Num 0;
              win_probability := win_prob 0; top3_probability := top3_prob 0 |};
           {| driver := "LEC"; team := "Ferrari"; predicted_time := Num 0;
              win_probability := win_prob 1; top3_probability := top3_prob 1 |};
           {| driver := "VER"; team := "Red Bull"; predicted_time := Num 1;
              win_probability := win_prob 2; top3_probability := top3_prob 2 |};
           {| driver := "NOR"; team := "McLaren"; predicted_time := Num 2;
              win_probability := win_prob 3; top3_probability := top3_prob 3 |} ]
  ∧ ¬ (∀ out, @rank_predictions observed_numpy ["VER"; "NOR"; "LEC"; "PIA"]
                [Num 1; Num 2; Num 0; Num 0] = Ok out →
              ties_in_input_order ["VER"; "NOR"; "LEC"; "PIA"] out).
Proof.
  split; [apply observed_numpy_spec|]. split; [reflexivity|]. split; [reflexivity|].
  intros Hclaim. specialize (Hclaim _ eq_refl).
  destruct (Hclaim 0 1 _ _ ltac:(lia) eq_refl eq_refl eq_refl)
    as (i & j & Hij & Hi & Hj).
  destruct j as [|[|[|[|j]]]]; simpl in Hj; try discriminate Hj.
  destruct i as [|[|[|[|i]]]]; simpl in Hi; try discriminate Hi; lia.
Qed.

Lemma ranking_sorted_in_argsort_order_witness :
  argsort_spec [Num 80; Num 80; Num 79] (@argsort stable_numpy [Num 80; Num 80; Num 79])
  ∧ length [Num 80; Num 80; Num 79] ≤ length ["VER"; "NOR"; "PIA"]
  ∧ ∃ out,
      @rank_predictions stable_numpy ["VER"; "NOR"; "PIA"] [Num 80; Num 80; Num 79] = Ok out
      ∧ length out = 3.
Proof.
  assert (Hspec : argsort_spec [Num 80; Num 80; Num 79]
                    (@argsort stable_numpy [Num 80; Num 80; Num 79])).
  { split; refine (bool_decide_unpack _ _); vm_compute; exact I. }
  assert (Hlen : length [Num 80; Num 80; Num 79] ≤ length ["VER"; "NOR"; "PIA"]).
  { simpl. lia. }
  split; [exact Hspec|]. split; [exact Hlen|].
  destruct (@ranking_sorted_in_argsort_order stable_numpy
              ["VER"; "NOR"; "PIA"] [Num 80; Num 80; Num 79] Hspec Hlen)
    as (out & Hout & Hn & _).
  exists out. split; [exact Hout | exact Hn].
Defined.

Lemma rank_probabilities_witness :
  argsort_spec [Num 81; Num 80; NaN; Num 79]
    (@argsort stable_numpy [Num 81; Num 80; NaN; Num 79])
  ∧ length [Num 81; Num 80; NaN; Num 79] ≤ length ["VER"; "NOR"; "PIA"; "LEC"]
  ∧ ∃ out,
      @rank_predictions stable_numpy ["VER"; "NOR"; "PIA"; "LEC"]
        [Num 81; Num 80; NaN; Num 79] = Ok out
      ∧ length out = 4.
Proof.
  assert (Hspec : argsort_spec [Num 81; Num 80; NaN; Num 79]
                    (@argsort stable_numpy [Num 81; Num 80; NaN; Num 79])).
  { split; refine (bool_decide_unpack _ _); vm_compute; exact I. }
  assert (Hlen : length [Num 81; Num 80; NaN; Num 79]
                 ≤ length ["VER"; "NOR"; "PIA"; "LEC"]).
  { simpl. lia. }
  split; [exact Hspec|]. split; [exact Hlen|].
  destruct (@rank_probabilities stable_numpy
              ["VER"; "NOR"; "PIA"; "LEC"] [Num 81; Num 80; NaN; Num 79] Hspec Hlen)
    as (out & Hout & Hn & _).
  exists out. split; [exact Hout | exact Hn].
Defined.

(** * Further properties of the service *)

(** ** What [predict_race] leaves alone *)

Lemma keeps_at_only_draws {A} (m : M A) s : only_draws m → keeps_at m s.
Proof. intros Hm. destruct (Hm s) as [n Hn]. unfold keeps_at. by rewrite Hn. Qed.

Lemma keeps_at_bind {A B} (m : M A) (k : A → M B) s :
  keeps_at m s →
  (∀ a s1, m s = (Ok a, s1) → keeps_at (k a) s1) →
  keeps_at (m ≫= k) s.
Proof.
  intros (Hm & Hd & Hw & Hi) Hk. unfold keeps_at. rewrite bind_unfold.
  destruct (m s) as [[a|e] s1] eqn:E; simpl in *; [|done].
  destruct (Hk a s1 eq_refl) as (Hm' & Hd' & Hw' & Hi').
  rewrite Hm', Hd', Hw'. repeat split; try done.
  intros Hs. rewrite Hi', Hi; [done..|]. by rewrite Hi.
Qed.

Lemma keeps_at_try {A} (body : M A) (handler : exn → M A) s :
  keeps_at body s → (∀ e, only_draws (handler e)) → keeps_at (try_except body handler) s.
Proof.
  intros (Hm & Hd & Hw & Hi) Hh. unfold keeps_at, try_except.
  destruct (body s) as [[a|e] s1]; simpl in *; [done|].
  destruct (Hh e s1) as [n ->]. done.
Qed.

Section Frame.
Context `{Sklearn} `{Numpy} `{Providers}.

Lemma only_draws_adjust_entry features_df weights acc entry :
  only_draws (adjust_entry features_df weights acc entry).
Proof.
  unfold adjust_entry. destruct entry as [i [time d]]. cbv zeta.
  repeat (apply only_draws_bind; [apply only_draws_lift|intros ?]).
  destruct (truthy _); auto with draws.
Qed.

Lemma only_draws_apply_weight_adjustments times features_df drivers weights :
  only_draws (_apply_weight_adjustments times features_df drivers weights).
Proof.
  unfold _apply_weight_adjustments. apply only_draws_for_each.
  intros. apply only_draws_adjust_entry.
Qed.

Lemma predict_race_keeps year event round_num weights race_datetime s :
  keeps_at (predict_race year event round_num weights race_datetime) s.
Proof.
  unfold predict_race. apply keeps_at_try; [|auto with draws].
  apply keeps_at_bind; [apply keeps_at_only_draws, only_draws_pace_data|].
  intros pace s1 _.
  apply keeps_at_bind; [apply keeps_at_only_draws, only_draws_qualifying_predictions|].
  intros quali s2 _.
  apply keeps_at_bind; [apply keeps_at_only_draws, only_draws_build_all_features|].
  intros [dfs ds] s3 _.
  case_bool_decide; [apply keeps_at_only_draws; auto with draws|].
  apply keeps_at_bind; [apply keeps_at_only_draws; auto with draws|].
  intros df s4 _.
  apply keeps_at_bind; [by unfold keeps_at|].
  intros s5 s6 [= <- <-].
  apply keeps_at_bind.
  { destruct (imputer s4) as [imp|] eqn:Himp.
    - apply keeps_at_only_draws; auto with draws.
    - unfold keeps_at, fit_transform. rewrite !bind_unfold. simpl.
      destruct (imputer_fit df) as [st|]; simpl; rewrite ?bind_unfold; simpl;
        [destruct (imputer_transform st df); simpl|];
        rewrite Himp; repeat split; try done; by intros []. }
  intros imputed s7 _.
  apply keeps_at_bind; [by unfold keeps_at|].
  intros s8 s9 [= <- <-].
  apply keeps_at_bind.
  { destruct (model s7); apply keeps_at_only_draws; auto with draws. }
  intros predicted s10 _.
  apply keeps_at_bind;
    [apply keeps_at_only_draws, only_draws_apply_weight_adjustments|].
  intros adjusted s11 _.
  apply keeps_at_bind; [apply keeps_at_only_draws; auto with draws|].
  intros preds s12 _. apply keeps_at_only_draws; auto with draws.
Qed.

(** X1.  [predict_race] never raises, whatever the weights, the providers
    and the libraries do, and it never changes the model or the model
    file; it replaces the imputer only when the service held none. *)
Theorem predict_race_never_raises year event round_num weights race_datetime s :
  ∃ out s',
    predict_race year event round_num weights race_datetime s = (Ok out, s')
    ∧ model s' = model s
    ∧ disk s' = disk s
    ∧ (imputer s' = imputer s ∨ imputer s = None).
Proof.
  pose proof (predict_race_keeps year event round_num weights race_datetime s)
    as (Hm & Hd & _ & Hi).
  assert (∃ out s', predict_race year event round_num weights race_datetime s
                    = (Ok out, s')) as (out & s' & Hrun).
  { unfold predict_race, try_except.
    match goal with
    | |- context [match ?body s with _ => _ end] => destruct (body s) as [[o|e] s1]
    end; unfold ret; eauto. }
  exists out, s'. rewrite Hrun in Hm, Hd, Hi. simpl in *.
  split; [done|]. split; [done|]. split; [done|].
  destruct (imputer s) as [imp|]; [left; apply Hi; eauto | by right].
Qed.

End Frame.

(** ** Feature construction *)

Section Features.
Context `{Numpy} `{Providers}.

Lemma estimate_qualifying_time_run driver team s :
  _estimate_qualifying_time driver team s
  = (Ok (Num (default 72.5 (base_times !! team)
              + default 0.0 (driver_adjustments !! driver)
              + (0 + 0.1 * standard_normal (draws s)))%Q),
     set_draws (S (draws s)) s).
Proof. reflexivity. Qed.

Lemma estimate_clean_air_pace_run driver team s :
  _estimate_clean_air_pace driver team s
  = (Ok (Num (default 96.0 (base_pace !! team) + (0 + 0.2 * standard_normal (draws s)))%Q),
     set_draws (S (draws s)) s).
Proof. reflexivity. Qed.

Lemma build_driver_features_run driver team event w pace quali weights s :
  _build_driver_features driver team event w pace quali weights s
  = (Ok (Some
       [default (Num (default 72.5 (base_times !! team)
                      + default 0.0 (driver_adjustments !! driver)
                      + (0 + 0.1 * standard_normal (draws s)))%Q)
          (quali !! driver);
        precipitation_prob w;
        temperature_c w;
        Num (default 0.5 (team_performance_scores !! team))%Q;
        default (Num (default 96.0 (base_pace !! team)
                      + (0 + 0.2 * standard_normal (S (draws s))))%Q)
          (pace !! driver);
        Num (default 0.0 (default ∅ (average_position_change !! event) !! driver))%Q]),
     set_draws (S (S (draws s))) s).
Proof. reflexivity. Qed.

(** X2.  [_build_driver_features] draws two random numbers on every call,
    whether or not it needs them: a qualifying time or pace found in the
    provider data is used as it is, and an estimated pace is always made
    from the second draw. *)
Theorem build_driver_features_always_draws_twice
    driver team event w (pace quali : gmap string float) weights s :
  ∃ features,
    _build_driver_features driver team event w pace quali weights s
    = (Ok (Some features), set_draws (2 + draws s) s)
    ∧ length features = length feature_names
    ∧ features !! 0%nat
      = Some (default (Num (default 72.5 (base_times !! team)
                            + default 0.0 (driver_adjustments !! driver)
                            + (0 + 0.1 * standard_normal (draws s)))%Q)
                (quali !! driver))
    ∧ features !! 4%nat
      = Some (default (Num (default 96.0 (base_pace !! team)
                            + (0 + 0.2 * standard_normal (1 + draws s)))%Q)
                (pace !! driver)).
Proof.
  eexists. rewrite build_driver_features_run. split; [reflexivity|].
  split; [reflexivity|]. split; reflexivity.
Qed.



(** The fallback of [_get_qualifying_predictions]: one estimate, and one
    draw, per entry. *)
Lemma estimates_loop (l : list (string * string)) (d : gmap string float) s :
  ∃ d',
    for_each l d
      (λ d '(driver, team),
         t ← _estimate_qualifying_time driver team; ret (<[driver := t]> d)) s
    = (Ok d', set_draws (length l + draws s) s)
    ∧ ∀ driver, is_Some (d' !! driver) ↔ driver ∈ l.*1 ∨ is_Some (d !! driver).
Proof.
  revert d s. induction l as [|[driver team] l IH]; intros d s.
  { exists d. split; [by destruct s|]. intros x. simpl. rewrite elem_of_nil. tauto. }
  cbn [for_each]. rewrite bind_unfold, bind_unfold, estimate_qualifying_time_run.
  cbn [ret].
  match goal with
  | |- context [for_each l (<[driver := ?t]> d)] => set (t0 := t)
  end.
  destruct (IH (<[driver := t0]> d) (set_draws (S (draws s)) s)) as (d' & -> & Hd').
  exists d'. split.
  - f_equal. destruct s; unfold set_draws; simpl. f_equal. lia.
  - intros x. rewrite Hd'. simpl. rewrite elem_of_cons.
    destruct (decide (driver = x)) as [->|Hne].
    + rewrite lookup_insert_eq. split; [by left; left | eauto].
    + rewrite lookup_insert_ne by done.
      split; [intros [?|?]; [left; by right | by right]|].
      intros [[?|?]|?]; [done | by left | by right].
Qed.

(** X3.  When the FastF1 service has no qualifying results (it raised,
    returned nothing, or returned an empty frame),
    [_get_qualifying_predictions] returns an estimate for exactly the
    nineteen drivers of the roster and draws nineteen random numbers. *)
Theorem qualifying_predictions_fallback year event s :
  get_qualifying_results year event = Ok None
  ∨ get_qualifying_results year event = Ok (Some [])
  ∨ (∃ e, get_qualifying_results year event = Raise e) →
  ∃ d,
    _get_qualifying_predictions year event s = (Ok d, set_draws (19 + draws s) s)
    ∧ ∀ driver, is_Some (d !! driver) ↔ driver ∈ roster.
Proof.
  intros Hq.
  destruct (estimates_loop driver_to_team_items ∅ s) as (d & Hrun & Hd).
  exists d. split.
  - unfold _get_qualifying_predictions.
    destruct Hq as [->|[->|[e ->]]]; exact Hrun.
  - intros x. rewrite Hd, lookup_empty. unfold roster.
    split; [intros [?|[? [=]]]; done | by left].
Qed.

Lemma quali_dict_of_app rows1 rows2 d :
  quali_dict_of (rows1 ++ rows2) d = quali_dict_of rows2 (quali_dict_of rows1 d).
Proof. revert d. induction rows1 as [|r rows1 IH]; intros d; simpl; [done|apply IH]. Qed.

Lemma quali_dict_of_invariant (P : string → float → Prop) rows d :
  (∀ k v, d !! k = Some v → P k v) →
  (∀ row t, row ∈ rows → py_or (py_or (Q3 row) (Q2 row)) (Q1 row) = Some t →
            cell_truthy (Some t) = true → P (Driver row) t) →
  ∀ k v, quali_dict_of rows d !! k = Some v → P k v.
Proof.
  revert d. induction rows as [|row rows IH]; intros d Hd Hrows; simpl; [done|].
  apply IH.
  - destruct (py_or (py_or (Q3 row) (Q2 row)) (Q1 row)) as [t|] eqn:Ht; [|done].
    destruct (cell_truthy (Some t)) eqn:Htr; [|done].
    intros k v. destruct (decide (Driver row = k)) as [<-|Hne].
    + rewrite lookup_insert_eq. intros [= <-]. apply Hrows; [by left|done..].
    + rewrite lookup_insert_ne by done. apply Hd.
  - intros r t Hr. apply Hrows. by right.
Qed.

(** X4.  When the FastF1 service returns a non-empty qualifying frame,
    [_get_qualifying_predictions] draws nothing and returns times of
    drivers of the frame only, none of them zero: a driver the frame does
    not have, or whose three cells are all empty or zero, has no entry. *)
Theorem qualifying_predictions_from_provider year event rows s :
  get_qualifying_results year event = Ok (Some rows) →
  rows ≠ [] →
  ∃ d,
    _get_qualifying_predictions year event s = (Ok d, s)
    ∧ (∀ driver t, d !! driver = Some t →
         driver ∈ Driver <$> rows ∧ t ≠ Num 0 ∧ cell_truthy (Some t) = true)
    ∧ (∀ driver,
         (∀ row, row ∈ rows → Driver row = driver →
                 cell_truthy (Q3 row) = false ∧ cell_truthy (Q2 row) = false
                 ∧ cell_truthy (Q1 row) = false) →
         d !! driver = None).
Proof.
  intros Hq Hne. exists (quali_dict_of rows ∅). split.
  { unfold _get_qualifying_predictions. rewrite Hq. by case_bool_decide. }
  split.
  - apply (quali_dict_of_invariant
             (λ k t, k ∈ Driver <$> rows ∧ t ≠ Num 0 ∧ cell_truthy (Some t) = true)).
    + intros k v. by rewrite lookup_empty.
    + intros row t Hrow _ Htr. split; [by apply list_elem_of_fmap_2|].
      split; [|done]. intros ->. discriminate Htr.
  - intros driver Hall.
    destruct (quali_dict_of rows ∅ !! driver) as [t|] eqn:Ht; [|done]. exfalso.
    refine (quali_dict_of_invariant (λ k _, k ≠ driver) rows ∅ _ _ driver t Ht eq_refl).
    + intros k v. by rewrite lookup_empty.
    + intros row t' Hrow Hor Htr Hd.
      destruct (Hall row Hrow Hd) as (H3 & H2 & H1).
      unfold py_or in Hor. rewrite H3, H2 in Hor. rewrite Hor in H1. congruence.
Qed.

Lemma quali_dict_of_untouched (rows : list quali_row) (d : gmap string float)
    (driver : string) :
  (∀ r, r ∈ rows → Driver r = driver →
        cell_truthy (py_or (py_or (Q3 r) (Q2 r)) (Q1 r)) = false) →
  quali_dict_of rows d !! driver = d !! driver.
Proof.
  revert d. induction rows as [|r rows IH]; intros d Hrows; simpl; [done|].
  rewrite IH by (intros r' Hr'; apply Hrows; by right).
  destruct (py_or (py_or (Q3 r) (Q2 r)) (Q1 r)) as [t|] eqn:Ht; [|done].
  destruct (cell_truthy (Some t)) eqn:Htr; [|done].
  destruct (decide (Driver r = driver)) as [Hd|Hd]; [|by rewrite lookup_insert_ne].
  specialize (Hrows r ltac:(by left) Hd). rewrite Ht in Hrows. congruence.
Qed.

(** X5.  The time stored for a driver is the first non-empty, non-zero
    cell among Q3, Q2, Q1 of the driver's last row that has such a cell,
    wherever the row stands in the frame and whatever rows of other
    drivers follow it; a Q3 cell holding NaN counts as non-empty, so it is
    stored and hides the Q2 and Q1 times. *)
Theorem qualifying_time_prefers_q3
    (before : list quali_row) (row : quali_row) (after : list quali_row)
    (d : gmap string float) :
  (∀ r, r ∈ after → Driver r = Driver row →
        cell_truthy (py_or (py_or (Q3 r) (Q2 r)) (Q1 r)) = false) →
  (∀ t, py_or (py_or (Q3 row) (Q2 row)) (Q1 row) = Some t →
        cell_truthy (Some t) = true →
        quali_dict_of (before ++ row :: after) d !! Driver row = Some t)
  ∧ (Q3 row = Some NaN →
     quali_dict_of (before ++ row :: after) d !! Driver row = Some NaN)
  ∧ (∀ q, Q3 row = Some (Num q) → ¬ (q == 0)%Q →
          quali_dict_of (before ++ row :: after) d !! Driver row = Some (Num q))
  ∧ (∀ t, cell_truthy (Q3 row) = false → cell_truthy (Q2 row) = true →
          Q2 row = Some t →
          quali_dict_of (before ++ row :: after) d !! Driver row = Some t).
Proof.
  intros Hafter.
  assert (Hgen : ∀ t, py_or (py_or (Q3 row) (Q2 row)) (Q1 row) = Some t →
                      cell_truthy (Some t) = true →
                      quali_dict_of (before ++ row :: after) d !! Driver row = Some t).
  { intros t Hor Htr. rewrite quali_dict_of_app. simpl.
    rewrite (quali_dict_of_untouched _ _ _ Hafter), Hor, Htr.
    apply lookup_insert_eq. }
  assert (Hl : ∀ a b, cell_truthy a = true → py_or a b = a).
  { intros a b Ha. unfold py_or. by rewrite Ha. }
  assert (Hr : ∀ a b, cell_truthy a = false → py_or a b = b).
  { intros a b Ha. unfold py_or. by rewrite Ha. }
  split; [exact Hgen|]. split; [|split].
  - intros H3. apply Hgen; [|done]. rewrite H3. by rewrite !Hl.
  - intros q H3 Hq. assert (cell_truthy (Some (Num q)) = true) as Htr.
    { simpl. apply negb_true_iff. destruct (Qeq_bool q 0) eqn:E; [|done].
      by apply Qeq_bool_iff in E. }
    apply Hgen; [|done]. rewrite H3.
    rewrite (Hl (Some (Num q)) (Q2 row) Htr), (Hl _ _ Htr). done.
  - intros t H3 H2 Ht. apply Hgen; [|by rewrite <- Ht].
    rewrite (Hr _ _ H3), (Hl _ _ H2). done.
Qed.

End Features.

(** ** The overlay in general *)

Lemma feq_fadd a a' b b' : feq a a' → feq b b' → feq (fadd a b) (fadd a' b').
Proof.
  destruct a, a', b, b'; simpl; try tauto. intros -> ->. reflexivity.
Qed.

Lemma feq_fmul a a' b b' : feq a a' → feq b b' → feq (fmul a b) (fmul a' b').
Proof.
  destruct a, a', b, b'; simpl; try tauto. intros -> ->. reflexivity.
Qed.

Lemma feq_same a : feq a a.
Proof. destruct a; simpl; [reflexivity | exact I]. Qed.

(** The z-score against mean 0 and deviation 1 is the value itself. *)
Lemma z_score_identity v : feq (_calculate_z_score v (Num 0.0) (Num 1.0)) v.
Proof.
  destruct v as [x|]; [|exact I].
  change (_calculate_z_score (Num x) (Num 0.0) (Num 1.0)) with (Num ((x - 0.0) / 1.0)).
  simpl. field.
Qed.

Lemma overlay_raw_of weights row : feq (overlay_raw weights row) (overlay_of weights row).
Proof.
  unfold overlay_raw, overlay_of. cbv zeta.
  repeat apply feq_fadd; repeat apply feq_fmul;
    first [apply z_score_identity | apply feq_same].
Qed.

Section OverlayLoop.
Context `{Numpy}.

Lemma iloc_row (features_df : list (list float)) (i : nat) (row : list float) :
  features_df !! i = Some row → length row = length feature_names →
  iloc "qualifying_time" i features_df = Ok (default NaN (row !! 0%nat))
  ∧ iloc "rain_probability" i features_df = Ok (default NaN (row !! 1%nat))
  ∧ iloc "team_performance_score" i features_df = Ok (default NaN (row !! 3%nat))
  ∧ iloc "clean_air_pace" i features_df = Ok (default NaN (row !! 4%nat))
  ∧ iloc "average_position_change" i features_df = Ok (default NaN (row !! 5%nat)).
Proof.
  intros Hrow Hlen. unfold iloc, index. rewrite Hrow.
  destruct row as [|a [|b [|c [|d [|e [|f [|]]]]]]]; try discriminate Hlen.
  repeat split; reflexivity.
Qed.

Lemma weighted_value w z0 : numeric w → weighted w z0 = Ok (fmul (fmul (weight_value w) z0) (Num 0.1)).
Proof. intros [x Hx]. unfold weighted, weight_value. by rewrite Hx. Qed.

(** One pass of the loop body. *)
Lemma adjust_entry_run features_df weights acc i time d row s :
  numeric_weights weights →
  features_df !! i = Some row → length row = length feature_names →
  adjust_entry features_df weights acc (i, (time, d)) s
  = if truthy (chaos_mode weights)
    then (Ok (alter (λ t, fadd t (Num (0 + 2.0 * standard_normal (draws s))))
                i (<[i := fadd time (overlay_raw weights row)]> acc)),
          set_draws (S (draws s)) s)
    else (Ok (<[i := fadd time (overlay_raw weights row)]> acc), s).
Proof.
  intros (W1 & W2 & W3 & W4 & W5) Hrow Hlen.
  destruct (iloc_row _ _ _ Hrow Hlen) as (E0 & E1 & E3 & E4 & E5).
  unfold adjust_entry.
  repeat (rewrite bind_unfold; cbn [lift]; rewrite ?E0, ?E1, ?E3, ?E4, ?E5).
  cbv zeta.
  repeat (progress (rewrite ?(weighted_value _ _ W1), ?(weighted_value _ _ W2),
                      ?(weighted_value _ _ W3), ?(weighted_value _ _ W4),
                      ?(weighted_value _ _ W5);
                    cbn [lift]; rewrite ?bind_unfold)).
  destruct (truthy (chaos_mode weights)); reflexivity.
Qed.



(** Without chaos, entry [k + j] of the result is the time of the [j]-th
    entry plus its adjustment; the other entries are untouched. *)
Lemma adjust_loop_values features_df weights (items : list (float * string))
    (k : nat) acc s :
  numeric_weights weights →
  truthy (chaos_mode weights) = false →
  Forall (λ row, length row = length feature_names) features_df →
  (k + length items ≤ length features_df)%nat →
  (k + length items ≤ length acc)%nat →
  ∃ acc',
    for_each (zip (seq k (length items)) items) acc (adjust_entry features_df weights) s
    = (Ok acc', s)
    ∧ length acc' = length acc
    ∧ (∀ j t d row, items !! j = Some (t, d) → features_df !! (k + j)%nat = Some row →
                    acc' !! (k + j)%nat = Some (fadd t (overlay_raw weights row)))
    ∧ (∀ j, (j < k ∨ k + length items ≤ j)%nat → acc' !! j = acc !! j).
Proof.
  intros Hw Hc Hdf. revert k acc.
  induction items as [|[time d] items IH]; intros k acc Hk Hacc.
  { exists acc. simpl. split; [done|]. split; [done|]. split; [|done].
    intros j t d row Hj. by rewrite lookup_nil in Hj. }
  simpl in Hk, Hacc.
  destruct (lookup_lt_is_Some_2 features_df k) as [row Hrow]; [lia|].
  assert (length row = length feature_names) as Hlen.
  { by eapply (Forall_lookup_1 _ _ _ _ Hdf). }
  cbn [length seq zip_with for_each].
  rewrite bind_unfold, (adjust_entry_run _ _ _ _ _ _ row), Hc by done.
  destruct (IH (S k) (<[k := fadd time (overlay_raw weights row)]> acc))
    as (acc' & -> & Hlen' & Hin & Hout); [lia | rewrite length_insert; lia|].
  exists acc'. split; [done|]. split; [by rewrite Hlen', length_insert|]. split.
  - intros [|j] t d0 row0 Hj Hrow0.
    + simpl in Hj. injection Hj as -> ->. rewrite Nat.add_0_r in *.
      rewrite Hout by lia. rewrite list_lookup_insert_eq by lia. congruence.
    + simpl in Hj. replace (k + S j)%nat with (S k + j)%nat in * by lia. eauto.
  - intros j Hj. rewrite Hout by lia. apply list_lookup_insert_ne. lia.
Qed.

(** X6.  With numeric weights and chaos mode off, on a feature matrix that
    has a six-column row for every competitor, the overlay returns
    without drawing, keeps the number of times, and adds to the raw time of
    each competitor one tenth of the weighted sum of the competitor's own
    raw feature values (position change, pace, qualifying time, team score,
    rain probability): the reference z-score leaves the values as they are.
    Times beyond the last driver are left as they were. *)
Theorem overlay_adds_weighted_features
    (predicted_times : list float) (features_df : list (list float))
    (drivers : list string) (weights : PredictionWeights) (s : state) :
  numeric_weights weights →
  truthy (chaos_mode weights) = false →
  Forall (λ row, length row = length feature_names) features_df →
  length (zip predicted_times drivers) ≤ length features_df →
  ∃ adjusted_times,
    _apply_weight_adjustments predicted_times features_df drivers weights s
    = (Ok adjusted_times, s)
    ∧ length adjusted_times = length predicted_times
    ∧ (∀ i time d row,
         predicted_times !! i = Some time → drivers !! i = Some d →
         features_df !! i = Some row →
         ∃ a, adjusted_times !! i = Some a
              ∧ feq a (fadd time (overlay_of weights row)))
    ∧ (∀ i, length drivers ≤ i → adjusted_times !! i = predicted_times !! i).
Proof.
  intros Hw Hc Hdf Hlen. unfold _apply_weight_adjustments, enumerate.
  destruct (adjust_loop_values features_df weights (zip predicted_times drivers)
              0 predicted_times s Hw Hc Hdf) as (acc' & -> & Hlen' & Hin & Hout).
  { simpl. lia. }
  { simpl. rewrite length_zip_with. lia. }
  exists acc'. split; [done|]. split; [done|]. split.
  - intros i time d row Ht Hd Hrow.
    exists (fadd time (overlay_raw weights row)). split.
    + apply (Hin i time d row); [|done].
      apply lookup_zip_with_Some. eauto.
    + apply feq_fadd; [apply feq_same | apply overlay_raw_of].
  - intros i Hi. apply Hout. right. simpl. rewrite length_zip_with. lia.
Qed.

End OverlayLoop.

Lemma overlay_adds_weighted_features_witness :
  numeric_weights (PredictionWeights_init ∅)
  ∧ truthy (chaos_mode (PredictionWeights_init ∅)) = false
  ∧ ∃ adjusted_times,
      @_apply_weight_adjustments stable_numpy [Num 100]
        [[Num 71; Num 0.1; Num 20; Num 0.5; Num 94; Num 0]] ["VER"]
        (PredictionWeights_init ∅) blank_state
      = (Ok adjusted_times, blank_state)
      ∧ length adjusted_times = 1.
Proof.
  assert (Hw : numeric_weights (PredictionWeights_init ∅)).
  { repeat split; eexists; reflexivity. }
  assert (Hc : truthy (chaos_mode (PredictionWeights_init ∅)) = false) by reflexivity.
  assert (Hdf : Forall (λ row : list float, length row = length feature_names)
                  [[Num 71; Num 0.1; Num 20; Num 0.5; Num 94; Num 0]]).
  { repeat constructor. }
  assert (Hlen : length (zip [Num 100] ["VER"])
                 ≤ length [[Num 71; Num 0.1; Num 20; Num 0.5; Num 94; Num 0]]).
  { simpl. lia. }
  split; [exact Hw|]. split; [exact Hc|].
  destruct (@overlay_adds_weighted_features stable_numpy [Num 100]
              [[Num 71; Num 0.1; Num 20; Num 0.5; Num 94; Num 0]] ["VER"]
              (PredictionWeights_init ∅) blank_state Hw Hc Hdf Hlen)
    as (adjusted & Hrun & Hn & _).
  exists adjusted. split; [exact Hrun | exact Hn].
Defined.

(** ** [predict_race] with a trained model, and with unusable weights *)




Section PredictSuccess.
Context `{Sklearn} `{Numpy} `{Providers}.

Lemma run_only_draws {A} (m : M A) s r s' :
  only_draws m → m s = (r, s') → ∃ n, s' = set_draws n s.
Proof. intros Hm Hrun. destruct (Hm s) as [n Hn]. rewrite Hrun in Hn. eauto. Qed.





Lemma adjust_entry_needs_numbers features_df weights acc entry s a s' :
  adjust_entry features_df weights acc entry s = (Ok a, s') → numeric_weights weights.
Proof.
  unfold adjust_entry. destruct entry as [i [time d]]. cbv zeta. intros E.
  do 5 (apply bind_Ok_inv in E as (? & ? & _ & E)).
  apply bind_Ok_inv in E as (a1 & ? & E1 & E).
  apply bind_Ok_inv in E as (a2 & ? & E2 & E).
  apply bind_Ok_inv in E as (a3 & ? & E3 & E).
  apply bind_Ok_inv in E as (a4 & ? & E4 & E).
  apply bind_Ok_inv in E as (a5 & ? & E5 & E).
  assert (∀ w z0 v t t', lift (weighted w z0) t = (Ok v, t') → numeric w) as Hnum.
  { intros w z0 v t t'. unfold lift, weighted. intros [= Hw _].
    destruct (to_number w) as [num|] eqn:Hx; [by exists num | discriminate Hw]. }
  repeat split; eapply Hnum; eauto.
Qed.

Lemma times_to_predictions_nil (drivers : list string) (times : list float) preds :
  drivers = [] ∨ times = [] →
  _times_to_predictions drivers times = Ok preds → preds = [].
Proof.
  intros Hnil Hp. apply times_to_predictions_Forall2 in Hp.
  destruct preds as [|a preds]; [done|]. exfalso.
  apply Forall2_cons_inv_r in Hp as (entry & l & (Hd & Ht & _) & _ & _).
  destruct Hnil as [-> | ->]; [by rewrite lookup_nil in Hd | by rewrite lookup_nil in Ht].
Qed.

Lemma predict_race_unusable_fst year event round_num weights race_datetime s :
  ¬ numeric_weights weights →
  fst (predict_race year event round_num weights race_datetime s) = Ok [].
Proof.
  intros Hbad.
  unfold predict_race, try_except.
  match goal with
  | |- context [match ?body s with _ => _ end] =>
      destruct (body s) as [[out|e] s'] eqn:E
  end; [|reflexivity].
  simpl. f_equal.
  apply bind_Ok_inv in E as (pace & s1 & _ & E).
  apply bind_Ok_inv in E as (quali & s2 & _ & E).
  apply bind_Ok_inv in E as ([dfs ds] & s3 & _ & E).
  case_bool_decide; [by inversion E|].
  apply bind_Ok_inv in E as (df & s4 & _ & E).
  apply bind_Ok_inv in E as (s5 & s6 & _ & E).
  apply bind_Ok_inv in E as (imputed & s7 & _ & E).
  apply bind_Ok_inv in E as (s8 & s9 & _ & E).
  apply bind_Ok_inv in E as (predicted & s10 & _ & E).
  apply bind_Ok_inv in E as (adjusted & s11 & Eadj & E).
  apply bind_Ok_inv in E as (preds & s12 & Ep & E).
  unfold _apply_weight_adjustments in Eadj.
  destruct (enumerate (zip predicted ds)) as [|entry l] eqn:Hl.
  - simpl in Eadj. injection Eadj as <- _.
    assert (ds = [] ∨ predicted = []) as Hnil.
    { unfold enumerate in Hl. apply (f_equal length) in Hl.
      rewrite !length_zip_with, length_seq in Hl. simpl in Hl.
      destruct ds, predicted; simpl in *; auto; lia. }
    unfold lift in Ep. injection Ep as Ep _.
    apply (times_to_predictions_nil _ _ _ Hnil) in Ep. subst preds.
    by inversion E.
  - cbn [for_each] in Eadj. apply bind_Ok_inv in Eadj as (acc & sa & Ee & _).
    apply adjust_entry_needs_numbers in Ee. done.
Qed.

(** X8.  A coefficient that is not a number ([None] or a string) is not
    reported: [predict_race] then returns the empty list, whatever the
    state of the service and the answers of the providers. *)
Theorem predict_race_unusable_weights year event round_num weights race_datetime s :
  ¬ numeric_weights weights →
  predict_race year event round_num weights race_datetime s
  = (Ok [], snd (predict_race year event round_num weights race_datetime s)).
Proof.
  intros Hbad.
  pose proof (predict_race_unusable_fst year event round_num weights race_datetime s Hbad)
    as Hfst.
  destruct (predict_race year event round_num weights race_datetime s) as [r s'].
  simpl in *. by subst r.
Qed.

End PredictSuccess.


Lemma predict_race_unusable_weights_witness :
  ¬ numeric_weights (PredictionWeights_init {["team_form" := PyStr "high"]})
  ∧ fst (@predict_race simple_sklearn stable_numpy offline_providers 2024 "Monaco" 8
           (PredictionWeights_init {["team_form" := PyStr "high"]}) None trained_state)
    = Ok [].
Proof.
  assert (Hbad : ¬ numeric_weights
                     (PredictionWeights_init {["team_form" := PyStr "high"]})).
  { intros (_ & _ & _ & [x Hx] & _). discriminate Hx. }
  split; [exact Hbad|].
  rewrite (@predict_race_unusable_weights simple_sklearn stable_numpy offline_providers
             2024 "Monaco" 8 _ None trained_state Hbad).
  reflexivity.
Defined.

Lemma qualifying_predictions_fallback_witness :
  ∃ d,
    @_get_qualifying_predictions stable_numpy offline_providers 2024 "Monaco" blank_state
    = (Ok d, set_draws 19 blank_state)
    ∧ is_Some (d !! "VER").
Proof.
  destruct (@qualifying_predictions_fallback stable_numpy offline_providers
              2024 "Monaco" blank_state (or_introl eq_refl)) as (d & Hrun & Hd).
  exists d. split; [exact Hrun|]. apply Hd.
  refine (bool_decide_unpack _ _). vm_compute. exact I.
Defined.

Lemma qualifying_predictions_from_provider_witness :
  sample_quali_rows ≠ []
  ∧ ∃ d,
      @_get_qualifying_predictions stable_numpy qualifying_providers 2024 "Monaco"
        blank_state = (Ok d, blank_state)
      ∧ d !! "NOR" = None.
Proof.
  assert (Hne : sample_quali_rows ≠ []) by discriminate.
  split; [exact Hne|].
  destruct (@qualifying_predictions_from_provider stable_numpy qualifying_providers
              2024 "Monaco" sample_quali_rows blank_state eq_refl Hne)
    as (d & Hrun & _ & Hnone).
  exists d. split; [exact Hrun|]. apply Hnone.
  intros row Hrow Hd. exfalso.
  unfold sample_quali_rows in Hrow.
  repeat (apply elem_of_cons in Hrow as [->|Hrow]; [discriminate Hd|]).
  by apply elem_of_nil in Hrow.
Defined.

Lemma qualifying_time_prefers_q3_witness :
  quali_dict_of sample_quali_rows ∅ !! "VER" = Some (Num 70.3).
Proof.
  refine (proj1 (proj2 (proj2
            (qualifying_time_prefers_q3 []
               {| Driver := "VER"; Q1 := Some (Num 71.5); Q2 := Some (Num 71.0);
                  Q3 := Some (Num 70.3) |}
               [ {| Driver := "ALB"; Q1 := Some (Num 72.4); Q2 := None;
                    Q3 := Some NaN |} ] ∅ _))) 70.3%Q eq_refl _).
  - intros r Hr Hd. apply elem_of_cons in Hr as [-> | Hr]; [discriminate Hd|].
    by apply elem_of_nil in Hr.
  - intros Hq. discriminate Hq.
Defined.

(** ** Training in general *)

Section TrainingMore.
Context `{Sklearn} `{Numpy} `{Providers}.

(** With a model that was never fitted, [predict_race] gets as far as
    [self.model.predict], which raises. *)
Lemma predict_race_unfitted_model year event round_num weights race_datetime s :
  model s = Some Unfitted →
  fst (predict_race year event round_num weights race_datetime s) = Ok [].
Proof.
  intros Hmodel.
  pose proof (predict_race_keeps year event round_num weights race_datetime) as Hkeep.
  unfold predict_race, try_except.
  match goal with
  | |- context [match ?body s with _ => _ end] =>
      destruct (body s) as [[out|e] s'] eqn:E
  end; [|reflexivity].
  simpl. f_equal.
  apply bind_Ok_inv in E as (pace & s1 & E1 & E).
  apply bind_Ok_inv in E as (quali & s2 & E2 & E).
  apply bind_Ok_inv in E as ([dfs ds] & s3 & E3 & E).
  destruct (run_only_draws _ _ _ _ (only_draws_pace_data year event) E1) as [n1 ->].
  destruct (run_only_draws _ _ _ _ (only_draws_qualifying_predictions year event) E2)
    as [n2 ->].
  destruct (run_only_draws _ _ _ _
              (only_draws_build_all_features event _ pace quali weights) E3) as [n3 ->].
  case_bool_decide; [by inversion E|].
  apply bind_Ok_inv in E as (df & s4 & E4 & E).
  apply bind_Ok_inv in E as (s5 & s6 & E5 & E).
  unfold lift in E4. inversion E5; subst s5 s6. inversion E4; subst s4.
  apply bind_Ok_inv in E as (imputed & s7 & E7 & E).
  assert (model s7 = Some Unfitted) as Hm7.
  { simpl in E7. destruct (imputer s) as [imp|].
    - unfold lift in E7. by inversion E7.
    - unfold fit_transform in E7.
      apply bind_Ok_inv in E7 as (? & ? & [= _ <-] & E7).
      apply bind_Ok_inv in E7 as (st & ? & [= _ <-] & E7).
      apply bind_Ok_inv in E7 as (? & ? & [= _ <-] & E7).
      unfold lift in E7. by inversion E7. }
  apply bind_Ok_inv in E as (s8 & s9 & [= <- <-] & E).
  rewrite Hm7 in E.
  apply bind_Ok_inv in E as (predicted & s10 & Ep & _). discriminate Ep.
Qed.

(** X9.  A retraining that fails in [fit], after the sample check has
    passed, is reported as an error mapping, and it is not harmless: the
    service is left with the new imputer and an unfitted model, the
    previous model is gone (the model file is untouched), so from then on
    [predict_race] returns the empty list and [get_feature_importance]
    raises. *)
Theorem failed_fit_discards_model
    (training_data : list race_data) (s : state)
    statistics X_imputed X_train X_test y_train y_test e :
  10 ≤ length (valid_examples training_data).1 →
  imputer_fit (valid_examples training_data).1 = Ok statistics →
  imputer_transform statistics (valid_examples training_data).1 = Ok X_imputed →
  train_test_split X_imputed (valid_examples training_data).2
    = Ok (X_train, X_test, y_train, y_test) →
  gbr_fit X_train y_train = Raise e →
  fst (train_model training_data s) = Ok (TrainError (exn_str e))
  ∧ model (snd (train_model training_data s)) = Some Unfitted
  ∧ imputer (snd (train_model training_data s)) = Some (ImputerFitted statistics)
  ∧ disk (snd (train_model training_data s)) = disk s
  ∧ (∀ year event round_num weights race_datetime,
       fst (predict_race year event round_num weights race_datetime
              (snd (train_model training_data s))) = Ok [])
  ∧ fst (get_feature_importance (snd (train_model training_data s)))
    = Raise NotFittedError.
Proof.
  intros Hlen Hfit Htr Hsplit Hgbr.
  assert (train_model training_data s
          = (Ok (TrainError (exn_str e)),
             set_model (Some Unfitted)
               (set_imputer (Some (ImputerFitted statistics))
                  (set_imputer (Some ImputerUnfitted) s)))) as Hrun.
  { unfold train_model, try_except.
    case_bool_decide as Hnil.
    { subst training_data. simpl in Hlen. lia. }
    rewrite bind_unfold, collect_examples_enough by lia. cbn [lift].
    destruct (valid_examples training_data) as [X y]; simpl in *.
    apply Nat.ltb_ge in Hlen. rewrite Hlen.
    unfold fit_transform.
    repeat (rewrite bind_unfold; cbn [lift modify];
            rewrite ?Hfit, ?Htr, ?Hsplit, ?Hgbr).
    reflexivity. }
  rewrite Hrun. cbn [fst snd].
  split; [done|]. split; [done|]. split; [done|]. split; [done|].
  split; [|reflexivity].
  intros. by apply predict_race_unfitted_model.
Qed.

(** X10.  A successful training on a writable model file installs the
    fitted model and the fitted imputer, writes them to the file, and
    returns the same feature-importance map [get_feature_importance] gives
    afterwards; a service constructed after it holds the same model and
    imputer. *)
Theorem training_installs_and_persists
    (training_data : list race_data) (s : state)
    statistics X_imputed X_train X_test y_train y_test m y_pred mae :
  10 ≤ length (valid_examples training_data).1 →
  imputer_fit (valid_examples training_data).1 = Ok statistics →
  imputer_transform statistics (valid_examples training_data).1 = Ok X_imputed →
  train_test_split X_imputed (valid_examples training_data).2
    = Ok (X_train, X_test, y_train, y_test) →
  gbr_fit X_train y_train = Ok m →
  predict_fn m X_test = Ok y_pred →
  mean_absolute_error y_test y_pred = Ok mae →
  writable s = true →
  let s' := snd (train_model training_data s) in
  model s' = Some (Fitted m)
  ∧ imputer s' = Some (ImputerFitted statistics)
  ∧ disk s' = Pickled {| b_model := Some (Some (Fitted m));
                         b_imputer := Some (Some (ImputerFitted statistics));
                         b_feature_names := Some feature_names;
                         b_trained_at := Some (isoformat datetime_now) |}
  ∧ (∃ importance n k,
       fst (train_model training_data s) = Ok (TrainSuccess mae importance n k)
       ∧ get_feature_importance s' = (Ok importance, s'))
  ∧ model (snd (PredictionService_init s')) = Some (Fitted m)
  ∧ imputer (snd (PredictionService_init s')) = Some (ImputerFitted statistics).
Proof.
  intros Hlen Hfit Htr Hsplit Hgbr Hpred Hmae Hw.
  assert (∃ n k, train_model training_data s
          = (Ok (TrainSuccess mae (zip feature_names (importances m)) n k),
             set_disk (Pickled {| b_model := Some (Some (Fitted m));
                                  b_imputer := Some (Some (ImputerFitted statistics));
                                  b_feature_names := Some feature_names;
                                  b_trained_at := Some (isoformat datetime_now) |})
               (set_model (Some (Fitted m))
                  (set_model (Some Unfitted)
                     (set_imputer (Some (ImputerFitted statistics))
                        (set_imputer (Some ImputerUnfitted) s)))))) as (n & k & Hrun).
  { unfold train_model, try_except.
    case_bool_decide as Hnil.
    { subst training_data. simpl in Hlen. lia. }
    rewrite bind_unfold, collect_examples_enough by lia. cbn [lift].
    destruct (valid_examples training_data) as [X y]; simpl in *.
    apply Nat.ltb_ge in Hlen. rewrite Hlen.
    unfold fit_transform.
    repeat (rewrite bind_unfold; cbn [lift modify];
            rewrite ?Hfit, ?Htr, ?Hsplit, ?Hgbr, ?Hmae; cbn [predict feature_importances_];
            rewrite ?Hpred).
    unfold _save_model, try_except. rewrite bind_unfold. cbn [get].
    cbn [writable set_model set_imputer]. rewrite Hw.
    eexists _, _. reflexivity. }
  cbv zeta. rewrite Hrun. cbn [fst snd].
  split; [done|]. split; [done|]. split; [done|]. split.
  { exists (zip feature_names (importances m)), n, k. split; reflexivity. }
  split; reflexivity.
Qed.


(** X12.  The first loop of [train_model].  When it ends it has kept as
    many targets as feature rows, every row with exactly six features, and
    never more examples than it was given; an example without actual time,
    without the key ["features"], or with a feature list of another
    length is dropped.  An example whose ["features"] value has no length
    (a null, a number) is not dropped: it ends the loop with a
    [TypeError], whatever its actual time and the other examples are, and
    the loop ends this way for no other reason. *)
Theorem valid_examples_shape (training_data : list race_data) (race : race_data) :
  (∀ X y, collect_examples training_data = Ok (X, y) →
          length X = length y
          ∧ Forall (λ row, length row = length feature_names) X
          ∧ length X ≤ length training_data)
  ∧ (features race ≠ Some Unsized →
     actual_time race = None ∨ features race = None
     ∨ (∃ l, features race = Some (FeatureList l) ∧ length l ≠ length feature_names) →
     collect_examples (race :: training_data) = collect_examples training_data)
  ∧ (features race = Some Unsized →
     collect_examples (race :: training_data) = Raise TypeError)
  ∧ (collect_examples training_data = Raise TypeError
     ↔ ∃ bad, bad ∈ training_data ∧ features bad = Some Unsized)
  ∧ (∀ e, collect_examples training_data = Raise e → e = TypeError).
Proof.
  split; [|split; [|split; [|split]]].
  - induction training_data as [|r td IH]; simpl.
    { intros X y ?. simplify_eq. split; [reflexivity|]. split; [constructor | simpl; lia]. }
    destruct (default (FeatureList []) (features r)) as [l|]; [|done].
    destruct (collect_examples td) as [[X0 y0]|e]; [|done]. simpl.
    destruct (IH X0 y0 eq_refl) as (Hlen & Hrows & Hle).
    intros X y Heq.
    destruct (actual_time r) as [t|];
      [destruct (Nat.eqb_spec (length l) 6) as [Hl|Hl]|]; simplify_eq.
    + simpl. split; [by rewrite Hlen|]. split; [by constructor | lia].
    + split; [exact Hlen|]. split; [exact Hrows | lia].
    + split; [exact Hlen|]. split; [exact Hrows | lia].
  - intros Hsized Hbad. simpl.
    destruct Hbad as [Ht | [Hf | (l & Hf & Hl)]].
    + rewrite Ht. destruct (features race) as [[l|]|]; [|done|]; simpl;
        by destruct (collect_examples training_data) as [[X y]|e].
    + rewrite Hf. simpl.
      destruct (collect_examples training_data) as [[X y]|e]; [|done]. simpl.
      by destruct (actual_time race).
    + rewrite Hf. simpl.
      destruct (collect_examples training_data) as [[X y]|e]; [|done]. simpl.
      destruct (actual_time race); [|done].
      destruct (Nat.eqb_spec (length l) 6) as [Hsix|Hsix]; [by destruct Hl | done].
  - intros Hf. simpl. by rewrite Hf.
  - apply collect_examples_unsized.
  - apply collect_examples_raises.
Qed.

(** X13.  [load_model] never raises and never touches the model file.  It
    installs what the file holds only when the file is a bundle with both
    keys; with no file, an unreadable file, or a bundle that lacks
    ["model"] or ["imputer"] (even if it has the other), the service gets
    the default unfitted model and imputer. *)
Theorem load_model_falls_back (s : state) :
  ∃ s',
    load_model s = (Ok tt, s')
    ∧ disk s' = disk s
    ∧ match disk s with
      | Pickled {| b_model := Some m; b_imputer := Some i |} =>
          model s' = m ∧ imputer s' = i
      | _ => model s' = Some Unfitted ∧ imputer s' = Some ImputerUnfitted
      end.
Proof.
  unfold load_model. rewrite bind_unfold. cbn [get].
  destruct (disk s) as [| |[[m|] [i|] names t]] eqn:Hd;
    eexists; (split; [reflexivity|]); cbn; by rewrite ?Hd.
Qed.

End TrainingMore.

Lemma failed_fit_discards_model_witness :
  10 ≤ length (valid_examples ten_examples).1
  ∧ fst (@train_model failing_sklearn offline_providers ten_examples trained_state)
    = Ok (TrainError "Input y contains NaN.")
  ∧ model (snd (@train_model failing_sklearn offline_providers ten_examples
                  trained_state)) = Some Unfitted.
Proof.
  assert (Hlen : 10 ≤ length (valid_examples ten_examples).1) by (vm_compute; lia).
  split; [exact Hlen|].
  destruct (@failed_fit_discards_model failing_sklearn stable_numpy offline_providers
              ten_examples trained_state _ _ _ _ _ _ _ Hlen
              eq_refl eq_refl eq_refl eq_refl) as (Hr & Hm & _).
  split; [exact Hr | exact Hm].
Defined.

Lemma training_installs_and_persists_witness :
  10 ≤ length (valid_examples ten_examples).1
  ∧ writable blank_state = true
  ∧ model (snd (PredictionService_init
                  (snd (@train_model simple_sklearn offline_providers ten_examples
                          blank_state))))
    = Some (Fitted (constant_model 90)).
Proof.
  assert (Hlen : 10 ≤ length (valid_examples ten_examples).1) by (vm_compute; lia).
  split; [exact Hlen|]. split; [reflexivity|].
  destruct (@training_installs_and_persists simple_sklearn offline_providers
              ten_examples blank_state _ _ _ _ _ _ _ _ _ Hlen
              eq_refl eq_refl eq_refl eq_refl eq_refl eq_refl eq_refl)
    as (_ & _ & _ & _ & Hm & _).
  exact Hm.
Defined.


(** * The prediction router *)

Section RouterExplanation.
Context `{Calendar}.

Lemma greater_run (weight : pyval) (bound : Q) (x : float) :
  to_number weight = Ok x → PredictRouter.greater weight bound = Ok (fltb (Num bound) x).
Proof. unfold PredictRouter.greater. intros ->. reflexivity. Qed.

Lemma max_item_cons (item : string * float) (items : list (string * float)) :
  is_Some (PredictRouter.max_item (item :: items)).
Proof. simpl. eauto. Qed.

Lemma explanation_text_head (generic : string) (c : Ascii.ascii) (x : string)
    (l : list string) :
  ∃ rest,
    join ". " (if bool_decide (String c x :: l = []) then [generic] else String c x :: l)
    +:+ "." = String c rest.
Proof.
  rewrite bool_decide_eq_false_2 by discriminate.
  destruct l; simpl; eauto.
Qed.

Lemma append_head (c : Ascii.ascii) (x y : string) :
  String c x +:+ y = String c (x +:+ y).
Proof. reflexivity. Qed.

Ltac specific_sentence Heq :=
  cbn [app] in Heq; rewrite ?append_head in Heq;
  match type of Heq with
  | context [bool_decide (String ?c ?x :: ?l = [])] =>
      let rest := fresh "rest" in
      let Hrest := fresh "Hrest" in
      destruct (explanation_text_head
                  "Predictions based on historical performance, qualifying pace, and team form"
                  c x l) as [rest Hrest];
      rewrite Hrest in Heq; discriminate Heq
  end.

(** X14.  For weights whose four compared coefficients are numbers,
    [_generate_prediction_explanation] returns a text, and the text is the
    generic sentence exactly when nothing specific applies: no coefficient
    above its bound (0.8, 0.8, 0.8 and 0.6, each bound itself not counting),
    chaos mode off, no feature importance, and a start hour from 10 to 18
    or no race time. *)
Theorem explanation_generic_exactly_when_quiet
    (weights : PredictionWeights) (race_datetime : option datetime)
    (feature_importance : list (string * float)) (track pace quali weather : float) :
  to_number (track_suitability weights) = Ok track →
  to_number (clean_air_pace weights) = Ok pace →
  to_number (qualifying_importance weights) = Ok quali →
  to_number (weather_impact weights) = Ok weather →
  ∃ text,
    PredictRouter._generate_prediction_explanation weights race_datetime feature_importance
    = Ok text
    ∧ (text = "Predictions based on historical performance, qualifying pace, and team form."
       ↔ fltb (Num 0.8) track = false
         ∧ fltb (Num 0.8) pace = false
         ∧ fltb (Num 0.8) quali = false
         ∧ fltb (Num 0.6) weather = false
         ∧ truthy (chaos_mode weights) = false
         ∧ feature_importance = []
         ∧ match race_datetime with
           | Some t => (10 ≤ hour t ≤ 18)%Z
           | None => True
           end).
Proof.
  intros Ht Hp Hq Hw.
  unfold PredictRouter._generate_prediction_explanation.
  rewrite (greater_run _ _ _ Ht), (greater_run _ _ _ Hp),
    (greater_run _ _ _ Hq), (greater_run _ _ _ Hw).
  cbn [mbind result_bind].
  eexists. split; [reflexivity|].
  destruct (fltb (Num 0.8) track);
    [split; [intros Heq; specific_sentence Heq | intros (? & _); discriminate]|].
  destruct (fltb (Num 0.8) pace);
    [split; [intros Heq; specific_sentence Heq | intros (_ & ? & _); discriminate]|].
  destruct (fltb (Num 0.8) quali);
    [split; [intros Heq; specific_sentence Heq | intros (_ & _ & ? & _); discriminate]|].
  destruct (fltb (Num 0.6) weather);
    [split; [intros Heq; specific_sentence Heq | intros (_ & _ & _ & ? & _); discriminate]|].
  destruct (truthy (chaos_mode weights));
    [split; [intros Heq; specific_sentence Heq
            | intros (_ & _ & _ & _ & ? & _); discriminate]|].
  destruct feature_importance as [|item items].
  - destruct race_datetime as [t|]; cbn [PredictRouter.max_item app].
    + destruct (Z.ltb_spec (hour t) 10);
        [split; [intros Heq; specific_sentence Heq | intros (_&_&_&_&_&_&?); lia]|].
      destruct (Z.ltb_spec 18 (hour t));
        [split; [intros Heq; specific_sentence Heq | intros (_&_&_&_&_&_&?); lia]|].
      split; [intros _; repeat split; lia | reflexivity].
    + split; [intros _; repeat split | reflexivity].
  - destruct (max_item_cons item items) as [top ->].
    split; [intros Heq; specific_sentence Heq | intros (_&_&_&_&_&?&_); discriminate].
Qed.

Lemma explanation_generic_text
    (weights : PredictionWeights) (race_datetime : option datetime)
    (feature_importance : list (string * float)) (track pace quali weather : float) :
  to_number (track_suitability weights) = Ok track →
  to_number (clean_air_pace weights) = Ok pace →
  to_number (qualifying_importance weights) = Ok quali →
  to_number (weather_impact weights) = Ok weather →
  ∃ text,
    PredictRouter._generate_prediction_explanation weights race_datetime feature_importance
    = Ok text.
Proof.
  intros Ht Hp Hq Hw.
  unfold PredictRouter._generate_prediction_explanation.
  rewrite (greater_run _ _ _ Ht), (greater_run _ _ _ Hp),
    (greater_run _ _ _ Hq), (greater_run _ _ _ Hw).
  cbn [mbind result_bind]. eauto.
Qed.

Lemma not_numeric (v : pyval) : ¬ numeric v → to_number v = Raise TypeError.
Proof.
  intros Hv. destruct v; try reflexivity; exfalso; apply Hv; eexists; reflexivity.
Qed.

Lemma explanation_needs_numbers
    (weights : PredictionWeights) (race_datetime : option datetime)
    (feature_importance : list (string * float)) :
  ¬ (numeric (track_suitability weights)
     ∧ numeric (clean_air_pace weights)
     ∧ numeric (qualifying_importance weights)
     ∧ numeric (weather_impact weights)) →
  PredictRouter._generate_prediction_explanation weights race_datetime feature_importance
  = Raise TypeError.
Proof.
  intros Hbad. unfold PredictRouter._generate_prediction_explanation, PredictRouter.greater.
  destruct (to_number (track_suitability weights)) as [track|e] eqn:Ht.
  2: { destruct (track_suitability weights); try discriminate Ht; by injection Ht as <-. }
  destruct (to_number (clean_air_pace weights)) as [pace|e] eqn:Hp.
  2: { destruct (clean_air_pace weights); try discriminate Hp; by injection Hp as <-. }
  destruct (to_number (qualifying_importance weights)) as [quali|e] eqn:Hq.
  2: { destruct (qualifying_importance weights); try discriminate Hq; by injection Hq as <-. }
  destruct (to_number (weather_impact weights)) as [weather|e] eqn:Hw.
  2: { destruct (weather_impact weights); try discriminate Hw; by injection Hw as <-. }
  exfalso. apply Hbad. unfold numeric. repeat split; eauto.
Qed.

End RouterExplanation.

(** * The service over its lifetime *)

Lemma maintains_ret {A} (P : state → Prop) (a : A) : maintains P (ret a).
Proof. by intros s. Qed.

Lemma maintains_lift {A} (P : state → Prop) (r : result A) : maintains P (lift r).
Proof. intros s. by destruct r. Qed.

Lemma maintains_raise {A} (P : state → Prop) (e : exn) : maintains P (@raise A e).
Proof. by intros s. Qed.

Lemma maintains_modify (P : state → Prop) (f : state → state) :
  (∀ s, P s → P (f s)) → maintains P (modify f).
Proof. intros Hf s. apply Hf. Qed.

Lemma maintains_bind {A B} (P : state → Prop) (m : M A) (k : A → M B) :
  maintains P m → (∀ a, maintains P (k a)) → maintains P (m ≫= k).
Proof.
  intros Hm Hk s Hs. rewrite bind_unfold. specialize (Hm s Hs).
  destruct (m s) as [[a|e] s1]; simpl in *; [by apply Hk | done].
Qed.

Lemma maintains_try {A} (P : state → Prop) (body : M A) (handler : exn → M A) :
  maintains P body → (∀ e, maintains P (handler e)) → maintains P (try_except body handler).
Proof.
  intros Hb Hh s Hs. unfold try_except. specialize (Hb s Hs).
  destruct (body s) as [[a|e] s1]; simpl in *; [done | by apply Hh].
Qed.

Lemma has_model_set_imputer (i : option simple_imputer) (s : state) :
  has_model s → has_model (set_imputer i s).
Proof. by destruct s. Qed.

Lemma has_model_set_model (m : regressor) (s : state) :
  has_model s → has_model (set_model (Some m) s).
Proof. destruct s. intros [_ Hd]. by split. Qed.

Section LifetimeProofs.
Context `{Sklearn} `{Numpy} `{Providers}.

Lemma maintains_save_model : maintains has_model _save_model.
Proof.
  intros s [Hm Hd]. unfold _save_model, try_except. rewrite bind_unfold.
  cbn [get]. destruct s as [m i d [] n]; simpl in *.
  - split; [done|]. simpl. by intros [= ->].
  - by split.
Qed.

Lemma maintains_fit_transform X : maintains has_model (fit_transform X).
Proof.
  unfold fit_transform.
  apply maintains_bind; [apply maintains_lift|intros statistics].
  apply maintains_bind; [|intros _; apply maintains_lift].
  apply maintains_modify, has_model_set_imputer.
Qed.

Lemma maintains_train_model training_data : maintains has_model (train_model training_data).
Proof.
  unfold train_model.
  apply maintains_try; [|intros e; apply maintains_ret].
  case_bool_decide; [apply maintains_ret|].
  apply maintains_bind; [apply maintains_lift|intros [X y]].
  destruct (length X <? 10)%nat; [apply maintains_ret|].
  apply maintains_bind; [apply maintains_modify, has_model_set_imputer|intros _].
  apply maintains_bind; [apply maintains_fit_transform|intros X_imputed].
  apply maintains_bind; [apply maintains_lift|intros [[[X_train X_test] y_train] y_test]].
  apply maintains_bind; [apply maintains_modify, has_model_set_model|intros _].
  apply maintains_bind; [apply maintains_lift|intros m].
  apply maintains_bind; [apply maintains_modify, has_model_set_model|intros _].
  apply maintains_bind; [apply maintains_lift|intros y_pred].
  apply maintains_bind; [apply maintains_lift|intros mae].
  apply maintains_bind; [apply maintains_save_model|intros _].
  apply maintains_bind; [apply maintains_lift|intros imps].
  apply maintains_ret.
Qed.

Lemma maintains_predict_race year event round_num weights race_datetime :
  maintains has_model (predict_race year event round_num weights race_datetime).
Proof.
  intros s [Hm Hd].
  destruct (predict_race_keeps year event round_num weights race_datetime s)
    as (Hm' & Hd' & _).
  split; [by rewrite Hm' | by rewrite Hd'].
Qed.

Lemma get_feature_importance_state s : (get_feature_importance s).2 = s.
Proof.
  unfold get_feature_importance. rewrite bind_unfold. cbn [get].
  destruct (model s) as [m|]; [|done].
  rewrite bind_unfold. by destruct (feature_importances_ m).
Qed.

Lemma init_has_model s0 : sound_file (disk s0) → has_model (PredictionService_init s0).2.
Proof.
  intros Hd. destruct s0 as [m i d w n]. simpl in Hd.
  unfold PredictionService_init, load_model.
  destruct d as [| |[[bm|] [bi|] bf bt]]; try by (vm_compute; split).
  destruct bm as [r|]; [by split | done].
Qed.

Lemma reachable_has_model s : reachable s → has_model s.
Proof.
  induction 1.
  - by apply init_has_model.
  - by apply maintains_predict_race.
  - by apply maintains_train_model.
  - by rewrite get_feature_importance_state.
Qed.

End LifetimeProofs.

(** * The endpoints *)

Lemma no_position_changes_without_event : average_position_change !! EmptyString = None.
Proof. reflexivity. Qed.

Lemma fallback_response_set race_id year round grand_prix circuit_name
    (request_weights : gmap string pyval) e :
  PredictRouter.fallback_response race_id year round (Some grand_prix)
    (Some circuit_name) request_weights e
  = Ok (fallback_of race_id year round grand_prix circuit_name request_weights e).
Proof. reflexivity. Qed.



Section Endpoints.
Context `{Sklearn} `{Numpy} `{Providers} `{Calendar}.
Variable forecast_without_event : datetime → option WeatherData.
Variable pace_without_event : Z → result (gmap string float).
Variable qualifying_without_event : Z → result (option (list quali_row)).

Lemma predict_race_run year event round_num weights race_datetime s :
  ∃ out s1,
    predict_race year event round_num weights race_datetime s = (Ok out, s1)
    ∧ model s1 = model s ∧ disk s1 = disk s.
Proof.
  pose proof (predict_race_keeps year event round_num weights race_datetime s)
    as (Hm & Hd & _).
  assert (∃ out s1, predict_race year event round_num weights race_datetime s
                    = (Ok out, s1)) as (out & s1 & Hrun).
  { unfold predict_race, try_except.
    match goal with
    | |- context [match ?body s with _ => _ end] => destruct (body s) as [[o|e] s1]
    end; unfold ret; eauto. }
  exists out, s1. rewrite Hrun in Hm, Hd. done.
Qed.

(** The endpoint on a race and a circuit whose names are set, after the
    call of the service, by the model held. *)
Lemma predict_endpoint_step year round request_weights db s race gp cname out s1 :
  query_race db year round = Some race →
  grand_prix race = Some gp →
  PredictRouter.circuit_name_of db race = Some cname →
  request_weights !! "self" = None →
  predict_race year cname round
    (PredictionWeights_init request_weights) (PredictRouter.race_datetime_of race) s
  = (Ok out, s1) →
  model s1 = model s →
  PredictRouter.predict_race forecast_without_event pace_without_event
    qualifying_without_event year round request_weights db s
  = (Reply
       match model s with
       | Some Unfitted =>
           fallback_of (id race) year round gp cname request_weights NotFittedError
       | held =>
           let importance :=
             match held with
             | Some (Fitted m) => zip feature_names (importances m)
             | _ => []
             end in
           match PredictRouter._generate_prediction_explanation
                   (PredictionWeights_init request_weights)
                   (PredictRouter.race_datetime_of race) importance with
           | Ok text =>
               {| PredictRouter.race_id := id race;
                  PredictRouter.year := year;
                  PredictRouter.round := round;
                  PredictRouter.response_grand_prix := gp;
                  PredictRouter.circuit_name := cname;
                  PredictRouter.race_datetime :=
                    isoformat <$> PredictRouter.race_datetime_of race;
                  PredictRouter.weights := request_weights;
                  PredictRouter.predictions := PredictRouter.response_of <$> out;
                  PredictRouter.feature_importance := importance;
                  PredictRouter.model_confidence :=
                    if bool_decide (held = None) then 0.45%Q else 0.85%Q;
                  PredictRouter.explanation := text |}
           | Raise e =>
               fallback_of (id race) year round gp cname request_weights e
           end
       end, s1).
Proof.
  intros Hrace Hgp Hname Hself Hrun Hmodel. unfold PredictRouter.predict_race.
  rewrite Hrace. cbv zeta. rewrite Hgp, Hname.
  unfold PredictionWeights_call. rewrite Hself.
  rewrite bind_unfold. cbn [lift]. cbn beta iota.
  unfold PredictRouter.service_predict_race.
  rewrite bind_unfold, Hrun. cbn beta iota.
  rewrite bind_unfold. unfold get_feature_importance at 1.
  rewrite bind_unfold. cbn [get]. cbn beta iota. rewrite Hmodel.
  destruct (model s) as [[|m]|] eqn:Hheld.
  - rewrite bind_unfold. reflexivity.
  - rewrite bind_unfold. cbn [feature_importances_ lift ret]. cbn beta iota.
    rewrite bind_unfold. cbn [get]. cbn beta iota. rewrite Hmodel.
    rewrite bind_unfold. cbn [PredictRouter.model_truth lift]. cbn beta iota.
    rewrite bind_unfold. cbn [lift].
    destruct (PredictRouter._generate_prediction_explanation _ _ _); reflexivity.
  - cbn [ret]. cbn beta iota.
    rewrite bind_unfold. cbn [get]. cbn beta iota. rewrite Hmodel.
    rewrite bind_unfold. cbn [PredictRouter.model_truth lift]. cbn beta iota.
    rewrite bind_unfold. cbn [lift].
    destruct (PredictRouter._generate_prediction_explanation _ _ _); reflexivity.
Qed.

(** The key ["self"] among the weights: the construction of the weights
    raises, nothing else is run. *)
Lemma predict_endpoint_self_key year round request_weights db s race gp cname :
  query_race db year round = Some race →
  grand_prix race = Some gp →
  PredictRouter.circuit_name_of db race = Some cname →
  is_Some (request_weights !! "self") →
  PredictRouter.predict_race forecast_without_event pace_without_event
    qualifying_without_event year round request_weights db s
  = (Reply (fallback_of (id race) year round gp cname request_weights TypeError), s).
Proof.
  intros Hrace Hgp Hname [v Hself]. unfold PredictRouter.predict_race.
  rewrite Hrace. cbv zeta. rewrite Hgp, Hname.
  unfold PredictionWeights_call. rewrite Hself.
  rewrite bind_unfold. reflexivity.
Qed.


Lemma train_model_returns training_data s :
  ∃ r s', train_model training_data s = (Ok r, s').
Proof.
  unfold train_model, try_except.
  match goal with
  | |- context [match ?body s with _ => _ end] => destruct (body s) as [[o|e] s1]
  end; unfold ret; eauto.
Qed.

(** X15.  The service always holds a model object.  From its construction
    on a model file that, if present, was written with a model, and through
    every call of [predict_race], [train_model] and [get_feature_importance],
    [self.model] is not [None] and the model file stays one written with a
    model; so [GET /model-status] reports [model_loaded] true at all times,
    trained or not, with 6 features, 19 drivers and 10 teams. *)
Theorem service_always_holds_a_model (s : state) :
  reachable s →
  model s ≠ None
  ∧ sound_file (disk s)
  ∧ PredictRouter.get_model_status s
    = Reply {| PredictRouter.model_loaded := true;
               PredictRouter.feature_count := 6;
               PredictRouter.status_feature_names := feature_names;
               PredictRouter.driver_count := 19;
               PredictRouter.team_count := 10 |}.
Proof.
  intros Hs. destruct (reachable_has_model s Hs) as [Hm Hd].
  split; [done|]. split; [done|].
  unfold PredictRouter.get_model_status.
  rewrite (bool_decide_eq_true_2 _ Hm). f_equal.
Qed.


(** X17.  While the model of the service is an unfitted regressor -- the
    default model of a service constructed without a usable model file --
    [POST /{year}/{round}] answers every race that has its grand prix name
    and its circuit name set with the fallback response: the six
    hard-coded predictions, an empty importance map, no race time,
    confidence 0.3 and the text of the error, whatever the providers and
    the race.  The error is the not-fitted error for every request, except
    one whose weights have the key ["self"]: there it is the [TypeError] of
    the construction of the weights.  The model stays unfitted. *)
Theorem predict_endpoint_untrained year round request_weights db race gp cname (s : state) :
  model s = Some Unfitted →
  query_race db year round = Some race →
  grand_prix race = Some gp →
  PredictRouter.circuit_name_of db race = Some cname →
  ∃ s',
    PredictRouter.predict_race forecast_without_event pace_without_event
      qualifying_without_event year round request_weights db s
    = (Reply (fallback_of (id race) year round gp cname request_weights
                match request_weights !! "self" with
                 | Some _ => TypeError
                 | None => NotFittedError
                 end),
       s')
    ∧ model s' = Some Unfitted.
Proof.
  intros Hmodel Hrace Hgp Hname.
  destruct (request_weights !! "self") as [v|] eqn:Hself.
  { rewrite (predict_endpoint_self_key _ _ _ _ _ _ _ _ Hrace Hgp Hname)
      by (by rewrite Hself).
    by exists s. }
  destruct (predict_race_run year cname round
              (PredictionWeights_init request_weights)
              (PredictRouter.race_datetime_of race) s) as (out & s1 & Hrun & Hm & _).
  rewrite (predict_endpoint_step _ _ _ _ _ _ _ _ _ _ Hrace Hgp Hname Hself Hrun Hm),
    Hmodel.
  exists s1. split; [reflexivity | congruence].
Qed.


(** X19.  With a fitted model, a race and a circuit whose names are set,
    weights without the key ["self"], and the four coefficients the
    explanation compares being numbers, [POST /{year}/{round}] passes on
    what the service computes: the predictions of [predict_race] in their
    order, field by field, the importances of the model by feature name,
    the race time in ISO format, confidence 0.85 and the generated
    explanation. *)
Theorem predict_endpoint_with_fitted_model
    year round request_weights db race gp cname (s : state) m :
  model s = Some (Fitted m) →
  query_race db year round = Some race →
  grand_prix race = Some gp →
  PredictRouter.circuit_name_of db race = Some cname →
  request_weights !! "self" = None →
  numeric (track_suitability (PredictionWeights_init request_weights)) →
  numeric (clean_air_pace (PredictionWeights_init request_weights)) →
  numeric (qualifying_importance (PredictionWeights_init request_weights)) →
  numeric (weather_impact (PredictionWeights_init request_weights)) →
  ∃ out text s',
    PredictionWeights_call request_weights = Ok (PredictionWeights_init request_weights)
    ∧ predict_race year cname round
        (PredictionWeights_init request_weights) (PredictRouter.race_datetime_of race) s
      = (Ok out, s')
    ∧ PredictRouter._generate_prediction_explanation
        (PredictionWeights_init request_weights) (PredictRouter.race_datetime_of race)
        (zip feature_names (importances m)) = Ok text
    ∧ PredictRouter.predict_race forecast_without_event pace_without_event
        qualifying_without_event year round request_weights db s
      = (Reply {| PredictRouter.race_id := id race;
                  PredictRouter.year := year;
                  PredictRouter.round := round;
                  PredictRouter.response_grand_prix := gp;
                  PredictRouter.circuit_name := cname;
                  PredictRouter.race_datetime :=
                    isoformat <$> PredictRouter.race_datetime_of race;
                  PredictRouter.weights := request_weights;
                  PredictRouter.predictions := PredictRouter.response_of <$> out;
                  PredictRouter.feature_importance := zip feature_names (importances m);
                  PredictRouter.model_confidence := 0.85;
                  PredictRouter.explanation := text |}, s').
Proof.
  intros Hmodel Hrace Hgp Hname Hself [track Ht] [pace Hp] [quali Hq] [weather Hw].
  destruct (predict_race_run year cname round
              (PredictionWeights_init request_weights)
              (PredictRouter.race_datetime_of race) s) as (out & s1 & Hrun & Hm & _).
  destruct (explanation_generic_text (PredictionWeights_init request_weights)
              (PredictRouter.race_datetime_of race) (zip feature_names (importances m))
              track pace quali weather Ht Hp Hq Hw) as [text Htext].
  exists out, text, s1.
  split; [unfold PredictionWeights_call; by rewrite Hself|].
  split; [done|]. split; [done|].
  rewrite (predict_endpoint_step _ _ _ _ _ _ _ _ _ _ Hrace Hgp Hname Hself Hrun Hm),
    Hmodel.
  cbv beta iota zeta. by rewrite Htext.
Qed.

(** X20.  The weights fail in three ways.  With a fitted model and a race
    and a circuit whose names are set: a [team_form] that is not a number
    (no key ["self"], the other coefficients being numbers) empties the
    prediction list and the reply still carries confidence 0.85; a
    compared coefficient that is not a number (no key ["self"]) makes the
    explanation raise, and the reply is the fallback response; and the key
    ["self"] makes the construction of the weights raise, and the reply is
    the fallback response with the service left as it was. *)
Theorem predict_endpoint_unusable_weights
    year round request_weights db race gp cname (s : state) m :
  model s = Some (Fitted m) →
  query_race db year round = Some race →
  grand_prix race = Some gp →
  PredictRouter.circuit_name_of db race = Some cname →
  (request_weights !! "self" = None →
   numeric (track_suitability (PredictionWeights_init request_weights)) →
   numeric (clean_air_pace (PredictionWeights_init request_weights)) →
   numeric (qualifying_importance (PredictionWeights_init request_weights)) →
   numeric (weather_impact (PredictionWeights_init request_weights)) →
   ¬ numeric (team_form (PredictionWeights_init request_weights)) →
   ∃ r s',
     PredictRouter.predict_race forecast_without_event pace_without_event
       qualifying_without_event year round request_weights db s = (Reply r, s')
     ∧ PredictRouter.predictions r = []
     ∧ PredictRouter.model_confidence r = 0.85%Q)
  ∧ (request_weights !! "self" = None →
     ¬ (numeric (track_suitability (PredictionWeights_init request_weights))
        ∧ numeric (clean_air_pace (PredictionWeights_init request_weights))
        ∧ numeric (qualifying_importance (PredictionWeights_init request_weights))
        ∧ numeric (weather_impact (PredictionWeights_init request_weights))) →
     ∃ s',
       PredictRouter.predict_race forecast_without_event pace_without_event
         qualifying_without_event year round request_weights db s
       = (Reply (fallback_of (id race) year round gp cname request_weights TypeError),
          s'))
  ∧ (is_Some (request_weights !! "self") →
     PredictRouter.predict_race forecast_without_event pace_without_event
       qualifying_without_event year round request_weights db s
     = (Reply (fallback_of (id race) year round gp cname request_weights TypeError), s)).
Proof.
  intros Hmodel Hrace Hgp Hname.
  split; [|split].
  - intros Hself [track Ht] [pace Hp] [quali Hq] [weather Hw] Hteam.
    destruct (predict_race_run year cname round
                (PredictionWeights_init request_weights)
                (PredictRouter.race_datetime_of race) s) as (out & s1 & Hrun & Hm & _).
    rewrite (predict_endpoint_step _ _ _ _ _ _ _ _ _ _ Hrace Hgp Hname Hself Hrun Hm),
      Hmodel.
    cbv beta iota zeta.
    destruct (explanation_generic_text (PredictionWeights_init request_weights)
                (PredictRouter.race_datetime_of race) (zip feature_names (importances m))
                track pace quali weather Ht Hp Hq Hw) as [text ->].
    eexists _, s1. split; [reflexivity|]. split; [|reflexivity].
    cbn [PredictRouter.predictions].
    assert (¬ numeric_weights (PredictionWeights_init request_weights)) as Hbad.
    { intros (_ & _ & _ & ? & _). done. }
    pose proof (predict_race_unusable_fst year cname
                  round _ (PredictRouter.race_datetime_of race) s Hbad) as Hfst.
    rewrite Hrun in Hfst. simpl in Hfst. by injection Hfst as ->.
  - intros Hself Hbad.
    destruct (predict_race_run year cname round
                (PredictionWeights_init request_weights)
                (PredictRouter.race_datetime_of race) s) as (out & s1 & Hrun & Hm & _).
    rewrite (predict_endpoint_step _ _ _ _ _ _ _ _ _ _ Hrace Hgp Hname Hself Hrun Hm),
      Hmodel.
    cbv beta iota zeta. exists s1.
    rewrite (explanation_needs_numbers _ _ _ Hbad). reflexivity.
  - intros Hself. by apply predict_endpoint_self_key.
Qed.

(** X21.  [POST /train-model] never answers HTTP 500: [train_model] of the
    service returns in every case, a failure as its error mapping, and the
    endpoint replies with what it returned. *)
Theorem train_endpoint_never_fails training_data (s : state) :
  ∃ r s',
    train_model training_data s = (Ok r, s')
    ∧ PredictRouter.train_model training_data s = (Reply r, s').
Proof.
  destruct (train_model_returns training_data s) as (r & s' & Hrun).
  exists r, s'. split; [done|].
  unfold PredictRouter.train_model. by rewrite Hrun.
Qed.

End Endpoints.
(** * The properties above at concrete inputs *)

Lemma explanation_generic_exactly_when_quiet_witness :
  @PredictRouter._generate_prediction_explanation simple_calendar threshold_weights
    (Some 64800%Z) []
  = Ok "Predictions based on historical performance, qualifying pace, and team form.".
Proof.
  destruct (@explanation_generic_exactly_when_quiet simple_calendar threshold_weights
              (Some 64800%Z) [] (Num 0.8) (Num 0.8) (Num 0.8) (Num 0.6)
              eq_refl eq_refl eq_refl eq_refl) as (text & -> & Hiff).
  f_equal. apply Hiff. repeat split; vm_compute; congruence.
Defined.

Lemma fresh_state_reachable :
  @reachable simple_sklearn stable_numpy offline_providers fresh_state.
Proof. apply (@reachable_init simple_sklearn stable_numpy offline_providers blank_state I). Qed.

Lemma service_always_holds_a_model_witness :
  @reachable simple_sklearn stable_numpy offline_providers fresh_state
  ∧ model fresh_state ≠ None.
Proof.
  split; [exact fresh_state_reachable|].
  apply (@service_always_holds_a_model simple_sklearn stable_numpy offline_providers
           fresh_state fresh_state_reachable).
Defined.


Lemma predict_endpoint_untrained_witness :
  (∃ r s',
     @PredictRouter.predict_race simple_sklearn stable_numpy offline_providers
      simple_calendar (λ _, None) (λ _, Ok ∅) (λ _, Ok None) 2024 8 ∅ monaco_db fresh_state = (Reply r, s')
     ∧ PredictRouter.predictions r = PredictRouter._create_fallback_predictions
     ∧ PredictRouter.model_confidence r = 0.3%Q
     ∧ PredictRouter.explanation r
       = "Using fallback predictions due to ML service error: "
         +:+ exn_str NotFittedError)
  ∧ (∃ r s',
       @PredictRouter.predict_race simple_sklearn stable_numpy offline_providers
      simple_calendar (λ _, None) (λ _, Ok ∅) (λ _, Ok None) 2024 8 {["self" := PyNum (Num 1)]} monaco_db fresh_state = (Reply r, s')
       ∧ PredictRouter.explanation r
         = "Using fallback predictions due to ML service error: " +:+ exn_str TypeError).
Proof.
  split.
  - destruct (@predict_endpoint_untrained simple_sklearn stable_numpy offline_providers
                simple_calendar (λ _, None) (λ _, Ok ∅) (λ _, Ok None) 2024 8 ∅ monaco_db
                {| id := 1208; circuit_key := Some "monaco";
                 grand_prix := Some "Monaco Grand Prix";
                 race_date := Some 19869%Z; session_start := None |}
                "Monaco Grand Prix" "Monaco" fresh_state eq_refl eq_refl eq_refl eq_refl)
      as (s' & Hrun & _).
    eexists _, s'. split; [exact Hrun|]. split; [reflexivity|]. split; reflexivity.
  - destruct (@predict_endpoint_untrained simple_sklearn stable_numpy offline_providers
                simple_calendar (λ _, None) (λ _, Ok ∅) (λ _, Ok None) 2024 8
                {["self" := PyNum (Num 1)]} monaco_db
                {| id := 1208; circuit_key := Some "monaco";
                 grand_prix := Some "Monaco Grand Prix";
                 race_date := Some 19869%Z; session_start := None |}
                "Monaco Grand Prix" "Monaco" fresh_state eq_refl eq_refl eq_refl eq_refl)
      as (s' & Hrun & _).
    eexists _, s'. split; [exact Hrun|]. reflexivity.
Defined.


Lemma no_self_key_in_empty : (∅ : gmap string pyval) !! "self" = None.
Proof. reflexivity. Qed.

Lemma predict_endpoint_with_fitted_model_witness :
  ∃ r s',
    @PredictRouter.predict_race simple_sklearn stable_numpy offline_providers
      simple_calendar (λ _, None) (λ _, Ok ∅) (λ _, Ok None) 2024 8 ∅ monaco_db trained_state = (Reply r, s')
    ∧ PredictRouter.model_confidence r = 0.85%Q
    ∧ PredictRouter.race_datetime r = Some "1970-01-01T00:00:00".
Proof.
  destruct (@predict_endpoint_with_fitted_model simple_sklearn stable_numpy
              offline_providers simple_calendar (λ _, None) (λ _, Ok ∅) (λ _, Ok None)
              2024 8 ∅ monaco_db
              {| id := 1208; circuit_key := Some "monaco";
                 grand_prix := Some "Monaco Grand Prix";
                 race_date := Some 19869%Z; session_start := None |}
              "Monaco Grand Prix" "Monaco"
              trained_state (constant_model 90) eq_refl eq_refl eq_refl eq_refl
              no_self_key_in_empty)
    as (out & text & s' & _ & _ & _ & Hrun).
  - eexists. reflexivity.
  - eexists. reflexivity.
  - eexists. reflexivity.
  - eexists. reflexivity.
  - eexists _, s'. split; [exact Hrun|]. split; reflexivity.
Defined.

Lemma predict_endpoint_unusable_weights_witness :
  (∃ r s',
     @PredictRouter.predict_race simple_sklearn stable_numpy offline_providers
      simple_calendar (λ _, None) (λ _, Ok ∅) (λ _, Ok None) 2024 8 {["team_form" := PyStr "high"]} monaco_db trained_state
     = (Reply r, s')
     ∧ PredictRouter.predictions r = []
     ∧ PredictRouter.model_confidence r = 0.85%Q)
  ∧ (∃ r s',
       @PredictRouter.predict_race simple_sklearn stable_numpy offline_providers
      simple_calendar (λ _, None) (λ _, Ok ∅) (λ _, Ok None) 2024 8 {["weather_impact" := PyNone]} monaco_db trained_state
       = (Reply r, s')
       ∧ PredictRouter.predictions r = PredictRouter._create_fallback_predictions)
  ∧ (∃ r,
       @PredictRouter.predict_race simple_sklearn stable_numpy offline_providers
      simple_calendar (λ _, None) (λ _, Ok ∅) (λ _, Ok None) 2024 8 {["self" := PyNum (Num 1)]} monaco_db trained_state
       = (Reply r, trained_state)
       ∧ PredictRouter.model_confidence r = 0.3%Q).
Proof.
  split; [|split].
  - apply (@predict_endpoint_unusable_weights simple_sklearn stable_numpy
             offline_providers simple_calendar (λ _, None) (λ _, Ok ∅) (λ _, Ok None)
             2024 8 {["team_form" := PyStr "high"]} monaco_db
             {| id := 1208; circuit_key := Some "monaco";
                 grand_prix := Some "Monaco Grand Prix";
                 race_date := Some 19869%Z; session_start := None |}
             "Monaco Grand Prix" "Monaco"
             trained_state (constant_model 90) eq_refl eq_refl eq_refl eq_refl).
    + vm_compute. reflexivity.
    + eexists. reflexivity.
    + eexists. reflexivity.
    + eexists. reflexivity.
    + eexists. reflexivity.
    + intros [x Hx]. discriminate Hx.
  - destruct (@predict_endpoint_unusable_weights simple_sklearn stable_numpy
                offline_providers simple_calendar (λ _, None) (λ _, Ok ∅) (λ _, Ok None)
                2024 8 {["weather_impact" := PyNone]} monaco_db
                {| id := 1208; circuit_key := Some "monaco";
                 grand_prix := Some "Monaco Grand Prix";
                 race_date := Some 19869%Z; session_start := None |}
                "Monaco Grand Prix" "Monaco"
                trained_state (constant_model 90) eq_refl eq_refl eq_refl eq_refl)
      as (_ & Hfallback & _).
    destruct Hfallback as [s' Hrun].
    + vm_compute. reflexivity.
    + intros (_ & _ & _ & [x Hx]). discriminate Hx.
    + eexists _, s'. split; [exact Hrun | reflexivity].
  - eexists. split.
    + apply (@predict_endpoint_unusable_weights simple_sklearn stable_numpy
             offline_providers simple_calendar (λ _, None) (λ _, Ok ∅) (λ _, Ok None)
             2024 8 {["self" := PyNum (Num 1)]} monaco_db
             {| id := 1208; circuit_key := Some "monaco";
                 grand_prix := Some "Monaco Grand Prix";
                 race_date := Some 19869%Z; session_start := None |}
             "Monaco Grand Prix" "Monaco"
             trained_state (constant_model 90) eq_refl eq_refl eq_refl eq_refl).
      eexists. vm_compute. reflexivity.
    + reflexivity.
Defined.

(** * The weather service *)

Lemma fltb_above (a : Q) (p : float) :
  fltb (Num a) p = true ↔ ∃ q, p = Num q ∧ (a < q)%Q.
Proof.
  destruct p as [q|]; simpl.
  - rewrite negb_true_iff, <- not_true_iff_false, Qle_bool_iff. split.
    + intros Hq. exists q. split; [done|]. by apply Qnot_le_lt.
    + intros (q' & [= <-] & Hq). by apply Qlt_not_le.
  - split; [done|]. by intros (q & ? & _).
Qed.

Lemma fltb_not_above (a : Q) (p : float) :
  fltb (Num a) p = false ↔ ∀ q, p = Num q → (q <= a)%Q.
Proof.
  destruct p as [q|]; simpl.
  - rewrite negb_false_iff, Qle_bool_iff. split.
    + by intros Hq q' [= <-].
    + intros Hq. by apply Hq.
  - split; [by intros _ q ?|done].
Qed.

Ltac compare_literals :=
  vm_compute; first [reflexivity | discriminate | (intro; discriminate)].

(** X22.  [calculate_weather_impact] only ever slows down and stirs up:
    the temperature effect lies in [0.95, 1], the rain effect in
    [0.85, 1], the wind effect in [0.98, 1] and the chaos multiplier in
    [1, 2].  Rain costs pace and adds chaos exactly when the precipitation
    is above the 0.1 mm at which the service calls a weather point wet; the
    [track_wet] flag is the [is_wet] of the weather point, and the circuit
    plays no part. *)
Theorem weather_impact_bounds (weather_data : WeatherData) (circuit_key other_key : string) :
  let impact := WeatherService.calculate_weather_impact weather_data circuit_key in
  (0.95 <= WeatherService.temperature_effect impact <= 1)%Q
  ∧ (0.85 <= WeatherService.rain_effect impact <= 1)%Q
  ∧ (0.98 <= WeatherService.wind_effect impact <= 1)%Q
  ∧ (1 <= WeatherService.chaos_multiplier impact <= 2)%Q
  ∧ ((WeatherService.rain_effect impact < 1)%Q
     ↔ WeatherService.wet (precipitation_mm weather_data) = true)
  ∧ ((1 < WeatherService.chaos_multiplier impact)%Q
     ↔ WeatherService.wet (precipitation_mm weather_data) = true)
  ∧ WeatherService.track_wet impact = is_wet weather_data
  ∧ WeatherService.calculate_weather_impact weather_data other_key = impact.
Proof.
  unfold WeatherService.calculate_weather_impact, WeatherService.wet. cbv zeta.
  destruct (fltb (Num 5.0) (precipitation_mm weather_data)) eqn:E5;
    [apply fltb_above in E5 as (q & Hq & H5) | rewrite fltb_not_above in E5];
    (destruct (fltb (Num 1.0) (precipitation_mm weather_data)) eqn:E1;
     [apply fltb_above in E1 as (q1 & Hq1 & H1) | rewrite fltb_not_above in E1]);
    (destruct (fltb (Num 0.1) (precipitation_mm weather_data)) eqn:E01;
     [pose proof E01 as E01'; apply fltb_above in E01' as (q01 & Hq01 & H01)
     | pose proof E01 as E01'; rewrite fltb_not_above in E01']);
    cbn [WeatherService.temperature_effect WeatherService.rain_effect
           WeatherService.wind_effect WeatherService.chaos_multiplier
           WeatherService.track_wet];
    try (exfalso;
         repeat match goal with
         | Ha : precipitation_mm weather_data = Num ?a,
           H : ∀ q, precipitation_mm weather_data = Num q → _ |- _ =>
             specialize (H a Ha)
         end;
         repeat match goal with
         | Ha : precipitation_mm weather_data = Num ?a,
           Hb : precipitation_mm weather_data = Num ?b |- _ =>
             rewrite Ha in Hb; injection Hb as <-
         end;
         lra);
    (split; [destruct (fltb (Num 30) (temperature_c weather_data));
               [|destruct (fltb (temperature_c weather_data) (Num 15))];
               split; compare_literals|]);
    (split; [split; compare_literals|]);
    (split; [destruct (fltb (Num 25) (wind_kph weather_data)); split; compare_literals|]);
    (split; [split; compare_literals|]);
    (split; [split; first [by intros _ | compare_literals | by intros ?]|]);
    (split; [split; first [by intros _ | compare_literals | by intros ?]|]);
    split; reflexivity.
Qed.

Lemma weather_bands (p : float) :
  (fltb (Num 5.0) p = true ∧ fltb (Num 1.0) p = true ∧ fltb (Num 0.1) p = true)
  ∨ (fltb (Num 5.0) p = false ∧ fltb (Num 1.0) p = true ∧ fltb (Num 0.1) p = true)
  ∨ (fltb (Num 5.0) p = false ∧ fltb (Num 1.0) p = false ∧ fltb (Num 0.1) p = true)
  ∨ (fltb (Num 5.0) p = false ∧ fltb (Num 1.0) p = false ∧ fltb (Num 0.1) p = false).
Proof.
  destruct p as [q|]; [|by repeat right].
  destruct (fltb (Num 5.0) (Num q)) eqn:E5;
    [apply fltb_above in E5 as (q5 & [= <-] & H5) | rewrite fltb_not_above in E5];
    (destruct (fltb (Num 1.0) (Num q)) eqn:E1;
     [apply fltb_above in E1 as (q1 & [= <-] & H1) | rewrite fltb_not_above in E1]);
    (destruct (fltb (Num 0.1) (Num q)) eqn:E01;
     [apply fltb_above in E01 as (q01 & [= <-] & H01) | rewrite fltb_not_above in E01]);
    try specialize (E5 q eq_refl); try specialize (E1 q eq_refl);
    try specialize (E01 q eq_refl);
    try (exfalso; lra); auto 10.
Qed.

Ltac listed := repeat first [by left | right].

Ltac rain_band E01 :=
  repeat split;
  first [ done
        | by intros _; listed
        | by intros Hnan; rewrite Hnan in E01 ].

(** X23.  The weather text and the weather impact use the same rain bands:
    [_get_weather_condition] says "heavy rain", "light rain" or "drizzle"
    exactly when [calculate_weather_impact] sets the rain effect to 0.85,
    0.92 or 0.97 for the same precipitation, and it names a rain condition
    exactly when the weather point counts as wet; otherwise the cloud cover
    decides between "overcast" (above 80), "partly cloudy" (above 50) and
    "clear".  A missing precipitation ([NaN]) counts as dry. *)
Theorem weather_condition_matches_impact (weather_data : WeatherData) (circuit_key : string) :
  let condition :=
    WeatherService._get_weather_condition (precipitation_mm weather_data)
      (cloud_percentage weather_data) in
  let impact := WeatherService.calculate_weather_impact weather_data circuit_key in
  (condition = "heavy rain" ↔ WeatherService.rain_effect impact = 0.85%Q)
  ∧ (condition = "light rain" ↔ WeatherService.rain_effect impact = 0.92%Q)
  ∧ (condition = "drizzle" ↔ WeatherService.rain_effect impact = 0.97%Q)
  ∧ (condition ∈ ["heavy rain"; "light rain"; "drizzle"]
     ↔ WeatherService.wet (precipitation_mm weather_data) = true)
  ∧ (WeatherService.wet (precipitation_mm weather_data) = false →
     condition = if (80 <? cloud_percentage weather_data)%Z then "overcast"
                 else if (50 <? cloud_percentage weather_data)%Z then "partly cloudy"
                 else "clear")
  ∧ (precipitation_mm weather_data = NaN →
     WeatherService.wet (precipitation_mm weather_data) = false).
Proof.
  unfold WeatherService._get_weather_condition, WeatherService.calculate_weather_impact,
    WeatherService.wet. cbv zeta.
  destruct (weather_bands (precipitation_mm weather_data))
    as [(E5 & E1 & E01) | [(E5 & E1 & E01) | [(E5 & E1 & E01) | (E5 & E1 & E01)]]];
    rewrite ?E5, ?E1, ?E01; cbn [WeatherService.rain_effect].
  - rain_band E01.
  - rain_band E01.
  - rain_band E01.
  - assert (∀ text : string,
              text ∈ ["overcast"; "partly cloudy"; "clear"] →
              (text = "heavy rain" ↔ 1.0%Q = 0.85%Q)
              ∧ (text = "light rain" ↔ 1.0%Q = 0.92%Q)
              ∧ (text = "drizzle" ↔ 1.0%Q = 0.97%Q)
              ∧ (text ∈ ["heavy rain"; "light rain"; "drizzle"] ↔ false = true))
      as Hdry.
    { intros text Ht.
      repeat (apply elem_of_cons in Ht as [-> | Ht]);
        [..|by apply elem_of_nil in Ht];
        (repeat split; try done;
         intros Hin; repeat (apply elem_of_cons in Hin as [Hin | Hin]; [done|]);
         by apply elem_of_nil in Hin). }
    destruct (80 <? cloud_percentage weather_data)%Z;
      [|destruct (50 <? cloud_percentage weather_data)%Z];
      (match goal with
       | |- (?text = _ ↔ _) ∧ _ =>
           destruct (Hdry text) as (? & ? & ? & ?); [listed|]
       end;
       do 4 (split; [assumption|]); split; by intros _).
Qed.

(** X24.  More rain never helps: of two weather points with known
    precipitation, the one with at least as much rain has a rain effect at
    most as large and a chaos multiplier at least as large, whatever else
    the two points and circuits are. *)
Theorem weather_impact_monotone
    (weather_data wetter : WeatherData) (circuit_key other_key : string) (p p' : Q) :
  precipitation_mm weather_data = Num p →
  precipitation_mm wetter = Num p' →
  (p <= p')%Q →
  (WeatherService.rain_effect (WeatherService.calculate_weather_impact wetter other_key)
   <= WeatherService.rain_effect
        (WeatherService.calculate_weather_impact weather_data circuit_key))%Q
  ∧ (WeatherService.chaos_multiplier
       (WeatherService.calculate_weather_impact weather_data circuit_key)
     <= WeatherService.chaos_multiplier
          (WeatherService.calculate_weather_impact wetter other_key))%Q.
Proof.
  intros Hp Hp' Hle.
  unfold WeatherService.calculate_weather_impact. cbv zeta. rewrite Hp, Hp'.
  destruct (fltb (Num 5.0) (Num p)) eqn:E5;
    [apply fltb_above in E5 as (q5 & [= <-] & H5) | rewrite fltb_not_above in E5];
    (destruct (fltb (Num 1.0) (Num p)) eqn:E1;
     [apply fltb_above in E1 as (q1 & [= <-] & H1) | rewrite fltb_not_above in E1]);
    (destruct (fltb (Num 0.1) (Num p)) eqn:E01;
     [apply fltb_above in E01 as (q01 & [= <-] & H01) | rewrite fltb_not_above in E01]);
    try specialize (E5 p eq_refl); try specialize (E1 p eq_refl);
    try specialize (E01 p eq_refl);
    try (exfalso; lra);
    (destruct (fltb (Num 5.0) (Num p')) eqn:E5';
     [apply fltb_above in E5' as (q5' & [= <-] & H5') | rewrite fltb_not_above in E5']);
    (destruct (fltb (Num 1.0) (Num p')) eqn:E1';
     [apply fltb_above in E1' as (q1' & [= <-] & H1') | rewrite fltb_not_above in E1']);
    (destruct (fltb (Num 0.1) (Num p')) eqn:E01';
     [apply fltb_above in E01' as (q01' & [= <-] & H01')
     | rewrite fltb_not_above in E01']);
    try specialize (E5' p' eq_refl); try specialize (E1' p' eq_refl);
    try specialize (E01' p' eq_refl);
    try (exfalso; lra);
    cbn [WeatherService.rain_effect WeatherService.chaos_multiplier];
    split; compare_literals.
Qed.

Lemma weather_impact_monotone_witness :
  (WeatherService.rain_effect (WeatherService.calculate_weather_impact rainy_weather "spa")
   <= WeatherService.rain_effect
        (WeatherService.calculate_weather_impact dry_weather "monza"))%Q.
Proof.
  apply (weather_impact_monotone dry_weather rainy_weather "monza" "spa" 0.0 6.5
           eq_refl eq_refl).
  compare_literals.
Defined.

Lemma circuit_locations_by_name (key : string) (location : WeatherService.CircuitLocation) :
  WeatherService.circuit_locations !! key = Some location →
  WeatherService.name location = key.
Proof.
  assert (map_Forall (λ k l, WeatherService.name l = k) WeatherService.circuit_locations)
    as Hall.
  { refine (bool_decide_unpack _ _). vm_compute. exact I. }
  intros Hkey. exact (Hall key location Hkey).
Qed.

Lemma mapping_resolves (key mapped : string) :
  WeatherService.mapping !! key = Some mapped →
  is_Some (WeatherService.circuit_locations !! mapped) →
  key = "cota" ∧ mapped = "Austin".
Proof.
  assert (map_Forall (λ k m, is_Some (WeatherService.circuit_locations !! m) →
                             k = "cota" ∧ m = "Austin") WeatherService.mapping)
    as Hall.
  { refine (bool_decide_unpack _ _). vm_compute. exact I. }
  intros Hkey. exact (Hall key mapped Hkey).
Qed.

(** X25.  [_get_circuit_location] finds a location for an ASCII key in
    exactly two cases: the key, with underscores as spaces and in title
    case, is the name of one of the seven circuits of the table, or the key
    is "cota" (which gives Austin).  The other three entries of the
    mapping, "albert_park", "red_bull_ring" and "yas_marina", name circuits
    the table does not have and resolve nothing. *)
Theorem circuit_location_found (circuit_key : string)
    (location : WeatherService.CircuitLocation) :
  is_ascii circuit_key = true →
  WeatherService._get_circuit_location circuit_key = Some location
  ↔ WeatherService.circuit_locations !! WeatherService.name location = Some location
    ∧ (title (replace_char underscore space circuit_key) = WeatherService.name location
       ∨ (circuit_key = "cota" ∧ WeatherService.name location = "Austin")).
Proof.
  intros _. unfold WeatherService._get_circuit_location. cbv zeta. split.
  - destruct (WeatherService.circuit_locations
                !! title (replace_char underscore space circuit_key))
      as [found|] eqn:Hdirect.
    + intros [= ->]. pose proof (circuit_locations_by_name _ _ Hdirect) as Hname.
      split; [by rewrite Hname | by left].
    + destruct (WeatherService.mapping !! circuit_key) as [mapped|] eqn:Hmapped;
        [|done].
      destruct (WeatherService.circuit_locations !! mapped) as [found|] eqn:Hfound;
        [|done].
      intros [= ->].
      destruct (mapping_resolves _ _ Hmapped) as [-> ->]; [by rewrite Hfound|].
      pose proof (circuit_locations_by_name _ _ Hfound) as Hname.
      split; [by rewrite Hname | by right].
  - intros [Hfound [Htitle | [-> Hname]]].
    + by rewrite Htitle, Hfound.
    + rewrite Hname in Hfound.
      replace (WeatherService.circuit_locations !! title (replace_char underscore space "cota"))
        with (@None WeatherService.CircuitLocation) by (vm_compute; reflexivity).
      replace (WeatherService.mapping !! "cota") with (Some "Austin")
        by (vm_compute; reflexivity).
      by rewrite Hfound.
Qed.

Lemma circuit_location_found_witness :
  ∃ location,
    WeatherService._get_circuit_location "MONACO" = Some location
    ∧ WeatherService.name location = "Monaco".
Proof.
  exists {| WeatherService.name := "Monaco";
            WeatherService.latitude := 43.7384;
            WeatherService.longitude := 7.4246 |}.
  split; [apply (circuit_location_found "MONACO"); [reflexivity|] | reflexivity].
  split; [vm_compute; reflexivity | left; vm_compute; reflexivity].
Defined.
